(** * Gemini English Tutor: the realtime session manager and its collaborators

    A shallow embedding of

    - [utils/audio] (the transport codec used by the conversation view),
    - [services/geminiService.ts] ([generateFeedback]),
    - [components/ConversationView.tsx] (the session manager: teardown,
      failure handling, connect, the transport callbacks, the timers),

    followed by the properties of the specification that concern them.

    Conventions.  JavaScript strings are byte strings ([string]); the only
    case mapping performed is the ASCII one.  JavaScript numbers that hold
    seconds (the playback clock, buffer durations, the scheduling cursor) are
    exact rationals ([Q]); the rounding of double-precision sums is outside
    the model.  Counters and millisecond delays are integers ([Z]).  The
    [useRef] cells and [useState] cells of the component are the fields of one
    record, threaded through a small state-and-exception monad. *)

From Stdlib Require Import List String Ascii Bool Arith ZArith NArith QArith Lia.
From Stdlib Require Import Qminmax Lqa.
From Stdlib Require Strings.Byte DecimalString.
Import ListNotations.

Local Open Scope string_scope.

(* ================================================================== *)
(** ** Small string helpers shared by the modules *)

Definition dquote : string := String (ascii_of_nat 34) EmptyString.
Definition newline : string := String (ascii_of_nat 10) EmptyString.

(** [Array.prototype.join]. *)
Fixpoint join (sep : string) (parts : list string) : string :=
  match parts with
  | [] => ""
  | [p] => p
  | p :: rest => p ++ sep ++ join sep rest
  end.

(** Truthiness of a JavaScript string: non-empty. *)
Definition truthy (s : string) : bool :=
  match s with
  | EmptyString => false
  | String _ _ => true
  end.

(* ================================================================== *)
(** ** types.ts *)

Module Types.

Inductive Speaker := user | gemini.

Record TranscriptionEntry := {
  id : string;
  speaker : Speaker;
  text : string
}.

Inductive MaterialType := type_text | type_image | type_url.

Record LessonMaterial := {
  type : MaterialType;
  content : string;
  sourceUrl : option string
}.

(** A thrown or rejected JavaScript value: an [Error] object with its
    message, or anything else (an event object, a string, ...). *)
Inductive JsValue := ErrorObject (message : string) | NotAnError.

(** How a promise settles. *)
Inductive Settled (A : Type) := Fulfilled (a : A) | Rejected (e : JsValue).
Arguments Fulfilled {A} a.
Arguments Rejected {A} e.

(** [`${entry.speaker === 'user' ? 'Student' : 'Tutor'}: ${entry.text}`],
    the line both the feedback prompt and the reconnect recap are built of. *)
Definition transcriptLine (entry : TranscriptionEntry) : string :=
  (match speaker entry with user => "Student" | gemini => "Tutor" end)
  ++ ": " ++ text entry.

End Types.

(* ================================================================== *)
(** ** utils/audio: the transport codec *)

Module AudioCodec.

Import Byte.
Local Open Scope N_scope.

(** Modelled from the spec: [utils/audio] ([encode], [decode]) is imported by
    the conversation view but is not among the sources.  The spec describes
    [encode] as a reversible, binary-safe byte-to-text transport encoding and
    [decode] as its exact inverse; the caller names the payload
    [base64Audio].  The model is RFC 4648 base64 with the standard alphabet
    and [=] padding; [decode] fails ([None]) on text that is not a padded
    base64 string, where the platform decoder raises. *)
Definition alphabet : string :=
  "ABCDEFGHIJKLMNOPQRSTUVWXYZabcdefghijklmnopqrstuvwxyz0123456789+/".

Definition pad : ascii := "="%char.

Definition char_of_sextet (n : N) : ascii :=
  match String.get (N.to_nat n) alphabet with
  | Some c => c
  | None => pad
  end.

Fixpoint index_from (i : N) (c : ascii) (s : string) : option N :=
  match s with
  | EmptyString => None
  | String d s' => if Ascii.eqb c d then Some i else index_from (N.succ i) c s'
  end.

Definition sextet_of_char (c : ascii) : option N := index_from 0 c alphabet.

Definition byte_of_N (n : N) : byte :=
  match Byte.of_N (n mod 256) with
  | Some b => b
  | None => x00
  end.

(** Three octets as one 24-bit group, and the four 6-bit digits of a group. *)
Definition group (a b c : byte) : N :=
  Byte.to_N a * 65536 + Byte.to_N b * 256 + Byte.to_N c.

Definition digit (k : N) (g : N) : N := (g / 64 ^ k) mod 64.

Definition ungroup (s0 s1 s2 s3 : N) : N :=
  s0 * 262144 + s1 * 4096 + s2 * 64 + s3.

Definition octet (k : N) (g : N) : byte := byte_of_N (g / 256 ^ k).

Fixpoint encode_chars (bytes : list byte) : list ascii :=
  match bytes with
  | [] => []
  | [a] =>
      let g := group a x00 x00 in
      [char_of_sextet (digit 3 g); char_of_sextet (digit 2 g); pad; pad]
  | [a; b] =>
      let g := group a b x00 in
      [char_of_sextet (digit 3 g); char_of_sextet (digit 2 g);
       char_of_sextet (digit 1 g); pad]
  | a :: b :: c :: rest =>
      let g := group a b c in
      char_of_sextet (digit 3 g) :: char_of_sextet (digit 2 g) ::
      char_of_sextet (digit 1 g) :: char_of_sextet (digit 0 g) ::
      encode_chars rest
  end.

Definition encode (bytes : list byte) : string :=
  string_of_list_ascii (encode_chars bytes).

Definition decode3 (c0 c1 c2 c3 : ascii) : option (list byte) :=
  match sextet_of_char c0, sextet_of_char c1,
        sextet_of_char c2, sextet_of_char c3 with
  | Some s0, Some s1, Some s2, Some s3 =>
      let g := ungroup s0 s1 s2 s3 in
      Some [octet 2 g; octet 1 g; octet 0 g]
  | _, _, _, _ => None
  end.

Definition decode2 (c0 c1 c2 : ascii) : option (list byte) :=
  match sextet_of_char c0, sextet_of_char c1, sextet_of_char c2 with
  | Some s0, Some s1, Some s2 =>
      let g := ungroup s0 s1 s2 0 in
      Some [octet 2 g; octet 1 g]
  | _, _, _ => None
  end.

Definition decode1 (c0 c1 : ascii) : option (list byte) :=
  match sextet_of_char c0, sextet_of_char c1 with
  | Some s0, Some s1 =>
      let g := ungroup s0 s1 0 0 in
      Some [octet 2 g]
  | _, _ => None
  end.

Fixpoint decode_chars (cs : list ascii) : option (list byte) :=
  match cs with
  | [] => Some []
  | c0 :: c1 :: c2 :: c3 :: rest =>
      match rest with
      | [] =>
          if Ascii.eqb c3 pad then
            if Ascii.eqb c2 pad then decode1 c0 c1 else decode2 c0 c1 c2
          else decode3 c0 c1 c2 c3
      | _ :: _ =>
          match decode3 c0 c1 c2 c3, decode_chars rest with
          | Some front, Some back => Some (front ++ back)%list
          | _, _ => None
          end
      end
  | _ => None
  end.

Definition decode (text : string) : option (list byte) :=
  decode_chars (list_ascii_of_string text).

End AudioCodec.

(* ================================================================== *)
(** ** services/geminiService.ts: [generateFeedback] *)

Module GeminiService.

Import Types.

Record Request := {
  model : string;
  contents : string;
  thinkingBudget : Z
}.

(** The hosted model as the function sees it: constructing the client may
    throw, and a [generateContent] call settles with the response text or
    rejects. *)
Record GoogleGenAI := {
  construct : Settled unit;
  generateContent : Request -> Settled string
}.

Definition NO_CONVERSATION : string :=
  "There was no conversation to analyze. Let's try another lesson!".

Definition FEEDBACK_FALLBACK : string :=
  "Sorry, I was unable to generate feedback for this session. Please try again next time.".

Definition feedbackPrompt (transcript : string) : string :=
  "You are an expert English teacher reviewing a lesson transcript. The lesson was between an AI Tutor (you) and a Student. 
Based on the following transcript, provide detailed, constructive feedback for the Student.

Transcript:
---
" ++ transcript ++ "
---

Your feedback should be encouraging and focus on these areas:
1.  **Grammar and Sentence Structure:** Point out any recurring mistakes and provide correct examples.
2.  **Vocabulary Usage:** Comment on the student's word choice. Suggest more appropriate or advanced vocabulary where applicable.
3.  **Fluency and Coherence:** Assess how well the student expressed their ideas.
4.  **Overall Progress:** Give a summary of what the student did well and suggest one or two key areas to focus on for the next lesson.

Format your response as clear, easy-to-read text. Use headings for each section. Do not use Markdown formatting.".

Definition feedbackRequest (history : list TranscriptionEntry) : Request :=
  let transcript := join newline (map transcriptLine history) in
  {| model := "gemini-2.5-pro";
     contents := feedbackPrompt transcript;
     thinkingBudget := 32768 |}.

(** The promise returned by the [async] function together with the requests
    sent to the model while it ran. *)
Definition generateFeedback (ai : GoogleGenAI)
    (history : list TranscriptionEntry) : Settled string * list Request :=
  if (List.length history =? 0)%nat then (Fulfilled NO_CONVERSATION, [])
  else
    (* try *)
    match construct ai with
    | Rejected _ => (* catch *) (Fulfilled FEEDBACK_FALLBACK, [])
    | Fulfilled _ =>
        let request := feedbackRequest history in
        match generateContent ai request with
        | Fulfilled response_text => (Fulfilled response_text, [request])
        | Rejected _ => (* catch *) (Fulfilled FEEDBACK_FALLBACK, [request])
        end
    end.

(** The underlying generation fails on [history]: the client cannot be built
    or the call for this transcript rejects. *)
Definition generationFails (ai : GoogleGenAI)
    (history : list TranscriptionEntry) : Prop :=
  (exists e, construct ai = Rejected e) \/
  (exists e, generateContent ai (feedbackRequest history) = Rejected e).

(** *** [analyzeLessonImage], [analyzeUrlForLesson] *)

(** A part of a multi-part request.  The image data is what the caller
    passes, which can be [undefined] ([None]). *)
Inductive RequestPart :=
| InlineData (data : option string) (mimeType : string)
| Text (text : string).

Record PartsRequest := {
  partsModel : string;
  requestParts : list RequestPart;
  partsThinkingBudget : option Z
}.

(** The hosted model as the two analyzers see it. *)
Record Analyzer := {
  constructAnalyzer : Settled unit;
  generateFromParts : PartsRequest -> Settled string
}.

Definition IMAGE_INSTRUCTION : string :=
  "You are an assistant for an English learning app. Analyze this image of a textbook page or a list of words. Extract the key vocabulary, phrases, and topics for a conversation lesson. Present this information clearly and concisely as a plain text list. This will be used to guide an AI English tutor.".

Definition IMAGE_FALLBACK : string :=
  "I was unable to analyze the image. Let's just have a general conversation instead. What would you like to talk about?".

Definition imageRequest (base64Image : option string) (mimeType : string)
  : PartsRequest :=
  let imagePart := InlineData base64Image mimeType in
  let textPart := Text IMAGE_INSTRUCTION in
  {| partsModel := "gemini-2.5-flash";
     requestParts := [imagePart; textPart];
     partsThinkingBudget := None |}.

Definition analyzeLessonImage (ai : Analyzer) (base64Image : option string)
    (mimeType : string) : Settled string * list PartsRequest :=
  (* try *)
  match constructAnalyzer ai with
  | Rejected _ => (* catch *) (Fulfilled IMAGE_FALLBACK, [])
  | Fulfilled _ =>
      let request := imageRequest base64Image mimeType in
      match generateFromParts ai request with
      | Fulfilled response_text => (Fulfilled response_text, [request])
      | Rejected _ => (* catch *) (Fulfilled IMAGE_FALLBACK, [request])
      end
  end.

Definition urlInstruction (url : string) : string :=
  "You are an assistant for an English learning app. A user has provided this URL for an English lesson: "
  ++ url ++ ". 
            Your task is to analyze the content of this URL and create a structured lesson plan. Understand the flow of the material, from introduction to key points, exercises, and conclusion. 
            This plan should guide you, as the AI English tutor, to lead a natural, flowing conversation based on the provided material.
            If you cannot directly access the URL, analyze the URL itself to infer the topic and generate a logical lesson structure.
            Present the resulting lesson plan as clear, concise text.".

Definition urlFallback (url : string) : string :=
  "I was unable to analyze the content from the URL. Let's have a conversation based on the topic it might be about, or you can tell me what you'd like to talk about. The URL was: "
  ++ url.

Definition urlRequest (url : string) : PartsRequest :=
  let textPart := Text (urlInstruction url) in
  {| partsModel := "gemini-2.5-pro";
     requestParts := [textPart];
     partsThinkingBudget := Some 32768%Z |}.

Definition analyzeUrlForLesson (ai : Analyzer) (url : string)
  : Settled string * list PartsRequest :=
  (* try *)
  match constructAnalyzer ai with
  | Rejected _ => (* catch *) (Fulfilled (urlFallback url), [])
  | Fulfilled _ =>
      let request := urlRequest url in
      match generateFromParts ai request with
      | Fulfilled response_text => (Fulfilled response_text, [request])
      | Rejected _ => (* catch *) (Fulfilled (urlFallback url), [request])
      end
  end.

End GeminiService.

(* ================================================================== *)
(** ** components/ConversationView.tsx: the session manager *)

Module ConversationView.

Import Types.

Definition MAX_RECONNECT_ATTEMPTS : Z := 3.
Definition PARTING_WORDS : list string :=
  ["goodbye"; "good bye"; "see you"; "lesson is over"].

Inductive ConnectionState :=
  idle | connecting | connected | reconnecting | error.

(** *** String operations used by the component *)

(** Case mapping of one character: the ASCII capitals go to their small
    letters, every other byte is kept. *)
Definition lowerChar (c : ascii) : ascii :=
  let n := nat_of_ascii c in
  if ((65 <=? n) && (n <=? 90))%nat then ascii_of_nat (n + 32) else c.

(** [String.prototype.toLowerCase]. *)
Fixpoint toLowerCase (s : string) : string :=
  match s with
  | EmptyString => EmptyString
  | String c rest => String (lowerChar c) (toLowerCase rest)
  end.

(** [String.prototype.includes]: [word] occurs in [s] at some position. *)
Fixpoint includes (s word : string) : bool :=
  String.prefix word s ||
  match s with
  | EmptyString => false
  | String _ rest => includes rest word
  end.

(** [Date.now()] rendered inside a template string. *)
Definition numberToString (n : Z) : string :=
  DecimalString.NilZero.string_of_int (Z.to_int n).

(** *** Platform objects

    Each object carries an identity and what the platform will do when the
    component calls it: whether [disconnect] or [stop] throws, how a promise
    settles, whether a context is already closed. *)

Record SessionPromise := {
  promiseId : nat;
  outcome : Settled unit
}.

Record MediaStream := { tracks : list nat }.

Inductive AudioContextState := suspended | running | closed.

Record AudioContext := {
  contextId : nat;
  sampleRate : Z;
  state : AudioContextState
}.

Record AudioNode := {
  nodeId : nat;
  disconnectThrows : bool
}.

Record AudioBufferSourceNode := {
  sourceId : nat;
  stopThrows : bool
}.

(** An [AudioBuffer]: a number of sample frames at a rate; its [duration]
    is their quotient, in seconds. *)
Record AudioBuffer := {
  frameCount : N;
  bufferSampleRate : positive
}.

Definition duration (b : AudioBuffer) : Q :=
  Qmake (Z.of_N (frameCount b)) (bufferSampleRate b).

Inductive Effect :=
| ConsoleError
| GetUserMedia
| LiveConnect (promise : nat) (systemInstruction : string)
| SessionClose (promise : nat)
| TrackStop (track : nat)
| NodeConnect (node : nat)
| NodeDisconnect (node : nat)
| ContextClose (context : nat)
| SourceStart (source : nat) (startTime : Q) (length : Q)
| SourceStop (source : nat)
| OnEndLesson (history : list TranscriptionEntry).

(** The two functions handed to [setTimeout]. *)
Inductive TimerCallback :=
| CallStartConversationRef
    (* () => startConversationRef.current?.() *)
| CallHandleEndLesson (newHistory : list TranscriptionEntry).
    (* () => { handleEndLesson(newHistory); } *)

Record Timer := {
  callback : TimerCallback;
  delay : Z
}.

(** What [startConversationRef] can hold besides [null]. *)
Inductive Callable := StartConversation.

(** *** The component's cells *)

Record State := {
  (* useState cells *)
  transcriptionHistory : list TranscriptionEntry;
  currentUserTranscript : string;
  currentGeminiTranscript : string;
  connectionState : ConnectionState;
  connectionError : option string;
  (* useRef cells *)
  sessionPromise : option SessionPromise;
  mediaStream : option MediaStream;
  inputAudioContext : option AudioContext;
  scriptProcessor : option AudioNode;
  mediaStreamSource : option AudioNode;
  outputAudioContext : option AudioContext;
  audioSources : list AudioBufferSourceNode;
  nextStartTime : Q;
  reconnectAttempts : Z;
  currentUserTranscriptRef : string;
  currentGeminiTranscriptRef : string;
  startConversationRef : option Callable;
  (* the world outside the component: pending [setTimeout] callbacks,
     the calls made to the platform and to the parent, the next object id *)
  timers : list Timer;
  effects : list Effect;
  nextObject : nat
}.

(** [latestTranscriptionHistory] is a ref that an effect sets to
    [transcriptionHistory] after every render; it is read as the state cell
    itself. *)
Definition latestTranscriptionHistory (s : State) : list TranscriptionEntry :=
  transcriptionHistory s.

(** Field updates, one per cell. *)
Definition set_transcriptionHistory (v : list TranscriptionEntry) (s : State) : State :=
  {| transcriptionHistory := v; currentUserTranscript :=
     currentUserTranscript s; currentGeminiTranscript :=
     currentGeminiTranscript s; connectionState := connectionState s;
     connectionError := connectionError s; sessionPromise := sessionPromise
     s; mediaStream := mediaStream s; inputAudioContext := inputAudioContext
     s; scriptProcessor := scriptProcessor s; mediaStreamSource :=
     mediaStreamSource s; outputAudioContext := outputAudioContext s;
     audioSources := audioSources s; nextStartTime := nextStartTime s;
     reconnectAttempts := reconnectAttempts s; currentUserTranscriptRef :=
     currentUserTranscriptRef s; currentGeminiTranscriptRef :=
     currentGeminiTranscriptRef s; startConversationRef :=
     startConversationRef s; timers := timers s; effects := effects s;
     nextObject := nextObject s |}.
Definition set_currentUserTranscript (v : string) (s : State) : State :=
  {| transcriptionHistory := transcriptionHistory s; currentUserTranscript :=
     v; currentGeminiTranscript := currentGeminiTranscript s; connectionState
     := connectionState s; connectionError := connectionError s;
     sessionPromise := sessionPromise s; mediaStream := mediaStream s;
     inputAudioContext := inputAudioContext s; scriptProcessor :=
     scriptProcessor s; mediaStreamSource := mediaStreamSource s;
     outputAudioContext := outputAudioContext s; audioSources := audioSources
     s; nextStartTime := nextStartTime s; reconnectAttempts :=
     reconnectAttempts s; currentUserTranscriptRef :=
     currentUserTranscriptRef s; currentGeminiTranscriptRef :=
     currentGeminiTranscriptRef s; startConversationRef :=
     startConversationRef s; timers := timers s; effects := effects s;
     nextObject := nextObject s |}.
Definition set_currentGeminiTranscript (v : string) (s : State) : State :=
  {| transcriptionHistory := transcriptionHistory s; currentUserTranscript :=
     currentUserTranscript s; currentGeminiTranscript := v; connectionState
     := connectionState s; connectionError := connectionError s;
     sessionPromise := sessionPromise s; mediaStream := mediaStream s;
     inputAudioContext := inputAudioContext s; scriptProcessor :=
     scriptProcessor s; mediaStreamSource := mediaStreamSource s;
     outputAudioContext := outputAudioContext s; audioSources := audioSources
     s; nextStartTime := nextStartTime s; reconnectAttempts :=
     reconnectAttempts s; currentUserTranscriptRef :=
     currentUserTranscriptRef s; currentGeminiTranscriptRef :=
     currentGeminiTranscriptRef s; startConversationRef :=
     startConversationRef s; timers := timers s; effects := effects s;
     nextObject := nextObject s |}.
Definition set_connectionState (v : ConnectionState) (s : State) : State :=
  {| transcriptionHistory := transcriptionHistory s; currentUserTranscript :=
     currentUserTranscript s; currentGeminiTranscript :=
     currentGeminiTranscript s; connectionState := v; connectionError :=
     connectionError s; sessionPromise := sessionPromise s; mediaStream :=
     mediaStream s; inputAudioContext := inputAudioContext s; scriptProcessor
     := scriptProcessor s; mediaStreamSource := mediaStreamSource s;
     outputAudioContext := outputAudioContext s; audioSources := audioSources
     s; nextStartTime := nextStartTime s; reconnectAttempts :=
     reconnectAttempts s; currentUserTranscriptRef :=
     currentUserTranscriptRef s; currentGeminiTranscriptRef :=
     currentGeminiTranscriptRef s; startConversationRef :=
     startConversationRef s; timers := timers s; effects := effects s;
     nextObject := nextObject s |}.
Definition set_connectionError (v : option string) (s : State) : State :=
  {| transcriptionHistory := transcriptionHistory s; currentUserTranscript :=
     currentUserTranscript s; currentGeminiTranscript :=
     currentGeminiTranscript s; connectionState := connectionState s;
     connectionError := v; sessionPromise := sessionPromise s; mediaStream :=
     mediaStream s; inputAudioContext := inputAudioContext s; scriptProcessor
     := scriptProcessor s; mediaStreamSource := mediaStreamSource s;
     outputAudioContext := outputAudioContext s; audioSources := audioSources
     s; nextStartTime := nextStartTime s; reconnectAttempts :=
     reconnectAttempts s; currentUserTranscriptRef :=
     currentUserTranscriptRef s; currentGeminiTranscriptRef :=
     currentGeminiTranscriptRef s; startConversationRef :=
     startConversationRef s; timers := timers s; effects := effects s;
     nextObject := nextObject s |}.
Definition set_sessionPromise (v : option SessionPromise) (s : State) : State :=
  {| transcriptionHistory := transcriptionHistory s; currentUserTranscript :=
     currentUserTranscript s; currentGeminiTranscript :=
     currentGeminiTranscript s; connectionState := connectionState s;
     connectionError := connectionError s; sessionPromise := v; mediaStream
     := mediaStream s; inputAudioContext := inputAudioContext s;
     scriptProcessor := scriptProcessor s; mediaStreamSource :=
     mediaStreamSource s; outputAudioContext := outputAudioContext s;
     audioSources := audioSources s; nextStartTime := nextStartTime s;
     reconnectAttempts := reconnectAttempts s; currentUserTranscriptRef :=
     currentUserTranscriptRef s; currentGeminiTranscriptRef :=
     currentGeminiTranscriptRef s; startConversationRef :=
     startConversationRef s; timers := timers s; effects := effects s;
     nextObject := nextObject s |}.
Definition set_mediaStream (v : option MediaStream) (s : State) : State :=
  {| transcriptionHistory := transcriptionHistory s; currentUserTranscript :=
     currentUserTranscript s; currentGeminiTranscript :=
     currentGeminiTranscript s; connectionState := connectionState s;
     connectionError := connectionError s; sessionPromise := sessionPromise
     s; mediaStream := v; inputAudioContext := inputAudioContext s;
     scriptProcessor := scriptProcessor s; mediaStreamSource :=
     mediaStreamSource s; outputAudioContext := outputAudioContext s;
     audioSources := audioSources s; nextStartTime := nextStartTime s;
     reconnectAttempts := reconnectAttempts s; currentUserTranscriptRef :=
     currentUserTranscriptRef s; currentGeminiTranscriptRef :=
     currentGeminiTranscriptRef s; startConversationRef :=
     startConversationRef s; timers := timers s; effects := effects s;
     nextObject := nextObject s |}.
Definition set_inputAudioContext (v : option AudioContext) (s : State) : State :=
  {| transcriptionHistory := transcriptionHistory s; currentUserTranscript :=
     currentUserTranscript s; currentGeminiTranscript :=
     currentGeminiTranscript s; connectionState := connectionState s;
     connectionError := connectionError s; sessionPromise := sessionPromise
     s; mediaStream := mediaStream s; inputAudioContext := v; scriptProcessor
     := scriptProcessor s; mediaStreamSource := mediaStreamSource s;
     outputAudioContext := outputAudioContext s; audioSources := audioSources
     s; nextStartTime := nextStartTime s; reconnectAttempts :=
     reconnectAttempts s; currentUserTranscriptRef :=
     currentUserTranscriptRef s; currentGeminiTranscriptRef :=
     currentGeminiTranscriptRef s; startConversationRef :=
     startConversationRef s; timers := timers s; effects := effects s;
     nextObject := nextObject s |}.
Definition set_scriptProcessor (v : option AudioNode) (s : State) : State :=
  {| transcriptionHistory := transcriptionHistory s; currentUserTranscript :=
     currentUserTranscript s; currentGeminiTranscript :=
     currentGeminiTranscript s; connectionState := connectionState s;
     connectionError := connectionError s; sessionPromise := sessionPromise
     s; mediaStream := mediaStream s; inputAudioContext := inputAudioContext
     s; scriptProcessor := v; mediaStreamSource := mediaStreamSource s;
     outputAudioContext := outputAudioContext s; audioSources := audioSources
     s; nextStartTime := nextStartTime s; reconnectAttempts :=
     reconnectAttempts s; currentUserTranscriptRef :=
     currentUserTranscriptRef s; currentGeminiTranscriptRef :=
     currentGeminiTranscriptRef s; startConversationRef :=
     startConversationRef s; timers := timers s; effects := effects s;
     nextObject := nextObject s |}.
Definition set_mediaStreamSource (v : option AudioNode) (s : State) : State :=
  {| transcriptionHistory := transcriptionHistory s; currentUserTranscript :=
     currentUserTranscript s; currentGeminiTranscript :=
     currentGeminiTranscript s; connectionState := connectionState s;
     connectionError := connectionError s; sessionPromise := sessionPromise
     s; mediaStream := mediaStream s; inputAudioContext := inputAudioContext
     s; scriptProcessor := scriptProcessor s; mediaStreamSource := v;
     outputAudioContext := outputAudioContext s; audioSources := audioSources
     s; nextStartTime := nextStartTime s; reconnectAttempts :=
     reconnectAttempts s; currentUserTranscriptRef :=
     currentUserTranscriptRef s; currentGeminiTranscriptRef :=
     currentGeminiTranscriptRef s; startConversationRef :=
     startConversationRef s; timers := timers s; effects := effects s;
     nextObject := nextObject s |}.
Definition set_outputAudioContext (v : option AudioContext) (s : State) : State :=
  {| transcriptionHistory := transcriptionHistory s; currentUserTranscript :=
     currentUserTranscript s; currentGeminiTranscript :=
     currentGeminiTranscript s; connectionState := connectionState s;
     connectionError := connectionError s; sessionPromise := sessionPromise
     s; mediaStream := mediaStream s; inputAudioContext := inputAudioContext
     s; scriptProcessor := scriptProcessor s; mediaStreamSource :=
     mediaStreamSource s; outputAudioContext := v; audioSources :=
     audioSources s; nextStartTime := nextStartTime s; reconnectAttempts :=
     reconnectAttempts s; currentUserTranscriptRef :=
     currentUserTranscriptRef s; currentGeminiTranscriptRef :=
     currentGeminiTranscriptRef s; startConversationRef :=
     startConversationRef s; timers := timers s; effects := effects s;
     nextObject := nextObject s |}.
Definition set_audioSources (v : list AudioBufferSourceNode) (s : State) : State :=
  {| transcriptionHistory := transcriptionHistory s; currentUserTranscript :=
     currentUserTranscript s; currentGeminiTranscript :=
     currentGeminiTranscript s; connectionState := connectionState s;
     connectionError := connectionError s; sessionPromise := sessionPromise
     s; mediaStream := mediaStream s; inputAudioContext := inputAudioContext
     s; scriptProcessor := scriptProcessor s; mediaStreamSource :=
     mediaStreamSource s; outputAudioContext := outputAudioContext s;
     audioSources := v; nextStartTime := nextStartTime s; reconnectAttempts
     := reconnectAttempts s; currentUserTranscriptRef :=
     currentUserTranscriptRef s; currentGeminiTranscriptRef :=
     currentGeminiTranscriptRef s; startConversationRef :=
     startConversationRef s; timers := timers s; effects := effects s;
     nextObject := nextObject s |}.
Definition set_nextStartTime (v : Q) (s : State) : State :=
  {| transcriptionHistory := transcriptionHistory s; currentUserTranscript :=
     currentUserTranscript s; currentGeminiTranscript :=
     currentGeminiTranscript s; connectionState := connectionState s;
     connectionError := connectionError s; sessionPromise := sessionPromise
     s; mediaStream := mediaStream s; inputAudioContext := inputAudioContext
     s; scriptProcessor := scriptProcessor s; mediaStreamSource :=
     mediaStreamSource s; outputAudioContext := outputAudioContext s;
     audioSources := audioSources s; nextStartTime := v; reconnectAttempts :=
     reconnectAttempts s; currentUserTranscriptRef :=
     currentUserTranscriptRef s; currentGeminiTranscriptRef :=
     currentGeminiTranscriptRef s; startConversationRef :=
     startConversationRef s; timers := timers s; effects := effects s;
     nextObject := nextObject s |}.
Definition set_reconnectAttempts (v : Z) (s : State) : State :=
  {| transcriptionHistory := transcriptionHistory s; currentUserTranscript :=
     currentUserTranscript s; currentGeminiTranscript :=
     currentGeminiTranscript s; connectionState := connectionState s;
     connectionError := connectionError s; sessionPromise := sessionPromise
     s; mediaStream := mediaStream s; inputAudioContext := inputAudioContext
     s; scriptProcessor := scriptProcessor s; mediaStreamSource :=
     mediaStreamSource s; outputAudioContext := outputAudioContext s;
     audioSources := audioSources s; nextStartTime := nextStartTime s;
     reconnectAttempts := v; currentUserTranscriptRef :=
     currentUserTranscriptRef s; currentGeminiTranscriptRef :=
     currentGeminiTranscriptRef s; startConversationRef :=
     startConversationRef s; timers := timers s; effects := effects s;
     nextObject := nextObject s |}.
Definition set_currentUserTranscriptRef (v : string) (s : State) : State :=
  {| transcriptionHistory := transcriptionHistory s; currentUserTranscript :=
     currentUserTranscript s; currentGeminiTranscript :=
     currentGeminiTranscript s; connectionState := connectionState s;
     connectionError := connectionError s; sessionPromise := sessionPromise
     s; mediaStream := mediaStream s; inputAudioContext := inputAudioContext
     s; scriptProcessor := scriptProcessor s; mediaStreamSource :=
     mediaStreamSource s; outputAudioContext := outputAudioContext s;
     audioSources := audioSources s; nextStartTime := nextStartTime s;
     reconnectAttempts := reconnectAttempts s; currentUserTranscriptRef := v;
     currentGeminiTranscriptRef := currentGeminiTranscriptRef s;
     startConversationRef := startConversationRef s; timers := timers s;
     effects := effects s; nextObject := nextObject s |}.
Definition set_currentGeminiTranscriptRef (v : string) (s : State) : State :=
  {| transcriptionHistory := transcriptionHistory s; currentUserTranscript :=
     currentUserTranscript s; currentGeminiTranscript :=
     currentGeminiTranscript s; connectionState := connectionState s;
     connectionError := connectionError s; sessionPromise := sessionPromise
     s; mediaStream := mediaStream s; inputAudioContext := inputAudioContext
     s; scriptProcessor := scriptProcessor s; mediaStreamSource :=
     mediaStreamSource s; outputAudioContext := outputAudioContext s;
     audioSources := audioSources s; nextStartTime := nextStartTime s;
     reconnectAttempts := reconnectAttempts s; currentUserTranscriptRef :=
     currentUserTranscriptRef s; currentGeminiTranscriptRef := v;
     startConversationRef := startConversationRef s; timers := timers s;
     effects := effects s; nextObject := nextObject s |}.
Definition set_startConversationRef (v : option Callable) (s : State) : State :=
  {| transcriptionHistory := transcriptionHistory s; currentUserTranscript :=
     currentUserTranscript s; currentGeminiTranscript :=
     currentGeminiTranscript s; connectionState := connectionState s;
     connectionError := connectionError s; sessionPromise := sessionPromise
     s; mediaStream := mediaStream s; inputAudioContext := inputAudioContext
     s; scriptProcessor := scriptProcessor s; mediaStreamSource :=
     mediaStreamSource s; outputAudioContext := outputAudioContext s;
     audioSources := audioSources s; nextStartTime := nextStartTime s;
     reconnectAttempts := reconnectAttempts s; currentUserTranscriptRef :=
     currentUserTranscriptRef s; currentGeminiTranscriptRef :=
     currentGeminiTranscriptRef s; startConversationRef := v; timers :=
     timers s; effects := effects s; nextObject := nextObject s |}.
Definition set_timers (v : list Timer) (s : State) : State :=
  {| transcriptionHistory := transcriptionHistory s; currentUserTranscript :=
     currentUserTranscript s; currentGeminiTranscript :=
     currentGeminiTranscript s; connectionState := connectionState s;
     connectionError := connectionError s; sessionPromise := sessionPromise
     s; mediaStream := mediaStream s; inputAudioContext := inputAudioContext
     s; scriptProcessor := scriptProcessor s; mediaStreamSource :=
     mediaStreamSource s; outputAudioContext := outputAudioContext s;
     audioSources := audioSources s; nextStartTime := nextStartTime s;
     reconnectAttempts := reconnectAttempts s; currentUserTranscriptRef :=
     currentUserTranscriptRef s; currentGeminiTranscriptRef :=
     currentGeminiTranscriptRef s; startConversationRef :=
     startConversationRef s; timers := v; effects := effects s; nextObject :=
     nextObject s |}.
Definition set_effects (v : list Effect) (s : State) : State :=
  {| transcriptionHistory := transcriptionHistory s; currentUserTranscript :=
     currentUserTranscript s; currentGeminiTranscript :=
     currentGeminiTranscript s; connectionState := connectionState s;
     connectionError := connectionError s; sessionPromise := sessionPromise
     s; mediaStream := mediaStream s; inputAudioContext := inputAudioContext
     s; scriptProcessor := scriptProcessor s; mediaStreamSource :=
     mediaStreamSource s; outputAudioContext := outputAudioContext s;
     audioSources := audioSources s; nextStartTime := nextStartTime s;
     reconnectAttempts := reconnectAttempts s; currentUserTranscriptRef :=
     currentUserTranscriptRef s; currentGeminiTranscriptRef :=
     currentGeminiTranscriptRef s; startConversationRef :=
     startConversationRef s; timers := timers s; effects := v; nextObject :=
     nextObject s |}.
Definition set_nextObject (v : nat) (s : State) : State :=
  {| transcriptionHistory := transcriptionHistory s; currentUserTranscript :=
     currentUserTranscript s; currentGeminiTranscript :=
     currentGeminiTranscript s; connectionState := connectionState s;
     connectionError := connectionError s; sessionPromise := sessionPromise
     s; mediaStream := mediaStream s; inputAudioContext := inputAudioContext
     s; scriptProcessor := scriptProcessor s; mediaStreamSource :=
     mediaStreamSource s; outputAudioContext := outputAudioContext s;
     audioSources := audioSources s; nextStartTime := nextStartTime s;
     reconnectAttempts := reconnectAttempts s; currentUserTranscriptRef :=
     currentUserTranscriptRef s; currentGeminiTranscriptRef :=
     currentGeminiTranscriptRef s; startConversationRef :=
     startConversationRef s; timers := timers s; effects := effects s;
     nextObject := v |}.

(** The component as first rendered: every ref at its [useRef] argument,
    every state cell at its [useState] argument. *)
Definition initial : State :=
  {| transcriptionHistory := [];
     currentUserTranscript := "";
     currentGeminiTranscript := "";
     connectionState := idle;
     connectionError := None;
     sessionPromise := None;
     mediaStream := None;
     inputAudioContext := None;
     scriptProcessor := None;
     mediaStreamSource := None;
     outputAudioContext := None;
     audioSources := [];
     nextStartTime := 0;
     reconnectAttempts := 0%Z;
     currentUserTranscriptRef := "";
     currentGeminiTranscriptRef := "";
     startConversationRef := None;
     timers := [];
     effects := [];
     nextObject := 0%nat |}.

(** *** State and exceptions *)

Inductive Outcome (A : Type) :=
| Normal (a : A) (s : State)
| Thrown (e : JsValue) (s : State).
Arguments Normal {A} a s.
Arguments Thrown {A} e s.

Definition M (A : Type) : Type := State -> Outcome A.

Definition ret {A} (a : A) : M A := fun s => Normal a s.

Definition bind {A B} (c : M A) (k : A -> M B) : M B :=
  fun s =>
    match c s with
    | Normal a s' => k a s'
    | Thrown e s' => Thrown e s'
    end.

Definition throw {A} (e : JsValue) : M A := fun s => Thrown e s.

Definition try_catch {A} (body : M A) (handler : JsValue -> M A) : M A :=
  fun s =>
    match body s with
    | Normal a s' => Normal a s'
    | Thrown e s' => handler e s'
    end.

Definition gets {A} (f : State -> A) : M A := fun s => Normal (f s) s.

Definition modify (f : State -> State) : M unit := fun s => Normal tt (f s).

Declare Scope monad_scope.
Delimit Scope monad_scope with monad.
Notation "x <- c1 ;; c2" := (bind c1 (fun x => c2))
  (at level 61, c1 at next level, right associativity) : monad_scope.
Notation "c1 ;; c2" := (bind c1 (fun _ => c2))
  (at level 61, right associativity) : monad_scope.
Local Open Scope monad_scope.

Definition when (b : bool) (c : M unit) : M unit := if b then c else ret tt.

Fixpoint forEach {A} (l : list A) (f : A -> M unit) : M unit :=
  match l with
  | [] => ret tt
  | x :: rest => f x ;; forEach rest f
  end.

Definition await {A} (p : Settled A) : M A :=
  match p with
  | Fulfilled a => ret a
  | Rejected e => throw e
  end.

Definition final {A} (o : Outcome A) : State :=
  match o with
  | Normal _ s => s
  | Thrown _ s => s
  end.

(** *** Calls into the platform *)

Definition emit (fx : Effect) : M unit :=
  modify (fun s => set_effects (effects s ++ [fx]) s).

Definition fresh : M nat :=
  fun s => Normal (nextObject s) (set_nextObject (S (nextObject s)) s).

Definition setTimeout (cb : TimerCallback) (ms : Z) : M unit :=
  modify (fun s => set_timers (timers s ++ [{| callback := cb; delay := ms |}]) s).

Definition newAudioContext (rate : Z) : M AudioContext :=
  i <- fresh ;;
  ret {| contextId := i; sampleRate := rate; state := running |}.

Definition newNode : M AudioNode :=
  i <- fresh ;;
  ret {| nodeId := i; disconnectThrows := false |}.

Definition disconnect (node : AudioNode) : M unit :=
  if disconnectThrows node then throw (ErrorObject "InvalidAccessError")
  else emit (NodeDisconnect (nodeId node)).

Definition stop (source : AudioBufferSourceNode) : M unit :=
  if stopThrows source then throw (ErrorObject "InvalidStateError")
  else emit (SourceStop (sourceId source)).

(** [context.close().catch(() => {})]: the call is made; a rejection of the
    returned promise is swallowed. *)
Definition close (context : AudioContext) : M unit :=
  emit (ContextClose (contextId context)).

(** [Set.prototype.add] and [Set.prototype.delete], by object identity. *)
Definition setAdd (source : AudioBufferSourceNode)
    (set : list AudioBufferSourceNode) : list AudioBufferSourceNode :=
  if existsb (fun x => sourceId x =? sourceId source)%nat set then set
  else set ++ [source].

Definition setDelete (source : nat)
    (set : list AudioBufferSourceNode) : list AudioBufferSourceNode :=
  filter (fun x => negb (sourceId x =? source)%nat) set.

(** *** stopConversation *)

Definition notClosed (context : option AudioContext) : bool :=
  (* context?.state !== 'closed' *)
  match context with
  | Some c => match state c with closed => false | _ => true end
  | None => true
  end.

Definition stopConversation (isFinalCleanup : bool) : M unit :=
  when isFinalCleanup (modify (set_connectionState idle)) ;;

  p <- gets sessionPromise ;;
  match p with
  | Some promise =>
      (* .then(session => session.close()).catch(() => {}) *)
      emit (SessionClose (promiseId promise)) ;;
      modify (set_sessionPromise None)
  | None => ret tt
  end ;;

  ms <- gets mediaStream ;;
  match ms with
  | Some stream =>
      forEach (tracks stream) (fun track => emit (TrackStop track)) ;;
      modify (set_mediaStream None)
  | None => ret tt
  end ;;

  src <- gets mediaStreamSource ;;
  match src with
  | Some node =>
      try_catch (disconnect node) (fun _ => ret tt) ;;
      modify (set_mediaStreamSource None)
  | None => ret tt
  end ;;

  sp <- gets scriptProcessor ;;
  match sp with
  | Some node =>
      try_catch (disconnect node) (fun _ => ret tt) ;;
      modify (set_scriptProcessor None)
  | None => ret tt
  end ;;

  ictx <- gets inputAudioContext ;;
  when (notClosed ictx)
    match ictx with Some c => close c | None => ret tt end ;;

  octx <- gets outputAudioContext ;;
  when (notClosed octx)
    match octx with Some c => close c | None => ret tt end ;;

  sources <- gets audioSources ;;
  forEach sources (fun source => try_catch (stop source) (fun _ => ret tt)) ;;
  modify (set_audioSources []) ;;
  modify (set_nextStartTime 0).

(** *** handleEndLesson, handleFailure *)

Definition handleEndLesson (finalHistory : list TranscriptionEntry) : M unit :=
  emit (OnEndLesson finalHistory).

Definition handleFailure (error_ : JsValue) : M unit :=
  emit ConsoleError ;;
  stopConversation false ;;
  attempts <- gets reconnectAttempts ;;
  if (attempts <? MAX_RECONNECT_ATTEMPTS)%Z then
    modify (set_reconnectAttempts (attempts + 1)%Z) ;;
    modify (set_connectionState reconnecting) ;;
    attempts' <- gets reconnectAttempts ;;
    let delay := (2 ^ (attempts' - 1) * 1000)%Z in
    setTimeout CallStartConversationRef delay
  else
    modify (set_connectionState error) ;;
    let errorMessage :=
      match error_ with
      | ErrorObject message => message
      | NotAnError => "Connection failed after multiple attempts."
      end in
    modify (set_connectionError (Some errorMessage)).

(** *** startConversation *)

Definition baseSystemInstruction (lessonMaterial : LessonMaterial) : string :=
  "You are a friendly and encouraging English teacher named Gemini. Your student wants to practice a lesson based on the following material: "
  ++ dquote ++ content lessonMaterial ++ dquote ++
  ". It is crucial that you strictly follow the lesson plan provided in this material. Guide the student through the lesson step-by-step, according to the provided content. Ask questions, provide gentle corrections, and help the student practice speaking based only on the lesson material. Keep your responses concise and conversational. When the lesson is complete, say "
  ++ dquote ++ "goodbye" ++ dquote ++ ".".

(** The instruction sent on connect: the base instruction, followed on a
    reconnect with a non-empty log by a recap of the conversation so far. *)
Definition finalSystemInstruction (lessonMaterial : LessonMaterial)
    (attempts : Z) (history : list TranscriptionEntry) : string :=
  if ((0 <? attempts)%Z && (0 <? List.length history)%nat)%bool then
    let historyText := join newline (map transcriptLine history) in
    baseSystemInstruction lessonMaterial ++ newline ++ newline ++
    "A network disconnection occurred. We are now reconnecting and resuming the lesson. Here is the conversation history so far:"
    ++ newline ++ "---" ++ newline ++ historyText ++ newline ++ "---"
    ++ newline ++
    "Please continue the lesson naturally from where it left off."
  else baseSystemInstruction lessonMaterial.

(** What the two awaited acquisitions of one connect sequence yield. *)
Record Acquire := {
  userMedia : Settled MediaStream;
  session : Settled unit
}.

Definition startConversation (lessonMaterial : LessonMaterial)
    (io : Acquire) : M unit :=
  stopConversation false ;;
  modify (set_connectionError None) ;;
  attempts <- gets reconnectAttempts ;;
  modify (set_connectionState
            (if (0 <? attempts)%Z then reconnecting else connecting)) ;;
  try_catch
    (emit GetUserMedia ;;
     stream <- await (userMedia io) ;;
     modify (set_mediaStream (Some stream)) ;;
     octx <- newAudioContext 24000 ;;
     modify (set_outputAudioContext (Some octx)) ;;

     attempts <- gets reconnectAttempts ;;
     history <- gets latestTranscriptionHistory ;;
     let instruction := finalSystemInstruction lessonMaterial attempts history in

     p <- fresh ;;
     emit (LiveConnect p instruction) ;;
     let promise := {| promiseId := p; outcome := session io |} in
     modify (set_sessionPromise (Some promise)) ;;
     await (outcome promise))
    (fun error_ => handleFailure error_).

(** *** The transport callbacks *)

Definition onopen : M unit :=
  modify (set_connectionState connected) ;;
  modify (set_reconnectAttempts 0%Z) ;;

  ictx <- newAudioContext 16000 ;;
  modify (set_inputAudioContext (Some ictx)) ;;
  stream <- gets mediaStream ;;
  match stream with
  | None => (* createMediaStreamSource(null) *) throw (ErrorObject "TypeError")
  | Some _ =>
      (* the capture callback ([onaudioprocess]) only sends frames to the
         session; it touches none of the cells and is left out *)
      source <- newNode ;;
      modify (set_mediaStreamSource (Some source)) ;;
      processor <- newNode ;;
      modify (set_scriptProcessor (Some processor)) ;;
      emit (NodeConnect (nodeId source)) ;;
      emit (NodeConnect (nodeId processor))
  end.

(** The part of a [LiveServerMessage] the handler reads: the fields of
    [serverContent], each of which may be absent.  [parts] of a model turn is
    itself optional, and so is the inline data of a part. *)
Record Part := { inlineData : option string }.   (* inlineData.data *)

Record Content := { parts : option (list Part) }.

Record LiveServerMessage := {
  inputTranscription : option string;   (* inputTranscription.text *)
  outputTranscription : option string;  (* outputTranscription.text *)
  turnComplete : bool;
  modelTurn : option Content
}.

(** [message.serverContent?.modelTurn?.parts[0]?.inlineData?.data]: indexing
    [parts] is not guarded, so a model turn without [parts] throws. *)
Definition base64AudioOf (message : LiveServerMessage) : Settled (option string) :=
  match modelTurn message with
  | None => Fulfilled None
  | Some turn =>
      match parts turn with
      | None => Rejected (ErrorObject "TypeError")
      | Some [] => Fulfilled None
      | Some (part :: _) => Fulfilled (inlineData part)
      end
  end.

(** What the handler observes of the platform while it runs. *)
Record Platform := {
  dateNow : Z;                                       (* Date.now() *)
  currentTime : Q;                                   (* outputAudioContext.currentTime *)
  decodeAudioData : list Byte.byte -> Z -> Z -> Settled AudioBuffer
}.

Definition partingWords (fullOutput : string) : bool :=
  existsb (fun word => includes (toLowerCase fullOutput) word) PARTING_WORDS.

(** The function passed to [setTranscriptionHistory] on turn-complete. *)
Definition commitTurn (now : Z) (fullInput fullOutput : string)
    (prevHistory : list TranscriptionEntry) : M (list TranscriptionEntry) :=
  let newHistory :=
    (prevHistory
     ++ (if truthy fullInput then
           [{| id := "user-" ++ numberToString now; speaker := user;
               text := fullInput |}]
         else [])
     ++ (if truthy fullOutput then
           [{| id := "gemini-" ++ numberToString now; speaker := gemini;
               text := fullOutput |}]
         else []))%list in
  when (partingWords fullOutput)
    (setTimeout (CallHandleEndLesson newHistory) 2000) ;;
  ret newHistory.

Definition setTranscriptionHistory
    (updater : list TranscriptionEntry -> M (list TranscriptionEntry)) : M unit :=
  prevHistory <- gets transcriptionHistory ;;
  newHistory <- updater prevHistory ;;
  modify (set_transcriptionHistory newHistory).

(** The body of the [try] block of [onmessage]. *)
Definition onmessageBody (pf : Platform) (message : LiveServerMessage) : M unit :=
  match inputTranscription message with
  | Some text =>
      modify (set_currentUserTranscriptRef text) ;;
      t <- gets currentUserTranscriptRef ;;
      modify (set_currentUserTranscript t)
  | None => ret tt
  end ;;
  match outputTranscription message with
  | Some text =>
      modify (set_currentGeminiTranscriptRef text) ;;
      t <- gets currentGeminiTranscriptRef ;;
      modify (set_currentGeminiTranscript t)
  | None => ret tt
  end ;;
  when (turnComplete message)
    (fullInput <- gets currentUserTranscriptRef ;;
     fullOutput <- gets currentGeminiTranscriptRef ;;

     setTranscriptionHistory (commitTurn (dateNow pf) fullInput fullOutput) ;;

     modify (set_currentUserTranscriptRef "") ;;
     modify (set_currentGeminiTranscriptRef "") ;;
     modify (set_currentUserTranscript "") ;;
     modify (set_currentGeminiTranscript "")) ;;
  data <- await (base64AudioOf message) ;;
  octx <- gets outputAudioContext ;;
  match data, octx with
  | Some base64Audio, Some context =>
      when (truthy base64Audio)
        (bytes <- match AudioCodec.decode base64Audio with
                  | Some bytes => ret bytes
                  | None => throw (ErrorObject "InvalidCharacterError")
                  end ;;
         audioBuffer <- await (decodeAudioData pf bytes 24000 1) ;;
         i <- fresh ;;
         let source := {| sourceId := i; stopThrows := false |} in
         emit (NodeConnect (sourceId source)) ;;

         cursor <- gets nextStartTime ;;
         let startTime := Qmax (currentTime pf) cursor in

         emit (SourceStart (sourceId source) startTime (duration audioBuffer)) ;;
         modify (set_nextStartTime (startTime + duration audioBuffer)) ;;

         sources <- gets audioSources ;;
         modify (set_audioSources (setAdd source sources)))
  | _, _ => ret tt
  end.

Definition onmessage (pf : Platform) (message : LiveServerMessage) : M unit :=
  try_catch (onmessageBody pf message)
    (fun error_ => emit ConsoleError ;; handleFailure error_).

Definition onerror (e : JsValue) : M unit := handleFailure e.

Definition onclose (wasClean : bool) : M unit :=
  when (negb wasClean) (handleFailure NotAnError).

(** [source.onended]. *)
Definition onended (source : nat) : M unit :=
  sources <- gets audioSources ;;
  modify (set_audioSources (setDelete source sources)).

(** *** prepareFinalHistoryAndEnd, mount and unmount, timers *)

Definition prepareFinalHistoryAndEnd : M unit :=
  history <- gets latestTranscriptionHistory ;;
  partial <- gets currentUserTranscriptRef ;;
  let finalHistory :=
    (history
     ++ (if truthy partial then
           [{| id := "current-user"; speaker := user; text := partial |}]
         else []))%list in
  handleEndLesson finalHistory.

(** The effect of the component: on mount it stores [startConversation] in
    the ref and starts; its cleanup, on unmount, is the final teardown. *)
Definition mount (lessonMaterial : LessonMaterial) (io : Acquire) : M unit :=
  modify (set_startConversationRef (Some StartConversation)) ;;
  startConversation lessonMaterial io.

Definition unmount : M unit := stopConversation true.

Definition runCallback (lessonMaterial : LessonMaterial) (io : Acquire)
    (cb : TimerCallback) : M unit :=
  match cb with
  | CallStartConversationRef =>
      ref <- gets startConversationRef ;;
      match ref with
      | Some StartConversation => startConversation lessonMaterial io
      | None => ret tt
      end
  | CallHandleEndLesson newHistory => handleEndLesson newHistory
  end.

Fixpoint removeNth {A} (k : nat) (l : list A) : list A :=
  match l, k with
  | [], _ => []
  | _ :: rest, O => rest
  | x :: rest, S k' => x :: removeNth k' rest
  end.

(** The [k]-th pending timer fires: it leaves the pending list and its
    callback runs.  Firing is not tied to the delays: any pending timer may
    be the next one to fire. *)
Definition timerFires (lessonMaterial : LessonMaterial) (k : nat)
    (io : Acquire) : M unit :=
  pending <- gets timers ;;
  match nth_error pending k with
  | Some timer =>
      modify (set_timers (removeNth k pending)) ;;
      runCallback lessonMaterial io (callback timer)
  | None => ret tt
  end.

(** *** The event loop *)

Inductive Event :=
| EvMount (io : Acquire)
| EvUnmount
| EvOpen
| EvMessage (pf : Platform) (message : LiveServerMessage)
| EvError (e : JsValue)
| EvClose (wasClean : bool)
| EvSourceEnded (source : nat)
| EvTimer (k : nat) (io : Acquire)
| EvEndLessonClick.

Definition handler (lessonMaterial : LessonMaterial) (ev : Event) : M unit :=
  match ev with
  | EvMount io => mount lessonMaterial io
  | EvUnmount => unmount
  | EvOpen => onopen
  | EvMessage pf message => onmessage pf message
  | EvError e => onerror e
  | EvClose wasClean => onclose wasClean
  | EvSourceEnded source => onended source
  | EvTimer k io => timerFires lessonMaterial k io
  | EvEndLessonClick => prepareFinalHistoryAndEnd
  end.

(** One event handled to completion; an exception that escapes a handler is
    reported by the platform and the cells keep what the handler wrote. *)
Definition step (lessonMaterial : LessonMaterial) (s : State) (ev : Event) : State :=
  final (handler lessonMaterial ev s).

Definition run (lessonMaterial : LessonMaterial) (evs : list Event)
    (s : State) : State :=
  fold_left (step lessonMaterial) evs s.

End ConversationView.

(* ================================================================== *)
(** ** components/WelcomeScreen.tsx *)

Module WelcomeScreen.

Import Types GeminiService.

Inductive InputType := inputImage | inputText | inputUrl.

(** The chosen [File], of which only [type] is read. *)
Record File := { fileType : string }.

Record State := {
  inputType : InputType;
  textContent : string;
  urlContent : string;
  imagePreview : option string;
  imageFile : option File;
  isLoading : bool;
  error : option string
}.

Definition initial : State :=
  {| inputType := inputImage; textContent := ""; urlContent := "";
     imagePreview := None; imageFile := None; isLoading := false;
     error := None |}.

Definition setInputType (v : InputType) (s : State) : State :=
  {| inputType := v; textContent := textContent s;
     urlContent := urlContent s; imagePreview := imagePreview s;
     imageFile := imageFile s; isLoading := isLoading s; error := error s |}.

Definition setTextContent (v : string) (s : State) : State :=
  {| inputType := inputType s; textContent := v;
     urlContent := urlContent s; imagePreview := imagePreview s;
     imageFile := imageFile s; isLoading := isLoading s; error := error s |}.

Definition setUrlContent (v : string) (s : State) : State :=
  {| inputType := inputType s; textContent := textContent s;
     urlContent := v; imagePreview := imagePreview s;
     imageFile := imageFile s; isLoading := isLoading s; error := error s |}.

Definition setImagePreview (v : option string) (s : State) : State :=
  {| inputType := inputType s; textContent := textContent s;
     urlContent := urlContent s; imagePreview := v;
     imageFile := imageFile s; isLoading := isLoading s; error := error s |}.

Definition setImageFile (v : option File) (s : State) : State :=
  {| inputType := inputType s; textContent := textContent s;
     urlContent := urlContent s; imagePreview := imagePreview s;
     imageFile := v; isLoading := isLoading s; error := error s |}.

Definition setIsLoading (v : bool) (s : State) : State :=
  {| inputType := inputType s; textContent := textContent s;
     urlContent := urlContent s; imagePreview := imagePreview s;
     imageFile := imageFile s; isLoading := v; error := error s |}.

Definition setError (v : option string) (s : State) : State :=
  {| inputType := inputType s; textContent := textContent s;
     urlContent := urlContent s; imagePreview := imagePreview s;
     imageFile := imageFile s; isLoading := isLoading s; error := v |}.

(** [String.prototype.split] with a one-character separator. *)
Fixpoint split (separator : ascii) (s : string) : list string :=
  match s with
  | EmptyString => [EmptyString]
  | String c rest =>
      let pieces := split separator rest in
      if Ascii.eqb c separator then EmptyString :: pieces
      else
        match pieces with
        | piece :: more => String c piece :: more
        | [] => [String c EmptyString]
        end
  end.

(** Truthiness of a string state cell that may hold [null]. *)
Definition truthyOpt (s : option string) : bool :=
  match s with
  | Some text => truthy text
  | None => false
  end.

Definition isSome {A} (o : option A) : bool :=
  match o with Some _ => true | None => false end.

(** What one run of [handleStart] leaves behind: the cells, the calls made
    to [onStartLesson], the requests sent to the model. *)
Record Started := {
  after : State;
  lessons : list LessonMaterial;
  requests : list PartsRequest
}.

Section Handlers.

(** [String.prototype.trim]; the handlers only test its result for
    emptiness. *)
Variable trim : string -> string.

(** [handleImageChange]: with a file chosen the error is cleared and the
    file stored; its preview arrives later, with [onloadend]. *)
Definition handleImageChange (file : option File) (s : State) : State :=
  match file with
  | Some f => setImageFile (Some f) (setError None s)
  | None => s
  end.

(** [reader.onloadend]. *)
Definition onloadend (result : option string) (s : State) : State :=
  setImagePreview result s.

(** [handleStart].  The three branches of the source test [inputType]
    against three different constants, so they are selected here by a match
    on it; the remaining conjuncts of each test follow. *)
Definition handleStart (ai : Analyzer) (s0 : State) : Started :=
  let s := setError None s0 in
  match inputType s, imageFile s with
  | inputText, _ =>
      if truthy (trim (textContent s)) then
        {| after := s;
           lessons := [{| type := type_text; content := textContent s;
                          sourceUrl := None |}];
           requests := [] |}
      else {| after := s; lessons := []; requests := [] |}
  | inputImage, Some file =>
      if truthyOpt (imagePreview s) then
        let s1 := setIsLoading true s in
        (* try *)
        let base64String :=
          match imagePreview s with
          | Some preview => nth_error (split ","%char preview) 1
          | None => None
          end in
        let '(analysis, sent) :=
          analyzeLessonImage ai base64String (fileType file) in
        match analysis with
        | Fulfilled analyzedText =>
            {| after := (* finally *) setIsLoading false s1;
               lessons := [{| type := type_image; content := analyzedText;
                              sourceUrl := None |}];
               requests := sent |}
        | Rejected _ =>
            (* catch *)
            let s2 :=
              setError (Some "Failed to analyze the image. Please try again.")
                s1 in
            {| after := (* finally *) setIsLoading false s2;
               lessons := []; requests := sent |}
        end
      else {| after := s; lessons := []; requests := [] |}
  | inputImage, None => {| after := s; lessons := []; requests := [] |}
  | inputUrl, _ =>
      if truthy (trim (urlContent s)) then
        let s1 := setIsLoading true s in
        (* try *)
        let '(analysis, sent) := analyzeUrlForLesson ai (urlContent s) in
        match analysis with
        | Fulfilled analyzedText =>
            {| after := (* finally *) setIsLoading false s1;
               lessons := [{| type := type_url; content := analyzedText;
                              sourceUrl := Some (urlContent s) |}];
               requests := sent |}
        | Rejected _ =>
            (* catch *)
            let s2 :=
              setError
                (Some "Failed to analyze the URL. Please check it and try again.")
                s1 in
            {| after := (* finally *) setIsLoading false s2;
               lessons := []; requests := sent |}
        end
      else {| after := s; lessons := []; requests := [] |}
  end.

Definition isStartDisabled (s : State) : bool :=
  isLoading s
  || (match inputType s with inputText => true | _ => false end
      && negb (truthy (trim (textContent s))))
  || (match inputType s with inputImage => true | _ => false end
      && negb (isSome (imageFile s)))
  || (match inputType s with inputUrl => true | _ => false end
      && negb (truthy (trim (urlContent s)))).

End Handlers.

End WelcomeScreen.

(* ================================================================== *)
(** ** App.tsx *)

Module App.

Import Types.

Inductive AppState := welcome | conversation | feedback.

Record State := {
  appState : AppState;
  lessonMaterial : option LessonMaterial;
  finalTranscript : list TranscriptionEntry
}.

Definition initial : State :=
  {| appState := welcome; lessonMaterial := None; finalTranscript := [] |}.

Definition startLesson (material : LessonMaterial) (s : State) : State :=
  {| appState := conversation; lessonMaterial := Some material;
     finalTranscript := [] |}.

Definition finishLesson (history : list TranscriptionEntry) (s : State)
  : State :=
  {| appState := feedback; lessonMaterial := lessonMaterial s;
     finalTranscript := history |}.

Definition restart (s : State) : State :=
  {| appState := welcome; lessonMaterial := None; finalTranscript := [] |}.

(** What [main] renders. *)
Inductive View :=
| ShowWelcomeScreen
| ShowConversationView (material : LessonMaterial)
| ShowFeedbackView (history : list TranscriptionEntry)
| ShowNothing.

Definition render (s : State) : View :=
  match appState s with
  | welcome => ShowWelcomeScreen
  | conversation =>
      match lessonMaterial s with
      | Some material => ShowConversationView material
      | None => ShowNothing
      end
  | feedback => ShowFeedbackView (finalTranscript s)
  end.

(** The callbacks the children are given. *)
Inductive Callback :=
| OnStartLesson (material : LessonMaterial)
| OnEndLesson (history : list TranscriptionEntry)
| OnRestart.

Definition call (s : State) (cb : Callback) : State :=
  match cb with
  | OnStartLesson material => startLesson material s
  | OnEndLesson history => finishLesson history s
  | OnRestart => restart s
  end.

Definition calls (cbs : list Callback) (s : State) : State :=
  fold_left call cbs s.

End App.

(* ================================================================== *)
(** ** components/FeedbackView.tsx *)

Module FeedbackView.

Import Types GeminiService.

Record State := {
  feedback : string;
  isLoading : bool;
  error : option string
}.

Definition initial : State :=
  {| feedback := ""; isLoading := true; error := None |}.

(** [getFeedback], the effect run for a [history]: the cells once it has
    finished, and the requests sent to the model. *)
Definition getFeedback (ai : GoogleGenAI) (history : list TranscriptionEntry)
    (s : State) : State * list Request :=
  let s1 := {| feedback := feedback s; isLoading := true; error := error s |} in
  let s2 := {| feedback := feedback s1; isLoading := isLoading s1;
               error := None |} in
  (* try *)
  let '(settled, sent) := generateFeedback ai history in
  match settled with
  | Fulfilled result =>
      let s3 := {| feedback := result; isLoading := isLoading s2;
                   error := error s2 |} in
      (* finally *)
      ({| feedback := feedback s3; isLoading := false; error := error s3 |},
       sent)
  | Rejected _ =>
      (* catch *)
      let s3 := {| feedback := feedback s2; isLoading := isLoading s2;
                   error := Some "Couldn't generate feedback. Please try again." |} in
      (* finally *)
      ({| feedback := feedback s3; isLoading := false; error := error s3 |},
       sent)
  end.

(** What the panel shows. *)
Inductive Panel :=
| Spinner
| ErrorText (message : string)
| FeedbackText (text : string).

Definition render (s : State) : Panel :=
  if isLoading s then Spinner
  else
    match error s with
    | Some message => ErrorText message
    | None => FeedbackText (feedback s)
    end.

End FeedbackView.

(* ================================================================== *)
(** ** Observations on the session manager used to state its properties *)

Module Observations.

Import Types ConversationView.

(** The platform calls one teardown makes, read off the cells it finds. *)
Definition disconnectCalls (node : option AudioNode) : list Effect :=
  match node with
  | Some n => if disconnectThrows n then [] else [NodeDisconnect (nodeId n)]
  | None => []
  end.

Definition closeCalls (context : option AudioContext) : list Effect :=
  match context with
  | Some c => if notClosed (Some c) then [ContextClose (contextId c)] else []
  | None => []
  end.

Definition stopCalls (sources : list AudioBufferSourceNode) : list Effect :=
  flat_map
    (fun x => if stopThrows x then [] else [SourceStop (sourceId x)]) sources.

Definition teardownCalls (s : State) : list Effect :=
  (match sessionPromise s with
   | Some p => [SessionClose (promiseId p)]
   | None => []
   end
   ++ match mediaStream s with
      | Some stream => map TrackStop (tracks stream)
      | None => []
      end
   ++ disconnectCalls (mediaStreamSource s)
   ++ disconnectCalls (scriptProcessor s)
   ++ closeCalls (inputAudioContext s)
   ++ closeCalls (outputAudioContext s)
   ++ stopCalls (audioSources s))%list.

(** The cells after one teardown. *)
Definition stopped (isFinalCleanup : bool) (s : State) : State :=
  {| transcriptionHistory := transcriptionHistory s;
     currentUserTranscript := currentUserTranscript s;
     currentGeminiTranscript := currentGeminiTranscript s;
     connectionState := if isFinalCleanup then idle else connectionState s;
     connectionError := connectionError s;
     sessionPromise := None;
     mediaStream := None;
     inputAudioContext := inputAudioContext s;
     scriptProcessor := None;
     mediaStreamSource := None;
     outputAudioContext := outputAudioContext s;
     audioSources := [];
     nextStartTime := 0;
     reconnectAttempts := reconnectAttempts s;
     currentUserTranscriptRef := currentUserTranscriptRef s;
     currentGeminiTranscriptRef := currentGeminiTranscriptRef s;
     startConversationRef := startConversationRef s;
     timers := timers s;
     effects := (effects s ++ teardownCalls s)%list;
     nextObject := nextObject s |}.

(** Every resource the teardown is responsible for is released. *)
Definition released (s : State) : Prop :=
  sessionPromise s = None /\ mediaStream s = None /\
  mediaStreamSource s = None /\ scriptProcessor s = None /\
  audioSources s = [] /\ nextStartTime s = 0.

(** The cells after one run of the failure path. *)
Definition failed (error_ : JsValue) (s : State) : State :=
  let s1 := stopped false (set_effects (effects s ++ [ConsoleError])%list s) in
  let attempts := reconnectAttempts s in
  if (attempts <? MAX_RECONNECT_ATTEMPTS)%Z then
    set_timers
      (timers s ++ [{| callback := CallStartConversationRef;
                       delay := (2 ^ (attempts + 1 - 1) * 1000)%Z |}])%list
      (set_connectionState reconnecting
         (set_reconnectAttempts (attempts + 1)%Z s1))
  else
    set_connectionError
      (Some match error_ with
            | ErrorObject message => message
            | NotAnError => "Connection failed after multiple attempts."
            end)
      (set_connectionState error s1).

(** The cells after one connect sequence. *)
Definition started (lessonMaterial : LessonMaterial) (io : Acquire)
    (s : State) : State :=
  let attempts := reconnectAttempts s in
  let s1 :=
    set_connectionState (if (0 <? attempts)%Z then reconnecting else connecting)
      (set_connectionError None (stopped false s)) in
  let s2 := set_effects (effects s1 ++ [GetUserMedia])%list s1 in
  match userMedia io with
  | Rejected e => failed e s2
  | Fulfilled stream =>
      let octx := {| contextId := nextObject s; sampleRate := 24000;
                     state := running |} in
      let p := S (nextObject s) in
      let instruction :=
        finalSystemInstruction lessonMaterial attempts
          (latestTranscriptionHistory s) in
      let s3 :=
        set_sessionPromise (Some {| promiseId := p; outcome := session io |})
          (set_effects (effects s2 ++ [LiveConnect p instruction])%list
             (set_nextObject (S p)
                (set_outputAudioContext (Some octx)
                   (set_mediaStream (Some stream) s2)))) in
      match session io with
      | Fulfilled _ => s3
      | Rejected e => failed e s3
      end
  end.

(** The cells after [onopen], whether or not it throws. *)
Definition opened (s : State) : State :=
  let i := nextObject s in
  let ictx := {| contextId := i; sampleRate := 16000; state := running |} in
  let s1 :=
    set_inputAudioContext (Some ictx)
      (set_nextObject (S i)
         (set_reconnectAttempts 0%Z (set_connectionState connected s))) in
  match mediaStream s with
  | None => s1
  | Some _ =>
      let source := {| nodeId := S i; disconnectThrows := false |} in
      let processor := {| nodeId := S (S i); disconnectThrows := false |} in
      set_effects (effects s ++ [NodeConnect (S i); NodeConnect (S (S i))])%list
        (set_scriptProcessor (Some processor)
           (set_nextObject (S (S (S i)))
              (set_mediaStreamSource (Some source) s1)))
  end.

(** The cells after the transcript part of a message. *)
Definition withPartials (message : LiveServerMessage) (s : State) : State :=
  let s1 :=
    match inputTranscription message with
    | Some text =>
        set_currentUserTranscript text (set_currentUserTranscriptRef text s)
    | None => s
    end in
  match outputTranscription message with
  | Some text =>
      set_currentGeminiTranscript text (set_currentGeminiTranscriptRef text s1)
  | None => s1
  end.

Definition turnEntries (now : Z) (fullInput fullOutput : string)
  : list TranscriptionEntry :=
  ((if truthy fullInput then
      [{| id := "user-" ++ numberToString now; speaker := user;
          text := fullInput |}]
    else [])
   ++ (if truthy fullOutput then
         [{| id := "gemini-" ++ numberToString now; speaker := gemini;
             text := fullOutput |}]
       else []))%list.

Definition endTimers (newHistory : list TranscriptionEntry)
    (fullOutput : string) : list Timer :=
  if partingWords fullOutput then
    [{| callback := CallHandleEndLesson newHistory; delay := 2000 |}]
  else [].

Definition withTurn (pf : Platform) (s : State) : State :=
  let fullInput := currentUserTranscriptRef s in
  let fullOutput := currentGeminiTranscriptRef s in
  let newHistory :=
    (transcriptionHistory s
     ++ turnEntries (dateNow pf) fullInput fullOutput)%list in
  set_currentGeminiTranscript ""
    (set_currentUserTranscript ""
       (set_currentGeminiTranscriptRef ""
          (set_currentUserTranscriptRef ""
             (set_transcriptionHistory newHistory
                (set_timers (timers s ++ endTimers newHistory fullOutput)%list
                   s))))).

Definition transcribed (pf : Platform) (message : LiveServerMessage)
    (s : State) : State :=
  let s1 := withPartials message s in
  if turnComplete message then withTurn pf s1 else s1.

(** The audio buffer a message yields for playback, if any; [Rejected] when
    reading or decoding the payload throws. *)
Definition audioToPlay (pf : Platform) (message : LiveServerMessage)
    (s : State) : Settled (option AudioBuffer) :=
  match base64AudioOf message with
  | Rejected e => Rejected e
  | Fulfilled data =>
      match data, outputAudioContext s with
      | Some base64Audio, Some _ =>
          if truthy base64Audio then
            match AudioCodec.decode base64Audio with
            | None => Rejected (ErrorObject "InvalidCharacterError")
            | Some bytes =>
                match decodeAudioData pf bytes 24000%Z 1%Z with
                | Fulfilled audioBuffer => Fulfilled (Some audioBuffer)
                | Rejected e => Rejected e
                end
            end
          else Fulfilled None
      | _, _ => Fulfilled None
      end
  end.

(** The cells after one buffer is scheduled. *)
Definition withAudio (pf : Platform) (audioBuffer : AudioBuffer)
    (s : State) : State :=
  let i := nextObject s in
  let source := {| sourceId := i; stopThrows := false |} in
  let startTime := Qmax (currentTime pf) (nextStartTime s) in
  set_audioSources (setAdd source (audioSources s))
    (set_nextStartTime (startTime + duration audioBuffer)
       (set_effects
          (effects s ++ [NodeConnect i;
                         SourceStart i startTime (duration audioBuffer)])%list
          (set_nextObject (S i) s))).

(** The outcome of the [try] block of [onmessage], and the cells after the
    whole handler. *)
Definition bodyOutcome (pf : Platform) (message : LiveServerMessage)
    (s : State) : Outcome unit :=
  let s1 := transcribed pf message s in
  match audioToPlay pf message s1 with
  | Fulfilled None => Normal tt s1
  | Fulfilled (Some audioBuffer) => Normal tt (withAudio pf audioBuffer s1)
  | Rejected e => Thrown e s1
  end.

Definition received (pf : Platform) (message : LiveServerMessage)
    (s : State) : State :=
  match bodyOutcome pf message s with
  | Normal _ s' => s'
  | Thrown e s' => failed e (set_effects (effects s' ++ [ConsoleError])%list s')
  end.

(** The cells after a manual end-of-lesson request. *)
Definition finalHistoryOf (s : State) : list TranscriptionEntry :=
  (latestTranscriptionHistory s
   ++ (if truthy (currentUserTranscriptRef s) then
         [{| id := "current-user"; speaker := user;
             text := currentUserTranscriptRef s |}]
       else []))%list.

Definition ended (finalHistory : list TranscriptionEntry) (s : State) : State :=
  set_effects (effects s ++ [OnEndLesson finalHistory])%list s.

(** The cells after the [k]-th pending timer fires. *)
Definition fired (lessonMaterial : LessonMaterial) (k : nat) (io : Acquire)
    (s : State) : State :=
  match nth_error (timers s) k with
  | Some timer =>
      let s1 := set_timers (removeNth k (timers s)) s in
      match callback timer with
      | CallStartConversationRef =>
          match startConversationRef s with
          | Some StartConversation => started lessonMaterial io s1
          | None => s1
          end
      | CallHandleEndLesson newHistory => ended newHistory s1
      end
  | None => s
  end.

(** One event, in closed form. *)
Definition next (lessonMaterial : LessonMaterial) (s : State) (ev : Event)
  : State :=
  match ev with
  | EvMount io =>
      started lessonMaterial io
        (set_startConversationRef (Some StartConversation) s)
  | EvUnmount => stopped true s
  | EvOpen => opened s
  | EvMessage pf message => received pf message s
  | EvError e => failed e s
  | EvClose wasClean => if wasClean then s else failed NotAnError s
  | EvSourceEnded source =>
      set_audioSources (setDelete source (audioSources s)) s
  | EvTimer k io => fired lessonMaterial k io s
  | EvEndLessonClick => ended (finalHistoryOf s) s
  end.

(** *** What the properties talk about *)

(** The text a partial buffer holds after a sequence of messages: the text of
    the last message that carried an update, else what it held before. *)
Definition latestText (update : LiveServerMessage -> option string)
    (messages : list LiveServerMessage) (buffer : string) : string :=
  fold_left
    (fun held message =>
       match update message with Some text => text | None => held end)
    messages buffer.

Definition held (update : LiveServerMessage -> option string)
    (message : LiveServerMessage) (buffer : string) : string :=
  match update message with Some text => text | None => buffer end.

Definition messageEvents (arrivals : list (Platform * LiveServerMessage))
  : list Event :=
  map (fun a => EvMessage (fst a) (snd a)) arrivals.

(** [word] occurs in [s] as a substring. *)
Definition occursIn (word s : string) : Prop :=
  exists before after, s = before ++ word ++ after.

(** The pending end-of-lesson timers: the log each will hand over, and its
    delay. *)
Definition scheduledEnds (s : State)
  : list (list TranscriptionEntry * Z) :=
  flat_map
    (fun timer =>
       match callback timer with
       | CallHandleEndLesson newHistory => [(newHistory, delay timer)]
       | CallStartConversationRef => []
       end)
    (timers s).

(** The pending reconnects, by delay. *)
Definition scheduledReconnects (s : State) : list Z :=
  flat_map
    (fun timer =>
       match callback timer with
       | CallStartConversationRef => [delay timer]
       | CallHandleEndLesson _ => []
       end)
    (timers s).

(** The calls a teardown can make. *)
Definition teardownEffect (fx : Effect) : Prop :=
  match fx with
  | SessionClose _ | TrackStop _ | NodeDisconnect _ | ContextClose _
  | SourceStop _ => True
  | _ => False
  end.

(** The calls made to [onEndLesson] so far. *)
Definition endLessonCalls (s : State) : list (list TranscriptionEntry) :=
  flat_map
    (fun fx => match fx with OnEndLesson history => [history] | _ => [] end)
    (effects s).

(** The connect sequences begun so far, one per capture request. *)
Definition connectsBegun (s : State) : list unit :=
  flat_map
    (fun fx => match fx with GetUserMedia => [tt] | _ => [] end)
    (effects s).

(** The playback starts requested so far: start time and duration. *)
Definition playbackStarts (s : State) : list (Q * Q) :=
  flat_map
    (fun fx =>
       match fx with
       | SourceStart _ startTime length => [(startTime, length)]
       | _ => []
       end)
    (effects s).






End Observations.

(* ================================================================== *)
(** ** Invariants of the session manager *)

Module Invariants.

Import Types ConversationView Observations.

(** The counter is within its range and every pending reconnect waits one,
    two or four seconds. *)
Definition backoffInv (s : State) : Prop :=
  (0 <= reconnectAttempts s <= MAX_RECONNECT_ATTEMPTS)%Z /\
  Forall (fun ms => In ms [1000; 2000; 4000]%Z) (scheduledReconnects s).

(** The tracked playback sources are distinct objects created by the
    component, each started, so that stopping them does not throw. *)
Definition trackedInv (s : State) : Prop :=
  Forall (fun x => stopThrows x = false /\ (sourceId x < nextObject s)%nat)
    (audioSources s) /\
  NoDup (map sourceId (audioSources s)).

End Invariants.

(* ================================================================== *)
(** ** Concrete inputs used by the examples below *)

Module Samples.

Import Types GeminiService ConversationView.

Definition brokenService : GoogleGenAI :=
  {| construct := Fulfilled tt;
     generateContent := fun _ => Rejected (ErrorObject "503") |}.

Definition oneTurn : list TranscriptionEntry :=
  [ {| id := "user-1"; speaker := user; text := "Hello" |};
    {| id := "gemini-1"; speaker := gemini; text := "Hi there" |} ].

Definition sampleLesson : LessonMaterial :=
  {| type := type_text; content := "Ordering food at a restaurant";
     sourceUrl := None |}.

(** A platform on which every payload decodes: 16-bit mono frames. *)
Definition samplePlatform (clock : Q) : Platform :=
  {| dateNow := 1700000000000;
     currentTime := clock;
     decodeAudioData := fun bytes _ _ =>
       Fulfilled {| frameCount := N.of_nat (List.length bytes / 2);
                    bufferSampleRate := 24000 |} |}.

Definition studentSays (said : string) : LiveServerMessage :=
  {| inputTranscription := Some said; outputTranscription := None;
     turnComplete := false; modelTurn := None |}.

Definition tutorSays (said : string) : LiveServerMessage :=
  {| inputTranscription := None; outputTranscription := Some said;
     turnComplete := false; modelTurn := None |}.

Definition turnIsComplete : LiveServerMessage :=
  {| inputTranscription := None; outputTranscription := None;
     turnComplete := true; modelTurn := None |}.

Definition audioChunk (base64Audio : string) : LiveServerMessage :=
  {| inputTranscription := None; outputTranscription := None;
     turnComplete := false;
     modelTurn :=
       Some {| parts := Some [{| inlineData := Some base64Audio |}] |} |}.

(** Acquisitions that succeed, and a capture request that is refused. *)
Definition granted : Acquire :=
  {| userMedia := Fulfilled {| tracks := [0%nat] |};
     session := Fulfilled tt |}.

Definition refused : Acquire :=
  {| userMedia := Rejected (ErrorObject "Permission denied");
     session := Fulfilled tt |}.

(** A mounted component whose session has opened. *)
Definition connectedSample : State :=
  step sampleLesson (step sampleLesson initial (EvMount granted)) EvOpen.


Definition farewellLog : list TranscriptionEntry :=
  [{| id := "gemini-1700000000000"; speaker := gemini;
      text := "Well done. Goodbye!" |}].

(** The first connect is refused, the view is unmounted, and the backoff
    timer fires. *)
Definition refusedThenUnmounted : list Event :=
  [EvMount refused; EvUnmount; EvTimer 0 granted].

(** The tutor says goodbye, the view is unmounted, and the end-of-lesson
    timer fires. *)
Definition goodbyeThenUnmounted : list Event :=
  [EvMount granted; EvOpen;
   EvMessage (samplePlatform 0) (tutorSays "Well done. Goodbye!");
   EvMessage (samplePlatform 0) turnIsComplete;
   EvUnmount; EvTimer 0 granted].

End Samples.

(* ================================================================== *)
(** ** Observations on the screens around the session *)

Module ScreenObservations.

(** [s] does not contain the separator. *)
Fixpoint lacks (separator : ascii) (s : string) : bool :=
  match s with
  | EmptyString => true
  | String c rest => negb (Ascii.eqb c separator) && lacks separator rest
  end.

End ScreenObservations.

(* ================================================================== *)
(** ** Concrete inputs for the screens around the session *)

Module ScreenSamples.

Import Types GeminiService.

(** A model that cannot be reached, and one that answers. *)
Definition unreachableAnalyzer : Analyzer :=
  {| constructAnalyzer := Fulfilled tt;
     generateFromParts := fun _ => Rejected (ErrorObject "503") |}.

Definition answeringAnalyzer : Analyzer :=
  {| constructAnalyzer := Fulfilled tt;
     generateFromParts := fun _ => Fulfilled "Vocabulary: menu, order, bill" |}.

Definition answeringService : GoogleGenAI :=
  {| construct := Fulfilled tt;
     generateContent := fun _ => Fulfilled "Well spoken." |}.

(** [trim] restricted to what the handlers need of it here: leading
    blanks. *)
Fixpoint trimLeft (s : string) : string :=
  match s with
  | String " "%char rest => trimLeft rest
  | _ => s
  end.

Definition pickedImage : WelcomeScreen.State :=
  WelcomeScreen.handleImageChange
    (Some {| WelcomeScreen.fileType := "image/png" |}) WelcomeScreen.initial.

Definition loadedImage : WelcomeScreen.State :=
  WelcomeScreen.onloadend (Some "data:image/png;base64,iVBORw0KGgo=")
    pickedImage.

Definition typedUrl : WelcomeScreen.State :=
  WelcomeScreen.setUrlContent "https://example.com/lesson"
    (WelcomeScreen.setInputType WelcomeScreen.inputUrl WelcomeScreen.initial).

Definition blankText : WelcomeScreen.State :=
  WelcomeScreen.setTextContent "   "
    (WelcomeScreen.setInputType WelcomeScreen.inputText WelcomeScreen.initial).

End ScreenSamples.

(* ================================================================== *)
(** ** Properties of the codec *)

Module AudioCodecFacts.

Import AudioCodec.
Local Open Scope N_scope.

Example encode_Man : encode [Byte.x4d; Byte.x61; Byte.x6e] = "TWFu"%string.
Proof. reflexivity. Qed.

Example encode_Ma : encode [Byte.x4d; Byte.x61] = "TWE="%string.
Proof. reflexivity. Qed.

Example encode_M : encode [Byte.x4d] = "TQ=="%string.
Proof. reflexivity. Qed.

Example decode_TWE : decode "TWE=" = Some [Byte.x4d; Byte.x61].
Proof. reflexivity. Qed.

Example decode_rejects : decode "T=E=" = None.
Proof. reflexivity. Qed.

Lemma sextet_of_char_of_sextet n :
  n < 64 -> sextet_of_char (char_of_sextet n) = Some n.
Proof.
  intros H.
  assert (Hn : n = N.of_nat (N.to_nat n)) by (symmetry; apply Nnat.N2Nat.id).
  assert (Hlt : (N.to_nat n < 64)%nat) by lia.
  rewrite Hn at 2. unfold char_of_sextet.
  generalize dependent (N.to_nat n). clear.
  intros m _ Hlt.
  do 64 (destruct m as [|m]; [reflexivity|]).
  lia.
Qed.

Lemma char_of_sextet_not_pad n :
  n < 64 -> Ascii.eqb (char_of_sextet n) pad = false.
Proof.
  intros H.
  assert (Hlt : (N.to_nat n < 64)%nat) by lia.
  unfold char_of_sextet.
  generalize dependent (N.to_nat n). clear.
  intros m Hlt.
  do 64 (destruct m as [|m]; [reflexivity|]).
  lia.
Qed.

Lemma digit_lt k g : digit k g < 64.
Proof. unfold digit. apply N.mod_lt. discriminate. Qed.

Lemma byte_of_N_to_N b : byte_of_N (Byte.to_N b) = b.
Proof.
  unfold byte_of_N.
  pose proof (Byte.to_N_bounded b) as Hb.
  rewrite N.mod_small by lia.
  now rewrite Byte.of_to_N.
Qed.

Ltac euclid := zify; Z.to_euclidean_division_equations; lia.

Lemma digits_of_group g :
  g < 16777216 ->
  ungroup (digit 3 g) (digit 2 g) (digit 1 g) (digit 0 g) = g.
Proof.
  intros Hg. unfold ungroup, digit.
  change (64 ^ 3) with 262144. change (64 ^ 2) with 4096.
  change (64 ^ 1) with 64. change (64 ^ 0) with 1.
  euclid.
Qed.

Lemma group_lt a b c : group a b c < 16777216.
Proof.
  unfold group.
  pose proof (Byte.to_N_bounded a). pose proof (Byte.to_N_bounded b).
  pose proof (Byte.to_N_bounded c). lia.
Qed.

Lemma octets_of_group a b c :
  octet 2 (group a b c) = a /\ octet 1 (group a b c) = b /\
  octet 0 (group a b c) = c.
Proof.
  unfold octet, group.
  change (256 ^ 2) with 65536. change (256 ^ 1) with 256.
  change (256 ^ 0) with 1.
  pose proof (Byte.to_N_bounded a) as Ha.
  pose proof (Byte.to_N_bounded b) as Hb.
  pose proof (Byte.to_N_bounded c) as Hc.
  set (x := Byte.to_N a) in *. set (y := Byte.to_N b) in *.
  set (z := Byte.to_N c) in *.
  assert (E2 : (x * 65536 + y * 256 + z) / 65536 = x) by euclid.
  assert (E1 : ((x * 65536 + y * 256 + z) / 256) mod 256 = y) by euclid.
  assert (E0 : ((x * 65536 + y * 256 + z) / 1) mod 256 = z) by euclid.
  unfold byte_of_N at 2 3. rewrite E2, E1, E0.
  subst x y z. rewrite !Byte.of_to_N, byte_of_N_to_N. auto.
Qed.

(** The last digits of a short final group carry no information. *)
Lemma short_group_1 a :
  let g := group a Byte.x00 Byte.x00 in
  ungroup (digit 3 g) (digit 2 g) 0 0 = g.
Proof.
  intros g. subst g. unfold ungroup, digit, group.
  change (64 ^ 3) with 262144. change (64 ^ 2) with 4096.
  change (Byte.to_N Byte.x00) with 0.
  pose proof (Byte.to_N_bounded a) as Ha.
  set (x := Byte.to_N a) in *. euclid.
Qed.

Lemma short_group_2 a b :
  let g := group a b Byte.x00 in
  ungroup (digit 3 g) (digit 2 g) (digit 1 g) 0 = g.
Proof.
  intros g. subst g. unfold ungroup, digit, group.
  change (64 ^ 3) with 262144. change (64 ^ 2) with 4096.
  change (64 ^ 1) with 64.
  change (Byte.to_N Byte.x00) with 0.
  pose proof (Byte.to_N_bounded a) as Ha.
  pose proof (Byte.to_N_bounded b) as Hb.
  set (x := Byte.to_N a) in *. set (y := Byte.to_N b) in *. euclid.
Qed.

Lemma decode3_group a b c :
  let g := group a b c in
  decode3 (char_of_sextet (digit 3 g)) (char_of_sextet (digit 2 g))
          (char_of_sextet (digit 1 g)) (char_of_sextet (digit 0 g))
  = Some [a; b; c].
Proof.
  intros g. unfold decode3.
  rewrite !sextet_of_char_of_sextet by apply digit_lt.
  subst g. rewrite digits_of_group by apply group_lt.
  destruct (octets_of_group a b c) as (-> & -> & ->). reflexivity.
Qed.

Lemma decode2_group a b :
  let g := group a b Byte.x00 in
  decode2 (char_of_sextet (digit 3 g)) (char_of_sextet (digit 2 g))
          (char_of_sextet (digit 1 g))
  = Some [a; b].
Proof.
  intros g. unfold decode2.
  rewrite !sextet_of_char_of_sextet by apply digit_lt.
  subst g. rewrite short_group_2.
  destruct (octets_of_group a b Byte.x00) as (-> & -> & _). reflexivity.
Qed.

Lemma decode1_group a :
  let g := group a Byte.x00 Byte.x00 in
  decode1 (char_of_sextet (digit 3 g)) (char_of_sextet (digit 2 g))
  = Some [a].
Proof.
  intros g. unfold decode1.
  rewrite !sextet_of_char_of_sextet by apply digit_lt.
  subst g. rewrite short_group_1.
  destruct (octets_of_group a Byte.x00 Byte.x00) as (-> & _ & _). reflexivity.
Qed.

(** Induction over a byte list three octets at a time, as [encode] reads it. *)
Lemma list_ind3 {A} (P : list A -> Prop) :
  P [] -> (forall a, P [a]) -> (forall a b, P [a; b]) ->
  (forall a b c l, P l -> P (a :: b :: c :: l)) ->
  forall l, P l.
Proof.
  intros H0 H1 H2 H3.
  fix IH 1. intros [|a [|b [|c l]]].
  - exact H0.
  - apply H1.
  - apply H2.
  - apply H3, IH.
Qed.

Lemma decode_encode_chars bytes :
  decode_chars (encode_chars bytes) = Some bytes.
Proof.
  induction bytes as [|a|a b|a b c rest IH] using list_ind3.
  - reflexivity.
  - cbn [encode_chars decode_chars]. rewrite Ascii.eqb_refl.
    apply decode1_group.
  - cbn [encode_chars decode_chars].
    rewrite Ascii.eqb_refl, char_of_sextet_not_pad by apply digit_lt.
    apply decode2_group.
  - cbn [encode_chars decode_chars].
    pose proof (decode3_group a b c) as H3. cbv zeta in H3.
    destruct (encode_chars rest) as [|c0 cs] eqn:E.
    + rewrite char_of_sextet_not_pad by apply digit_lt.
      rewrite H3. destruct rest as [|x [|y [|z r]]]; try discriminate.
      reflexivity.
    + rewrite H3, IH. reflexivity.
Qed.

Lemma decode_encode b : decode (encode b) = Some b.
Proof.
  unfold decode, encode.
  rewrite list_ascii_of_string_of_list_ascii.
  apply decode_encode_chars.
Qed.

(** C6.  For every byte sequence [b], the empty one included,
    [decode (encode b)] returns [b]: [decode] is the inverse of the
    byte-to-text transport encoding, which is therefore lossless (distinct
    byte sequences have distinct encodings). *)
Theorem decode_encode_roundtrip :
  (forall b : list Byte.byte, decode (encode b) = Some b) /\
  decode (encode []) = Some [] /\
  (forall b1 b2 : list Byte.byte, encode b1 = encode b2 -> b1 = b2).
Proof.
  split; [exact decode_encode|]. split; [reflexivity|].
  intros b1 b2 H. apply (f_equal decode) in H.
  rewrite !decode_encode in H. congruence.
Qed.

Lemma decode_encode_roundtrip_witness :
  decode (encode [Byte.x4d; Byte.x61; Byte.x6e; Byte.xff])
  = Some [Byte.x4d; Byte.x61; Byte.x6e; Byte.xff] /\
  [Byte.x4d; Byte.x61] = [Byte.x4d; Byte.x61].
Proof.
  split.
  - apply (proj1 decode_encode_roundtrip).
  - apply (proj2 (proj2 decode_encode_roundtrip)). reflexivity.
Defined.

End AudioCodecFacts.

(* ================================================================== *)
(** ** Properties of the feedback provider *)

Module GeminiServiceFacts.

Import Types GeminiService Samples.

Example transcript_oneTurn :
  join newline (map transcriptLine oneTurn)
  = "Student: Hello" ++ newline ++ "Tutor: Hi there".
Proof. reflexivity. Qed.

Lemma generateFeedback_never_rejects ai history :
  exists feedback, fst (generateFeedback ai history) = Fulfilled feedback.
Proof.
  unfold generateFeedback.
  destruct (List.length history =? 0)%nat; [eexists; reflexivity|].
  destruct (construct ai); [|eexists; reflexivity]. cbv zeta.
  destruct (generateContent ai (feedbackRequest history));
    eexists; reflexivity.
Qed.

(** C10.  On the empty transcript log [generateFeedback] resolves with the
    fixed nothing-to-analyze message and sends no request; on every input on
    which the underlying generation fails it resolves with the fallback
    string; and it never rejects, so no error propagates to the caller. *)
Theorem generateFeedback_empty_and_fallback :
  forall (ai : GoogleGenAI) (history : list TranscriptionEntry),
    (history = [] ->
       generateFeedback ai history = (Fulfilled NO_CONVERSATION, [])) /\
    (history <> [] -> generationFails ai history ->
       fst (generateFeedback ai history) = Fulfilled FEEDBACK_FALLBACK) /\
    (exists feedback, fst (generateFeedback ai history) = Fulfilled feedback).
Proof.
  intros ai history. split; [|split].
  - intros ->. reflexivity.
  - intros Hne Hfail. unfold generateFeedback.
    destruct history as [|entry rest]; [congruence|].
    cbn [List.length Nat.eqb].
    destruct Hfail as [[e He]|[e He]].
    + rewrite He. reflexivity.
    + destruct (construct ai); [|reflexivity].
      cbv zeta. rewrite He. reflexivity.
  - apply generateFeedback_never_rejects.
Qed.

Lemma generateFeedback_empty_and_fallback_witness :
  generateFeedback brokenService [] = (Fulfilled NO_CONVERSATION, []) /\
  fst (generateFeedback brokenService oneTurn) = Fulfilled FEEDBACK_FALLBACK.
Proof.
  split.
  - apply (generateFeedback_empty_and_fallback brokenService []). reflexivity.
  - apply (generateFeedback_empty_and_fallback brokenService oneTurn).
    + discriminate.
    + right. exists (ErrorObject "503"). reflexivity.
Defined.

End GeminiServiceFacts.
(* ================================================================== *)
(** ** Properties of the session manager *)

Module ConversationViewFacts.

Import Types ConversationView Observations Samples.
Local Open Scope monad_scope.

(** *** The model at work *)

Example toLowerCase_sample :
  toLowerCase "Great job today, GoodBye!" = "great job today, goodbye!".
Proof. reflexivity. Qed.

Example includes_sample :
  includes "see you soon" "see you" = true /\
  includes "see" "see you" = false /\
  includes "" "" = true.
Proof. repeat split. Qed.

Example instruction_on_first_connect :
  finalSystemInstruction sampleLesson 0 farewellLog
  = baseSystemInstruction sampleLesson.
Proof. reflexivity. Qed.

Example backoff_delays :
  scheduledReconnects
    (run sampleLesson
       [EvError NotAnError; EvClose false; EvClose true;
        EvError (ErrorObject "reset")] connectedSample)
  = [1000; 2000; 4000]%Z.
Proof. reflexivity. Qed.

Example two_buffers_back_to_back :
  playbackStarts
    (run sampleLesson
       (messageEvents [(samplePlatform (3 # 1), audioChunk "AAAAAAAA");
                       (samplePlatform (3 # 1), audioChunk "AAAA")])
       connectedSample)
  = [(Qmax (3 # 1) 0, 3 # 24000);
     (Qmax (3 # 1) (Qmax (3 # 1) 0 + (3 # 24000)), 1 # 24000)].
Proof. reflexivity. Qed.

Example undecodable_audio_is_a_failure :
  let s := step sampleLesson connectedSample
             (EvMessage (samplePlatform 0) (audioChunk "!!!!")) in
  connectionState s = reconnecting /\ reconnectAttempts s = 1%Z /\
  sessionPromise s = None.
Proof. repeat split. Qed.

(** *** Running the monad *)

Lemma bind_normal {A B} (c : M A) (k : A -> M B) s a s' :
  c s = Normal a s' -> bind c k s = k a s'.
Proof. unfold bind. now intros ->. Qed.

Lemma bind_thrown {A B} (c : M A) (k : A -> M B) s e s' :
  c s = Thrown e s' -> bind c k s = Thrown e s'.
Proof. unfold bind. now intros ->. Qed.

Lemma forEach_emit {A} (f : A -> Effect) l s :
  forEach l (fun x => emit (f x)) s
  = Normal tt (set_effects (effects s ++ map f l) s).
Proof.
  revert s. induction l as [|x l IH]; intros s; cbn [forEach map].
  - destruct s. unfold ret, set_effects. cbn. rewrite app_nil_r. reflexivity.
  - erewrite bind_normal by reflexivity. rewrite IH.
    destruct s. cbn. rewrite <- app_assoc. reflexivity.
Qed.

Lemma forEach_stop sources s :
  forEach sources (fun source => try_catch (stop source) (fun _ => ret tt)) s
  = Normal tt (set_effects (effects s ++ stopCalls sources) s).
Proof.
  revert s.
  induction sources as [|x l IH]; intros s; cbn [forEach stopCalls flat_map].
  - destruct s. unfold ret, set_effects. cbn. rewrite app_nil_r. reflexivity.
  - unfold bind at 1, try_catch at 1, stop at 1.
    destruct (stopThrows x); cbn.
    + rewrite IH. reflexivity.
    + rewrite IH. destruct s. cbn. rewrite <- app_assoc. reflexivity.
Qed.

Lemma guarded_disconnect node s :
  try_catch (disconnect node) (fun _ => ret tt) s
  = Normal tt (set_effects (effects s ++ disconnectCalls (Some node)) s).
Proof.
  unfold try_catch, disconnect, disconnectCalls.
  destruct (disconnectThrows node); destruct s; cbn.
  - rewrite app_nil_r. reflexivity.
  - reflexivity.
Qed.

(** *** Teardown

    Each block of [stopConversation] is run against an arbitrary
    continuation, so that the blocks compose without case explosion. *)

Ltac run_block :=
  unfold bind, gets, when, modify, emit, ret; cbn;
  rewrite ?app_nil_r; try reflexivity.

Lemma block_final b (k : M unit) s :
  (when b (modify (set_connectionState idle)) ;; k) s
  = k (set_connectionState (if b then idle else connectionState s) s).
Proof. destruct s, b; reflexivity. Qed.

Lemma block_session (k : M unit) s :
  (p <- gets sessionPromise ;;
   match p with
   | Some promise =>
       emit (SessionClose (promiseId promise)) ;;
       modify (set_sessionPromise None)
   | None => ret tt
   end ;; k) s
  = k (set_sessionPromise None
         (set_effects
            (effects s ++ match sessionPromise s with
                          | Some p => [SessionClose (promiseId p)]
                          | None => []
                          end) s)).
Proof. destruct s as [? ? ? ? ? [p|]]; run_block. Qed.

Lemma block_stream (k : M unit) s :
  (ms <- gets mediaStream ;;
   match ms with
   | Some stream =>
       forEach (tracks stream) (fun track => emit (TrackStop track)) ;;
       modify (set_mediaStream None)
   | None => ret tt
   end ;; k) s
  = k (set_mediaStream None
         (set_effects
            (effects s ++ match mediaStream s with
                          | Some stream => map TrackStop (tracks stream)
                          | None => []
                          end) s)).
Proof.
  destruct s as [? ? ? ? ? ? [stream|]]; [|run_block].
  unfold bind at 1, gets at 1. cbn [mediaStream].
  unfold bind at 1. unfold bind at 1. rewrite forEach_emit. reflexivity.
Qed.

Lemma block_source (k : M unit) s :
  (src <- gets mediaStreamSource ;;
   match src with
   | Some node =>
       try_catch (disconnect node) (fun _ => ret tt) ;;
       modify (set_mediaStreamSource None)
   | None => ret tt
   end ;; k) s
  = k (set_mediaStreamSource None
         (set_effects (effects s ++ disconnectCalls (mediaStreamSource s)) s)).
Proof.
  destruct s as [? ? ? ? ? ? ? ? ? [node|]]; [|run_block].
  unfold bind at 1, gets at 1. cbn [mediaStreamSource].
  unfold bind at 1. unfold bind at 1. rewrite guarded_disconnect. reflexivity.
Qed.

Lemma block_processor (k : M unit) s :
  (sp <- gets scriptProcessor ;;
   match sp with
   | Some node =>
       try_catch (disconnect node) (fun _ => ret tt) ;;
       modify (set_scriptProcessor None)
   | None => ret tt
   end ;; k) s
  = k (set_scriptProcessor None
         (set_effects (effects s ++ disconnectCalls (scriptProcessor s)) s)).
Proof.
  destruct s as [? ? ? ? ? ? ? ? [node|]]; [|run_block].
  unfold bind at 1, gets at 1. cbn [scriptProcessor].
  unfold bind at 1. unfold bind at 1. rewrite guarded_disconnect. reflexivity.
Qed.

Lemma block_close (get : State -> option AudioContext) (k : M unit) s :
  (ctx <- gets get ;;
   when (notClosed ctx) match ctx with Some c => close c | None => ret tt end ;;
   k) s
  = k (set_effects (effects s ++ closeCalls (get s)) s).
Proof.
  unfold bind at 1, gets at 1. unfold closeCalls.
  destruct (get s) as [c|].
  - destruct (notClosed (Some c)); destruct s; run_block.
  - destruct s; run_block.
Qed.

(** The teardown written with the monad is the closed form [stopped]: it
    always completes normally. *)
Lemma stopConversation_stopped isFinalCleanup s :
  stopConversation isFinalCleanup s = Normal tt (stopped isFinalCleanup s).
Proof.
  unfold stopConversation.
  rewrite block_final, block_session, block_stream, block_source,
    block_processor, !block_close.
  unfold bind at 1, gets at 1. unfold bind at 1. rewrite forEach_stop.
  unfold stopped, teardownCalls. destruct s. cbn.
  rewrite <- !app_assoc. reflexivity.
Qed.

Lemma handleFailure_failed e s : handleFailure e s = Normal tt (failed e s).
Proof.
  unfold handleFailure.
  unfold bind at 1, emit at 1, modify at 1.
  unfold bind at 1. rewrite stopConversation_stopped.
  unfold bind at 1, gets at 1.
  unfold failed. cbv zeta.
  cbn [reconnectAttempts stopped set_effects].
  destruct (reconnectAttempts s <? MAX_RECONNECT_ATTEMPTS)%Z.
  - unfold bind, modify, gets, setTimeout.
    cbn [timers reconnectAttempts stopped set_reconnectAttempts
         set_connectionState set_effects].
    reflexivity.
  - reflexivity.
Qed.

(** *** Connect, open, message and timer handlers in closed form *)

Lemma startConversation_started lm io s :
  startConversation lm io s = Normal tt (started lm io s).
Proof.
  destruct s as [th cu cg cs ce sp ms ic scp mss oc srcs nst ra cur cgr scr
                 tm fx no].
  unfold startConversation, started.
  unfold bind at 1. rewrite stopConversation_stopped.
  destruct io as [[stream|e1] [[]|e2]];
    cbn -[failed handleFailure finalSystemInstruction teardownCalls Z.ltb];
    rewrite ?handleFailure_failed; reflexivity.
Qed.

Lemma onopen_opened s : final (onopen s) = opened s.
Proof.
  unfold onopen, opened.
  erewrite bind_normal by reflexivity.
  erewrite bind_normal by reflexivity.
  unfold bind at 1, newAudioContext at 1, bind at 1, fresh at 1, ret at 1.
  erewrite bind_normal by reflexivity.
  unfold bind at 1, gets at 1.
  cbn [mediaStream set_inputAudioContext set_nextObject set_reconnectAttempts set_connectionState].
  destruct (mediaStream s); [|reflexivity].
  destruct s. cbn. rewrite <- app_assoc. reflexivity.
Qed.

Lemma block_input message (k : M unit) s :
  (match inputTranscription message with
   | Some text =>
       modify (set_currentUserTranscriptRef text) ;;
       t <- gets currentUserTranscriptRef ;;
       modify (set_currentUserTranscript t)
   | None => ret tt
   end ;; k) s
  = k match inputTranscription message with
      | Some text =>
          set_currentUserTranscript text (set_currentUserTranscriptRef text s)
      | None => s
      end.
Proof. destruct (inputTranscription message); reflexivity. Qed.

Lemma block_output message (k : M unit) s :
  (match outputTranscription message with
   | Some text =>
       modify (set_currentGeminiTranscriptRef text) ;;
       t <- gets currentGeminiTranscriptRef ;;
       modify (set_currentGeminiTranscript t)
   | None => ret tt
   end ;; k) s
  = k match outputTranscription message with
      | Some text =>
          set_currentGeminiTranscript text
            (set_currentGeminiTranscriptRef text s)
      | None => s
      end.
Proof. destruct (outputTranscription message); reflexivity. Qed.

Lemma block_turn pf (b : bool) (k : M unit) s :
  (when b
     (fullInput <- gets currentUserTranscriptRef ;;
      fullOutput <- gets currentGeminiTranscriptRef ;;
      setTranscriptionHistory (commitTurn (dateNow pf) fullInput fullOutput) ;;
      modify (set_currentUserTranscriptRef "") ;;
      modify (set_currentGeminiTranscriptRef "") ;;
      modify (set_currentUserTranscript "") ;;
      modify (set_currentGeminiTranscript "")) ;; k) s
  = k (if b then withTurn pf s else s).
Proof.
  destruct b; [|reflexivity].
  unfold when, withTurn, endTimers, turnEntries.
  unfold bind at 1. unfold bind at 1, gets at 1. unfold bind at 1, gets at 1.
  unfold bind at 1, setTranscriptionHistory at 1, bind at 1, gets at 1.
  unfold bind at 1, commitTurn at 1, bind at 1, when at 1.
  destruct (partingWords (currentGeminiTranscriptRef s)); destruct s; cbn;
    rewrite ?app_nil_r; reflexivity.
Qed.

Lemma onmessageBody_outcome pf message s :
  onmessageBody pf message s = bodyOutcome pf message s.
Proof.
  unfold onmessageBody, bodyOutcome, transcribed, withPartials.
  rewrite block_input, block_output, block_turn.
  cbv zeta.
  match goal with |- _ ?st = _ => generalize st end.
  intros s1. unfold audioToPlay.
  unfold bind at 1.
  destruct (base64AudioOf message) as [data|e]; [|reflexivity].
  cbn [await ret]. unfold bind at 1, gets at 1.
  destruct data as [base64Audio|]; [|reflexivity].
  destruct (outputAudioContext s1) as [context|]; [|reflexivity].
  destruct (truthy base64Audio); [|reflexivity].
  unfold when. unfold bind at 1.
  destruct (AudioCodec.decode base64Audio) as [bytes|]; [|reflexivity].
  unfold ret at 1. unfold bind at 1.
  destruct (decodeAudioData pf bytes 24000%Z 1%Z) as [audioBuffer|e];
    [|reflexivity].
  cbn [await ret]. unfold withAudio.
  destruct s1. cbn. rewrite <- app_assoc. reflexivity.
Qed.

Lemma onmessage_received pf message s :
  onmessage pf message s = Normal tt (received pf message s).
Proof.
  unfold onmessage, received, try_catch.
  rewrite onmessageBody_outcome.
  destruct (bodyOutcome pf message s) as [[] s'|e s']; [reflexivity|].
  erewrite bind_normal by reflexivity. apply handleFailure_failed.
Qed.

Lemma timerFires_fired lm k io s :
  timerFires lm k io s = Normal tt (fired lm k io s).
Proof.
  unfold timerFires, fired.
  unfold bind at 1, gets at 1.
  destruct (nth_error (timers s) k) as [timer|]; [|reflexivity].
  erewrite bind_normal by reflexivity.
  destruct (callback timer); cbn [runCallback].
  - unfold bind at 1, gets at 1. cbn [startConversationRef set_timers].
    destruct (startConversationRef s) as [[]|]; [|reflexivity].
    apply startConversation_started.
  - reflexivity.
Qed.

Lemma step_next lm s ev : step lm s ev = next lm s ev.
Proof.
  unfold step. destruct ev; cbn [handler next].
  - unfold mount. erewrite bind_normal by reflexivity.
    rewrite startConversation_started. reflexivity.
  - unfold unmount. rewrite stopConversation_stopped. reflexivity.
  - apply onopen_opened.
  - rewrite onmessage_received. reflexivity.
  - unfold onerror. rewrite handleFailure_failed. reflexivity.
  - unfold onclose. destruct wasClean; cbn [negb when].
    + reflexivity.
    + rewrite handleFailure_failed. reflexivity.
  - reflexivity.
  - rewrite timerFires_fired. reflexivity.
  - reflexivity.
Qed.

(** Every handler but [onopen] completes normally. *)
Lemma handler_normal lm ev s :
  ev <> EvOpen -> handler lm ev s = Normal tt (next lm s ev).
Proof.
  intros Hev. destruct ev; cbn [handler next]; try congruence.
  - unfold mount. erewrite bind_normal by reflexivity.
    apply startConversation_started.
  - apply stopConversation_stopped.
  - apply onmessage_received.
  - apply handleFailure_failed.
  - unfold onclose. destruct wasClean; cbn [negb when].
    + reflexivity.
    + apply handleFailure_failed.
  - reflexivity.
  - apply timerFires_fired.
  - reflexivity.
Qed.

(** *** What the platform calls of each handler are *)

Lemma flat_map_quiet {A B} (P : A -> Prop) (f : A -> list B) l :
  Forall P l -> (forall x, P x -> f x = []) -> flat_map f l = [].
Proof.
  intros Hall Hf. induction Hall as [|x l Hx _ IH]; cbn.
  - reflexivity.
  - rewrite (Hf x Hx), IH. reflexivity.
Qed.

Lemma teardownCalls_teardown s : Forall teardownEffect (teardownCalls s).
Proof.
  unfold teardownCalls, disconnectCalls, closeCalls, stopCalls.
  rewrite !Forall_app. repeat split.
  - destruct (sessionPromise s); repeat constructor.
  - destruct (mediaStream s) as [stream|]; [|constructor].
    apply Forall_map, Forall_forall. intros; exact I.
  - destruct (mediaStreamSource s) as [n|]; [|constructor].
    destruct (disconnectThrows n); repeat constructor.
  - destruct (scriptProcessor s) as [n|]; [|constructor].
    destruct (disconnectThrows n); repeat constructor.
  - destruct (inputAudioContext s) as [c|]; [|constructor].
    destruct (notClosed (Some c)); repeat constructor.
  - destruct (outputAudioContext s) as [c|]; [|constructor].
    destruct (notClosed (Some c)); repeat constructor.
  - apply Forall_flat_map, Forall_forall. intros x _.
    destruct (stopThrows x); repeat constructor.
Qed.

(** An observation of the call log that ignores teardown calls and console
    output is unchanged by a teardown and by the failure path. *)
Section Quiet.

Context {B : Type} (f : Effect -> list B).
Hypothesis f_teardown : forall fx, teardownEffect fx -> f fx = [].
Hypothesis f_console : f ConsoleError = [].

Lemma stopped_quiet b s :
  flat_map f (effects (stopped b s)) = flat_map f (effects s).
Proof.
  cbn. rewrite flat_map_app.
  rewrite (flat_map_quiet teardownEffect f _ (teardownCalls_teardown s))
    by assumption.
  apply app_nil_r.
Qed.

Lemma failed_quiet e s :
  flat_map f (effects (failed e s)) = flat_map f (effects s).
Proof.
  unfold failed. cbv zeta.
  destruct (reconnectAttempts s <? MAX_RECONNECT_ATTEMPTS)%Z;
    cbn [effects set_timers set_connectionState set_reconnectAttempts
         set_connectionError];
    rewrite stopped_quiet; cbn [effects set_effects];
    rewrite flat_map_app; cbn; rewrite f_console; apply app_nil_r.
Qed.

End Quiet.

(** *** Turn commit

    Neither the playback part of a message nor the failure path touches the
    transcript cells. *)
Lemma failed_transcript e s :
  transcriptionHistory (failed e s) = transcriptionHistory s /\
  currentUserTranscriptRef (failed e s) = currentUserTranscriptRef s /\
  currentGeminiTranscriptRef (failed e s) = currentGeminiTranscriptRef s /\
  currentUserTranscript (failed e s) = currentUserTranscript s /\
  currentGeminiTranscript (failed e s) = currentGeminiTranscript s.
Proof.
  unfold failed. cbv zeta.
  destruct (reconnectAttempts s <? MAX_RECONNECT_ATTEMPTS)%Z; cbn; auto.
Qed.

Lemma received_transcript pf message s :
  let s1 := transcribed pf message s in
  let s' := received pf message s in
  transcriptionHistory s' = transcriptionHistory s1 /\
  currentUserTranscriptRef s' = currentUserTranscriptRef s1 /\
  currentGeminiTranscriptRef s' = currentGeminiTranscriptRef s1 /\
  currentUserTranscript s' = currentUserTranscript s1 /\
  currentGeminiTranscript s' = currentGeminiTranscript s1.
Proof.
  cbv zeta. unfold received, bodyOutcome.
  destruct (audioToPlay pf message (transcribed pf message s)) as [[b|]|e];
    cbv zeta.
  - cbn. auto.
  - auto.
  - apply (failed_transcript e (set_effects _ (transcribed pf message s))).
Qed.

Lemma withPartials_cells message s :
  let s1 := withPartials message s in
  transcriptionHistory s1 = transcriptionHistory s /\
  currentUserTranscriptRef s1
  = held inputTranscription message (currentUserTranscriptRef s) /\
  currentGeminiTranscriptRef s1
  = held outputTranscription message (currentGeminiTranscriptRef s).
Proof.
  cbv zeta. unfold withPartials, held.
  destruct (inputTranscription message), (outputTranscription message);
    cbn; auto.
Qed.

Lemma partials_run lm arrivals : forall s,
  Forall (fun a => turnComplete (snd a) = false) arrivals ->
  let s' := run lm (messageEvents arrivals) s in
  transcriptionHistory s' = transcriptionHistory s /\
  currentUserTranscriptRef s'
  = latestText inputTranscription (map snd arrivals)
      (currentUserTranscriptRef s) /\
  currentGeminiTranscriptRef s'
  = latestText outputTranscription (map snd arrivals)
      (currentGeminiTranscriptRef s).
Proof.
  induction arrivals as [|[pf message] rest IH]; intros s Hall; cbv zeta.
  - cbn. auto.
  - inversion Hall as [|? ? Hm Hrest]; subst. cbn in Hm.
    cbn [messageEvents map run fold_left fst snd latestText].
    specialize (IH (step lm s (EvMessage pf message)) Hrest). cbv zeta in IH.
    destruct IH as (IH1 & IH2 & IH3).
    unfold run, messageEvents in IH1, IH2, IH3. unfold latestText in IH2, IH3.
    rewrite IH1, IH2, IH3. clear IH1 IH2 IH3.
    rewrite step_next. cbn [next].
    destruct (received_transcript pf message s) as (R1 & R2 & R3 & _).
    rewrite R1, R2, R3. unfold transcribed. rewrite Hm.
    destruct (withPartials_cells message s) as (W1 & W2 & W3).
    rewrite W1, W2, W3. auto.
Qed.

(** C1.  After any number of messages that update the student and tutor
    partial buffers (overwriting them) and one message carrying the
    turn-complete signal, the log is the previous log followed by at most one
    student entry, present exactly when the student buffer is non-empty, and
    then at most one tutor entry, present exactly when the tutor buffer is
    non-empty; both partial buffers, refs and displayed copies, are empty. *)
Theorem turn_commit :
  forall (lessonMaterial : LessonMaterial) (s : State)
         (partials : list (Platform * LiveServerMessage))
         (pf : Platform) (message : LiveServerMessage),
    Forall (fun a => turnComplete (snd a) = false) partials ->
    turnComplete message = true ->
    let updates := (map snd partials ++ [message])%list in
    let fullInput :=
      latestText inputTranscription updates (currentUserTranscriptRef s) in
    let fullOutput :=
      latestText outputTranscription updates (currentGeminiTranscriptRef s) in
    let s' :=
      run lessonMaterial (messageEvents partials ++ [EvMessage pf message]) s in
    transcriptionHistory s'
    = (transcriptionHistory s
       ++ (if truthy fullInput then
             [{| id := "user-" ++ numberToString (dateNow pf);
                 speaker := user; text := fullInput |}]
           else [])
       ++ (if truthy fullOutput then
             [{| id := "gemini-" ++ numberToString (dateNow pf);
                 speaker := gemini; text := fullOutput |}]
           else []))%list /\
    currentUserTranscriptRef s' = "" /\
    currentGeminiTranscriptRef s' = "" /\
    currentUserTranscript s' = "" /\
    currentGeminiTranscript s' = "".
Proof.
  intros lm s partials pf message Hpartials Hturn. cbv zeta.
  unfold run. rewrite fold_left_app. cbn [fold_left].
  fold (run lm (messageEvents partials) s).
  destruct (partials_run lm partials s Hpartials) as (P1 & P2 & P3).
  set (s0 := run lm (messageEvents partials) s) in *.
  unfold latestText. rewrite !fold_left_app. cbn [fold_left].
  fold (latestText inputTranscription (map snd partials)
          (currentUserTranscriptRef s)).
  fold (latestText outputTranscription (map snd partials)
          (currentGeminiTranscriptRef s)).
  rewrite <- P1, <- P2, <- P3.
  rewrite step_next. cbn [next].
  destruct (received_transcript pf message s0) as (R1 & R2 & R3 & R4 & R5).
  rewrite R1, R2, R3, R4, R5. unfold transcribed. rewrite Hturn.
  destruct (withPartials_cells message s0) as (W1 & W2 & W3).
  unfold held in W2, W3.
  unfold withTurn. cbn.
  rewrite W1, W2, W3. unfold turnEntries. auto.
Qed.

Lemma turn_commit_witness :
  let s' :=
    run sampleLesson
      (messageEvents [(samplePlatform 0, studentSays "Hel");
                      (samplePlatform 0, studentSays "Hello");
                      (samplePlatform 0, tutorSays "Hi there")]
       ++ [EvMessage (samplePlatform 0) turnIsComplete]) initial in
  transcriptionHistory s'
  = [{| id := "user-1700000000000"; speaker := user; text := "Hello" |};
     {| id := "gemini-1700000000000"; speaker := gemini;
        text := "Hi there" |}] /\
  currentUserTranscriptRef s' = "" /\
  currentGeminiTranscriptRef s' = "" /\
  currentUserTranscript s' = "" /\
  currentGeminiTranscript s' = "".
Proof.
  apply (turn_commit sampleLesson initial
           [(samplePlatform 0, studentSays "Hel");
            (samplePlatform 0, studentSays "Hello");
            (samplePlatform 0, tutorSays "Hi there")]
           (samplePlatform 0) turnIsComplete).
  - repeat constructor.
  - reflexivity.
Defined.

(** *** End-phrase detection *)

Lemma prefix_append word s :
  String.prefix word s = true <-> exists after, s = word ++ after.
Proof.
  revert s. induction word as [|c word IH]; intros s.
  - split; [intros _; exists s; reflexivity | destruct s; reflexivity].
  - destruct s as [|d s]; cbn.
    + split; [discriminate | intros [after H]; discriminate].
    + destruct (ascii_dec c d) as [->|Hne].
      * rewrite IH. split; intros [after H]; exists after.
        -- now rewrite H.
        -- now inversion H.
      * split; [discriminate | intros [after H]; inversion H; congruence].
Qed.

Lemma includes_occursIn s word :
  includes s word = true <-> occursIn word s.
Proof.
  unfold occursIn. induction s as [|c s IH].
  - cbn [includes]. rewrite orb_false_r, prefix_append. split.
    + intros [after H]. exists "", after. exact H.
    + intros (before & after & H). destruct before; [|discriminate].
      exists after. exact H.
  - cbn [includes]. rewrite orb_true_iff, prefix_append, IH. split.
    + intros [[after H]|(before & after & H)].
      * exists "", after. exact H.
      * exists (String c before), after. cbn. now rewrite H.
    + intros (before & after & H). destruct before as [|d before].
      * left. exists after. exact H.
      * right. exists before, after. now inversion H.
Qed.

Lemma partingWords_occurs fullOutput :
  partingWords fullOutput = true <->
  exists word, In word PARTING_WORDS /\ occursIn word (toLowerCase fullOutput).
Proof.
  unfold partingWords. rewrite existsb_exists.
  split; intros (word & Hin & H); exists word; split; auto;
    now apply includes_occursIn.
Qed.

Lemma failed_scheduledEnds e s : scheduledEnds (failed e s) = scheduledEnds s.
Proof.
  unfold failed, scheduledEnds. cbv zeta.
  destruct (reconnectAttempts s <? MAX_RECONNECT_ATTEMPTS)%Z; cbn.
  - rewrite flat_map_app. cbn. apply app_nil_r.
  - reflexivity.
Qed.

Lemma endLessonCalls_quiet :
  (forall fx, teardownEffect fx ->
     match fx with OnEndLesson history => [history] | _ => [] end = []) /\
  match ConsoleError with OnEndLesson history => [history] | _ => [] end
  = @nil (list TranscriptionEntry).
Proof. split; [intros [] H; try reflexivity; destruct H | reflexivity]. Qed.

Lemma failed_endLessonCalls e s : endLessonCalls (failed e s) = endLessonCalls s.
Proof.
  unfold endLessonCalls.
  apply failed_quiet; apply endLessonCalls_quiet.
Qed.

Lemma received_ends pf message s :
  let s1 := transcribed pf message s in
  let s' := received pf message s in
  scheduledEnds s' = scheduledEnds s1 /\
  endLessonCalls s' = endLessonCalls s.
Proof.
  cbv zeta. unfold received, bodyOutcome.
  assert (Hcalls : endLessonCalls (transcribed pf message s) = endLessonCalls s).
  { unfold transcribed, withPartials, withTurn.
    destruct (turnComplete message), (inputTranscription message),
      (outputTranscription message); reflexivity. }
  destruct (audioToPlay pf message (transcribed pf message s)) as [[b|]|e];
    cbv zeta.
  - split; [reflexivity|]. rewrite <- Hcalls.
    unfold endLessonCalls, withAudio. cbn. rewrite flat_map_app. cbn.
    apply app_nil_r.
  - auto.
  - rewrite failed_scheduledEnds, failed_endLessonCalls. split; [reflexivity|].
    rewrite <- Hcalls. unfold endLessonCalls. cbn. rewrite flat_map_app. cbn.
    apply app_nil_r.
Qed.

(** C5.  On turn-complete, lesson termination is scheduled, as one timer of
    2000 ms that will hand over the log as just committed, exactly when the
    lower-cased tutor text contains one of the parting phrases as a
    substring; no call to [onEndLesson] is made by the message itself.
    Detection depends on the text only up to letter case: "Great job today,
    goodbye!" and "See You next week" are detected, "Let's continue" is
    not. *)
Theorem end_phrase_detection :
  (forall (lessonMaterial : LessonMaterial) (s : State) (pf : Platform)
          (message : LiveServerMessage),
      turnComplete message = true ->
      let fullOutput :=
        held outputTranscription message (currentGeminiTranscriptRef s) in
      let s' := step lessonMaterial s (EvMessage pf message) in
      scheduledEnds s'
      = (scheduledEnds s
         ++ (if partingWords fullOutput
             then [(transcriptionHistory s', 2000%Z)] else []))%list /\
      endLessonCalls s' = endLessonCalls s) /\
  (forall fullOutput : string,
      partingWords fullOutput = true <->
      exists word,
        In word PARTING_WORDS /\ occursIn word (toLowerCase fullOutput)) /\
  (forall t u : string,
      toLowerCase t = toLowerCase u -> partingWords t = partingWords u) /\
  partingWords "Great job today, goodbye!" = true /\
  partingWords "Let's continue" = false /\
  partingWords "See You next week" = true.
Proof.
  split; [|split; [|split]].
  - intros lm s pf message Hturn. cbv zeta.
    rewrite step_next. cbn [next].
    destruct (received_ends pf message s) as (E1 & E2).
    destruct (received_transcript pf message s) as (R1 & _).
    rewrite E1, E2, R1. split; [|reflexivity].
    unfold transcribed. rewrite Hturn.
    destruct (withPartials_cells message s) as (W1 & W2 & W3).
    assert (Wt : timers (withPartials message s) = timers s).
    { unfold withPartials.
      destruct (inputTranscription message), (outputTranscription message);
        reflexivity. }
    unfold scheduledEnds, withTurn.
    cbn -[partingWords turnEntries endTimers].
    rewrite Wt, W3, flat_map_app.
    f_equal. unfold endTimers.
    destruct (partingWords _); reflexivity.
  - apply partingWords_occurs.
  - intros t u H. unfold partingWords. now rewrite H.
  - repeat split; reflexivity.
Qed.

Lemma end_phrase_detection_witness :
  let s' :=
    step sampleLesson
      (step sampleLesson initial
         (EvMessage (samplePlatform 0) (tutorSays "Great job today, Goodbye!")))
      (EvMessage (samplePlatform 0) turnIsComplete) in
  scheduledEnds s' = [(transcriptionHistory s', 2000%Z)] /\
  endLessonCalls s' = [].
Proof.
  apply (proj1 end_phrase_detection sampleLesson
           (step sampleLesson initial
              (EvMessage (samplePlatform 0)
                 (tutorSays "Great job today, Goodbye!")))
           (samplePlatform 0) turnIsComplete).
  reflexivity.
Defined.

(** *** Playback scheduling *)

Lemma duration_nonneg b : 0 <= duration b.
Proof.
  unfold duration, Qle. cbn. lia.
Qed.

Lemma transcribed_playback pf message s :
  nextStartTime (transcribed pf message s) = nextStartTime s /\
  effects (transcribed pf message s) = effects s /\
  outputAudioContext (transcribed pf message s) = outputAudioContext s.
Proof.
  unfold transcribed, withPartials, withTurn.
  destruct (turnComplete message), (inputTranscription message),
    (outputTranscription message); cbn; auto.
Qed.

(** One message whose [try] block completes either leaves the schedule
    alone or adds one buffer at the later of the clock and the cursor. *)
Lemma body_schedule pf message s s' :
  onmessageBody pf message s = Normal tt s' ->
  (nextStartTime s' = nextStartTime s /\
   playbackStarts s' = playbackStarts s) \/
  (exists audioBuffer,
     let startTime := Qmax (currentTime pf) (nextStartTime s) in
     nextStartTime s' = startTime + duration audioBuffer /\
     playbackStarts s'
     = (playbackStarts s ++ [(startTime, duration audioBuffer)])%list).
Proof.
  rewrite onmessageBody_outcome. unfold bodyOutcome. cbv zeta.
  destruct (transcribed_playback pf message s) as (T1 & T2 & _).
  destruct (audioToPlay pf message (transcribed pf message s)) as [[b|]|e];
    intros H; inversion H; subst s'; clear H.
  - right. exists b. cbv zeta. unfold playbackStarts, withAudio. cbn.
    rewrite T1, T2, flat_map_app. cbn. auto.
  - left. unfold playbackStarts. rewrite T1, T2. auto.
Qed.






(** *** The cursor: monotone while scheduling, reset by teardown *)

Lemma failed_cursor e s : nextStartTime (failed e s) = 0.
Proof.
  unfold failed. cbv zeta.
  destruct (reconnectAttempts s <? MAX_RECONNECT_ATTEMPTS)%Z; reflexivity.
Qed.

Lemma started_cursor lm io s : nextStartTime (started lm io s) = 0.
Proof.
  unfold started. cbv zeta.
  destruct (userMedia io) as [stream|e]; [|apply failed_cursor].
  destruct (session io) as [u|e]; [reflexivity | apply failed_cursor].
Qed.

Lemma body_cursor pf message s s' :
  onmessageBody pf message s = Normal tt s' ->
  nextStartTime s <= nextStartTime s'.
Proof.
  intros H.
  destruct (body_schedule pf message s s' H) as [(Hc & _)|(b & Hc & _)].
  - rewrite Hc. apply Qle_refl.
  - cbv zeta in Hc. rewrite Hc.
    pose proof (duration_nonneg b) as Hd.
    pose proof (Q.le_max_r (currentTime pf) (nextStartTime s)) as Hm.
    lra.
Qed.

(** C4, as stated, fails: after one buffer has been scheduled the cursor is
    positive, and the final teardown sets it back to zero. *)
Lemma cursor_reset_by_teardown :
  let s1 :=
    step sampleLesson connectedSample
      (EvMessage (samplePlatform 0) (audioChunk "AAAA")) in
  let s2 := step sampleLesson s1 EvUnmount in
  nextStartTime s1 = Qmax 0 0 + (1 # 24000) /\
  nextStartTime s2 = 0 /\
  ~ (nextStartTime s1 <= nextStartTime s2).
Proof.
  cbv zeta. repeat split; try reflexivity.
  vm_compute. intros H. apply H. reflexivity.
Qed.

(** C4, amended.  Scheduling never moves the cursor back: a message whose
    handling completes leaves the cursor at or after its previous value.
    Teardown, failure handling and every connect sequence set it to zero.
    So each operation of the session manager either leaves the cursor at or
    after its previous value or resets it to exactly zero. *)
Theorem cursor_never_decreases_until_reset :
  (forall pf message s s',
      onmessageBody pf message s = Normal tt s' ->
      nextStartTime s <= nextStartTime s') /\
  (forall isFinalCleanup s,
      nextStartTime (final (stopConversation isFinalCleanup s)) = 0) /\
  (forall e s, nextStartTime (final (handleFailure e s)) = 0) /\
  (forall lessonMaterial io s,
      nextStartTime (final (startConversation lessonMaterial io s)) = 0) /\
  (forall lessonMaterial s ev,
      nextStartTime s <= nextStartTime (step lessonMaterial s ev) \/
      nextStartTime (step lessonMaterial s ev) = 0).
Proof.
  split; [exact body_cursor|]. split; [|split; [|split]].
  - intros b s. rewrite stopConversation_stopped. reflexivity.
  - intros e s. rewrite handleFailure_failed. apply failed_cursor.
  - intros lm io s. rewrite startConversation_started. apply started_cursor.
  - intros lm s ev. rewrite step_next.
    destruct ev; cbn [next].
    + right. apply started_cursor.
    + right. reflexivity.
    + left. unfold opened. cbv zeta.
      destruct (mediaStream s); apply Qle_refl.
    + unfold received.
      destruct (bodyOutcome pf message s) as [[] s'|e s'] eqn:E.
      * left. apply (body_cursor pf message). now rewrite onmessageBody_outcome.
      * right. apply failed_cursor.
    + right. apply failed_cursor.
    + destruct wasClean; [left; apply Qle_refl | right; apply failed_cursor].
    + left. apply Qle_refl.
    + unfold fired.
      destruct (nth_error (timers s) k) as [timer|]; [|left; apply Qle_refl].
      destruct (callback timer).
      * cbn [startConversationRef set_timers].
        destruct (startConversationRef s) as [[]|].
        -- right. apply started_cursor.
        -- left. apply Qle_refl.
      * left. apply Qle_refl.
    + left. apply Qle_refl.
Qed.

Lemma cursor_never_decreases_until_reset_witness :
  nextStartTime connectedSample
  <= nextStartTime
       (step sampleLesson connectedSample
          (EvMessage (samplePlatform 0) (audioChunk "AAAA"))).
Proof.
  apply (proj1 cursor_never_decreases_until_reset (samplePlatform 0)
           (audioChunk "AAAA") connectedSample).
  vm_compute. reflexivity.
Defined.

(** *** The reconnect counter *)

Lemma failed_below e s :
  (reconnectAttempts s < MAX_RECONNECT_ATTEMPTS)%Z ->
  reconnectAttempts (failed e s) = (reconnectAttempts s + 1)%Z /\
  connectionState (failed e s) = reconnecting /\
  timers (failed e s)
  = (timers s ++ [{| callback := CallStartConversationRef;
                     delay := (2 ^ reconnectAttempts s * 1000)%Z |}])%list.
Proof.
  intros H. apply Z.ltb_lt in H. unfold failed. cbv zeta. rewrite H. cbn.
  rewrite Z.add_simpl_r. auto.
Qed.

Lemma failed_exhausted e s :
  (MAX_RECONNECT_ATTEMPTS <= reconnectAttempts s)%Z ->
  reconnectAttempts (failed e s) = reconnectAttempts s /\
  connectionState (failed e s) = error /\
  timers (failed e s) = timers s.
Proof.
  intros H. apply Z.ltb_ge in H. unfold failed. cbv zeta. rewrite H. cbn.
  auto.
Qed.

Lemma failed_attempts e s :
  reconnectAttempts (failed e s) = reconnectAttempts s \/
  ((reconnectAttempts s < MAX_RECONNECT_ATTEMPTS)%Z /\
   reconnectAttempts (failed e s) = (reconnectAttempts s + 1)%Z).
Proof.
  destruct (Z.lt_ge_cases (reconnectAttempts s) MAX_RECONNECT_ATTEMPTS) as [H|H].
  - right. split; [exact H | apply (failed_below e s H)].
  - left. apply (failed_exhausted e s H).
Qed.

Lemma started_attempts lm io s :
  reconnectAttempts (started lm io s) = reconnectAttempts s \/
  ((reconnectAttempts s < MAX_RECONNECT_ATTEMPTS)%Z /\
   reconnectAttempts (started lm io s) = (reconnectAttempts s + 1)%Z).
Proof.
  unfold started. cbv zeta.
  destruct (userMedia io) as [stream|e].
  - destruct (session io) as [u|e]; [left; reflexivity|].
    match goal with |- context [failed e ?st] =>
      destruct (failed_attempts e st) as [H|H]; cbn in H; auto end.
  - match goal with |- context [failed e ?st] =>
      destruct (failed_attempts e st) as [H|H]; cbn in H; auto end.
Qed.

Lemma received_attempts pf message s :
  reconnectAttempts (received pf message s) = reconnectAttempts s \/
  ((reconnectAttempts s < MAX_RECONNECT_ATTEMPTS)%Z /\
   reconnectAttempts (received pf message s) = (reconnectAttempts s + 1)%Z).
Proof.
  assert (T : reconnectAttempts (transcribed pf message s) = reconnectAttempts s).
  { unfold transcribed, withPartials, withTurn.
    destruct (turnComplete message), (inputTranscription message),
      (outputTranscription message); reflexivity. }
  unfold received, bodyOutcome. cbv zeta.
  destruct (audioToPlay pf message (transcribed pf message s)) as [[b|]|e].
  - left. cbn. exact T.
  - left. exact T.
  - match goal with |- context [failed e ?st] =>
      destruct (failed_attempts e st) as [H|H]; cbn in H; rewrite T in H; auto
    end.
Qed.

(** What one event can do to the counter: leave it, add one below the
    maximum, or, for [onopen] only, set it to zero. *)
Lemma step_attempts lm s ev :
  let s' := step lm s ev in
  reconnectAttempts s' = reconnectAttempts s \/
  ((reconnectAttempts s < MAX_RECONNECT_ATTEMPTS)%Z /\
   reconnectAttempts s' = (reconnectAttempts s + 1)%Z) \/
  (ev = EvOpen /\ connectionState s' = connected /\ reconnectAttempts s' = 0%Z).
Proof.
  assert (widen : forall a b : Z,
             a = b \/ ((b < MAX_RECONNECT_ATTEMPTS)%Z /\ a = (b + 1)%Z) ->
             forall P : Prop,
               a = b \/ ((b < MAX_RECONNECT_ATTEMPTS)%Z /\ a = (b + 1)%Z) \/ P)
    by (intros a b [H|H] P; auto).
  cbv zeta. rewrite step_next. destruct ev; cbn [next].
  - apply widen.
    apply (started_attempts lm io
             (set_startConversationRef (Some StartConversation) s)).
  - left. reflexivity.
  - right. right. unfold opened. cbv zeta.
    destruct (mediaStream s); auto.
  - apply widen, received_attempts.
  - apply widen, failed_attempts.
  - destruct wasClean; [left; reflexivity|].
    apply widen, failed_attempts.
  - left. reflexivity.
  - unfold fired.
    destruct (nth_error (timers s) k) as [timer|]; [|left; reflexivity].
    destruct (callback timer); [|left; reflexivity].
    cbn [startConversationRef set_timers].
    destruct (startConversationRef s) as [[]|]; [|left; reflexivity].
    apply widen.
    apply (started_attempts lm io (set_timers (removeNth k (timers s)) s)).
  - left. reflexivity.
Qed.

Lemma run_attempts_bounded lm evs : forall s,
  (0 <= reconnectAttempts s <= MAX_RECONNECT_ATTEMPTS)%Z ->
  (0 <= reconnectAttempts (run lm evs s) <= MAX_RECONNECT_ATTEMPTS)%Z.
Proof.
  induction evs as [|ev evs IH]; intros s Hs; [exact Hs|].
  cbn [run fold_left]. apply IH.
  destruct (step_attempts lm s ev) as [H|[(Hlt & H)|(_ & _ & H)]];
    rewrite H; unfold MAX_RECONNECT_ATTEMPTS in *; lia.
Qed.

(** C2, as stated, fails: after three failures in a row (the first connect
    and two reconnects each refused) the counter reads 3 and the state is
    [reconnecting] with a third reconnect pending, not the terminal error. *)
Lemma three_failures_leave_reconnecting :
  let s3 :=
    run sampleLesson [EvMount refused; EvTimer 0 refused; EvTimer 0 refused]
      initial in
  reconnectAttempts s3 = 3%Z /\
  connectionState s3 = reconnecting /\
  connectionState s3 <> error /\
  scheduledReconnects s3 = [4000%Z].
Proof.
  cbv zeta. repeat split; try reflexivity. discriminate.
Qed.

(** C2, amended.  The counter starts at 0.  A failure while it is below
    the maximum (3) adds exactly 1, moves to [reconnecting] and schedules one
    reconnect after [2^(attempts-1)] seconds; a failure once it has reached
    the maximum leaves it, moves to the terminal error and schedules nothing.
    No event lowers the counter except [onopen], which moves to [connected]
    and sets it to 0; it never leaves the range 0..3.  After three failures
    in a row from 0 the counter reads 3, the state is [reconnecting] and
    three reconnects have been scheduled; the fourth failure in a row ends in
    the terminal error with the counter still 3 and no fourth reconnect. *)
Theorem reconnect_counter :
  reconnectAttempts initial = 0%Z /\
  (forall e s,
      (reconnectAttempts s < MAX_RECONNECT_ATTEMPTS)%Z ->
      let s' := final (handleFailure e s) in
      reconnectAttempts s' = (reconnectAttempts s + 1)%Z /\
      connectionState s' = reconnecting /\
      timers s'
      = (timers s ++ [{| callback := CallStartConversationRef;
                         delay := (2 ^ reconnectAttempts s * 1000)%Z |}])%list) /\
  (forall e s,
      (MAX_RECONNECT_ATTEMPTS <= reconnectAttempts s)%Z ->
      let s' := final (handleFailure e s) in
      reconnectAttempts s' = reconnectAttempts s /\
      connectionState s' = error /\
      timers s' = timers s) /\
  (forall lessonMaterial s ev,
      let s' := step lessonMaterial s ev in
      reconnectAttempts s' = reconnectAttempts s \/
      ((reconnectAttempts s < MAX_RECONNECT_ATTEMPTS)%Z /\
       reconnectAttempts s' = (reconnectAttempts s + 1)%Z) \/
      (ev = EvOpen /\ connectionState s' = connected /\
       reconnectAttempts s' = 0%Z)) /\
  (forall lessonMaterial evs,
      (0 <= reconnectAttempts (run lessonMaterial evs initial)
         <= MAX_RECONNECT_ATTEMPTS)%Z) /\
  (forall lessonMaterial s e1 e2 e3 e4,
      reconnectAttempts s = 0%Z ->
      let s3 := run lessonMaterial [EvError e1; EvError e2; EvError e3] s in
      let s4 := step lessonMaterial s3 (EvError e4) in
      reconnectAttempts s3 = 3%Z /\
      connectionState s3 = reconnecting /\
      scheduledReconnects s3
      = (scheduledReconnects s ++ [1000; 2000; 4000])%list%Z /\
      reconnectAttempts s4 = 3%Z /\
      connectionState s4 = error /\
      timers s4 = timers s3).
Proof.
  split; [reflexivity|]. split; [|split; [|split; [|split]]].
  - intros e s H. cbv zeta. rewrite handleFailure_failed.
    apply (failed_below e s H).
  - intros e s H. cbv zeta. rewrite handleFailure_failed.
    apply (failed_exhausted e s H).
  - exact step_attempts.
  - intros lm evs. apply run_attempts_bounded. cbn.
    unfold MAX_RECONNECT_ATTEMPTS. lia.
  - intros lm s e1 e2 e3 e4 H0. cbv zeta.
    cbn [run fold_left]. rewrite !step_next. cbn [next].
    set (s1 := failed e1 s). set (s2 := failed e2 s1). set (s3 := failed e3 s2).
    destruct (failed_below e1 s) as (A1 & _ & T1);
      [rewrite H0; reflexivity|].
    fold s1 in A1, T1. rewrite H0 in A1, T1.
    destruct (failed_below e2 s1) as (A2 & _ & T2);
      [rewrite A1; reflexivity|].
    fold s2 in A2, T2. rewrite A1 in A2, T2.
    destruct (failed_below e3 s2) as (A3 & C3 & T3);
      [rewrite A2; reflexivity|].
    fold s3 in A3, C3, T3. rewrite A2 in A3, T3.
    destruct (failed_exhausted e4 s3) as (A4 & C4 & T4);
      [rewrite A3; discriminate|].
    rewrite A3 in A4.
    repeat split; auto.
    unfold scheduledReconnects. rewrite T3, T2, T1.
    rewrite !flat_map_app. cbn. rewrite <- !app_assoc. reflexivity.
Qed.

Lemma reconnect_counter_witness :
  let s3 :=
    run sampleLesson
      [EvError NotAnError; EvError NotAnError; EvError NotAnError]
      connectedSample in
  let s4 := step sampleLesson s3 (EvError (ErrorObject "network down")) in
  reconnectAttempts s3 = 3%Z /\
  connectionState s3 = reconnecting /\
  scheduledReconnects s3 = [1000; 2000; 4000]%Z /\
  reconnectAttempts s4 = 3%Z /\
  connectionState s4 = error /\
  timers s4 = timers s3.
Proof.
  apply (proj2 (proj2 (proj2 (proj2 (proj2 reconnect_counter))))
           sampleLesson connectedSample NotAnError NotAnError NotAnError
           (ErrorObject "network down")).
  reflexivity.
Defined.

(** *** Calls to [onEndLesson] and the timers *)

Lemma connectsBegun_quiet :
  (forall fx, teardownEffect fx ->
     match fx with GetUserMedia => [tt] | _ => [] end = []) /\
  match ConsoleError with GetUserMedia => [tt] | _ => [] end = @nil unit.
Proof. split; [intros [] H; try reflexivity; destruct H | reflexivity]. Qed.

Lemma failed_connectsBegun e s : connectsBegun (failed e s) = connectsBegun s.
Proof.
  unfold connectsBegun. apply failed_quiet; apply connectsBegun_quiet.
Qed.

Lemma started_calls lm io s :
  endLessonCalls (started lm io s) = endLessonCalls s /\
  connectsBegun (started lm io s) = (connectsBegun s ++ [tt])%list /\
  scheduledEnds (started lm io s) = scheduledEnds s.
Proof.
  assert (Qe : forall b s0, endLessonCalls (stopped b s0) = endLessonCalls s0)
    by (intros; apply stopped_quiet, endLessonCalls_quiet).
  assert (Qc : forall b s0, connectsBegun (stopped b s0) = connectsBegun s0)
    by (intros; apply stopped_quiet, connectsBegun_quiet).
  unfold started. cbv zeta.
  destruct (userMedia io) as [stream|e].
  - destruct (session io) as [u|e];
      rewrite ?failed_endLessonCalls, ?failed_connectsBegun,
        ?failed_scheduledEnds;
      unfold endLessonCalls, connectsBegun, scheduledEnds;
      cbn [effects timers set_sessionPromise set_effects set_nextObject
           set_outputAudioContext set_mediaStream set_connectionState
           set_connectionError];
      rewrite !flat_map_app;
      fold (endLessonCalls (stopped false s));
      fold (connectsBegun (stopped false s));
      rewrite Qe, Qc; cbn; rewrite ?app_nil_r; auto.
  - rewrite failed_endLessonCalls, failed_connectsBegun, failed_scheduledEnds.
    unfold endLessonCalls, connectsBegun, scheduledEnds.
    cbn [effects timers set_effects set_connectionState set_connectionError].
    rewrite !flat_map_app.
    fold (endLessonCalls (stopped false s)).
    fold (connectsBegun (stopped false s)).
    rewrite Qe, Qc. cbn. rewrite ?app_nil_r. auto.
Qed.


Lemma ended_calls h s :
  endLessonCalls (ended h s) = (endLessonCalls s ++ [h])%list.
Proof. unfold ended, endLessonCalls. cbn. now rewrite flat_map_app. Qed.







(** *** Timers and teardown *)

(** C9, as stated, fails.  A refused first connect schedules a backoff
    timer; the view is unmounted, which leaves the state idle; the timer then
    fires and a second connect sequence runs to completion, acquiring the
    microphone and opening a session.  Likewise an end-of-lesson timer that
    fires after the unmount hands the transcript to the parent. *)
Lemma timers_fire_after_teardown :
  let torn := run sampleLesson [EvMount refused; EvUnmount] initial in
  let after := run sampleLesson refusedThenUnmounted initial in
  let done := run sampleLesson goodbyeThenUnmounted initial in
  connectionState torn = idle /\
  connectsBegun torn = [tt] /\
  connectsBegun after = [tt; tt] /\
  connectionState after = reconnecting /\
  mediaStream after = Some {| tracks := [0%nat] |} /\
  sessionPromise after <> None /\
  endLessonCalls done = [farewellLog].
Proof.
  cbv zeta. repeat split; try reflexivity. discriminate.
Qed.

(** C9, amended.  Timer callbacks are not guarded against teardown.  The
    final teardown leaves the pending timers and [startConversationRef] as
    they were.  A backoff timer that fires afterwards finds the reference
    still set and runs [startConversation] in full: a new capture request is
    made and the state leaves [idle].  An end-of-lesson timer that fires
    afterwards calls [onEndLesson] with the log captured when it was
    scheduled. *)
Theorem timers_survive_teardown :
  forall (lessonMaterial : LessonMaterial) (s : State),
    let torn := step lessonMaterial s EvUnmount in
    timers torn = timers s /\
    startConversationRef torn = startConversationRef s /\
    (forall k io ms,
        nth_error (timers torn) k
        = Some {| callback := CallStartConversationRef; delay := ms |} ->
        startConversationRef s = Some StartConversation ->
        handler lessonMaterial (EvTimer k io) torn
        = startConversation lessonMaterial io
            (set_timers (removeNth k (timers torn)) torn) /\
        connectsBegun (step lessonMaterial torn (EvTimer k io))
        = (connectsBegun torn ++ [tt])%list /\
        connectionState (step lessonMaterial torn (EvTimer k io)) <> idle) /\
    (forall k io newHistory ms,
        nth_error (timers torn) k
        = Some {| callback := CallHandleEndLesson newHistory; delay := ms |} ->
        handler lessonMaterial (EvTimer k io) torn
        = handleEndLesson newHistory
            (set_timers (removeNth k (timers torn)) torn) /\
        endLessonCalls (step lessonMaterial torn (EvTimer k io))
        = (endLessonCalls torn ++ [newHistory])%list).
Proof.
  intros lm s. cbv zeta. rewrite (step_next lm s EvUnmount). cbn [next].
  split; [reflexivity|]. split; [reflexivity|]. split.
  - intros k io ms Hk Href. split; [|split].
    + cbn [handler]. unfold timerFires, bind at 1, gets at 1.
      rewrite Hk. unfold bind at 1, modify at 1. cbn [callback runCallback].
      unfold bind at 1, gets at 1.
      cbn [startConversationRef set_timers stopped]. rewrite Href.
      reflexivity.
    + rewrite step_next. cbn [next]. unfold fired. rewrite Hk.
      cbn [callback startConversationRef stopped]. rewrite Href.
      rewrite (proj1 (proj2 (started_calls lm io _))). reflexivity.
    + rewrite step_next. cbn [next]. unfold fired. rewrite Hk.
      cbn [callback startConversationRef stopped]. rewrite Href.
      unfold started, failed. cbv zeta.
      repeat match goal with
             | |- context [match ?x with _ => _ end] => destruct x
             end; cbn; discriminate.
  - intros k io h ms Hk. split.
    + cbn [handler]. unfold timerFires, bind at 1, gets at 1.
      rewrite Hk. unfold bind at 1, modify at 1. reflexivity.
    + rewrite step_next. cbn [next]. unfold fired. rewrite Hk.
      cbn [callback]. rewrite ended_calls. reflexivity.
Qed.

Lemma timers_survive_teardown_witness :
  let torn :=
    step sampleLesson (step sampleLesson initial (EvMount refused)) EvUnmount in
  connectsBegun (step sampleLesson torn (EvTimer 0 granted))
  = (connectsBegun torn ++ [tt])%list.
Proof.
  apply (proj1 (proj2 (proj2 (timers_survive_teardown sampleLesson
                                (step sampleLesson initial (EvMount refused)))))
           0%nat granted 1000%Z).
  - reflexivity.
  - reflexivity.
Defined.

(** *** Teardown is total and idempotent *)

(** C7.  [stopConversation] never raises, whatever the cells hold and
    whichever guarded platform calls throw; after it the session handle, the
    capture stream, the capture graph nodes and the tracked playback sources
    are cleared (their release calls having been made) and the playback
    cursor is zero.  A second call in a row completes as well, finds nothing
    left to release but the close requests of contexts not yet closed, and
    a call on the cells of a component that never acquired anything changes
    nothing. *)
Theorem stopConversation_total_idempotent :
  forall (first second : bool) (s : State),
  exists s1 s2,
    stopConversation first s = Normal tt s1 /\
    stopConversation second s1 = Normal tt s2 /\
    released s1 /\ released s2 /\
    effects s1 = (effects s ++ teardownCalls s)%list /\
    effects s2 = (effects s1 ++ closeCalls (inputAudioContext s)
                            ++ closeCalls (outputAudioContext s))%list /\
    stopConversation first initial = Normal tt initial.
Proof.
  intros first second s.
  exists (stopped first s), (stopped second (stopped first s)).
  rewrite !stopConversation_stopped.
  repeat split.
  - unfold teardownCalls. cbn. rewrite app_nil_r. reflexivity.
  - destruct first; reflexivity.
Qed.

End ConversationViewFacts.
(* ================================================================== *)
(** ** Further properties of the Gemini service *)

Module GeminiServiceMore.

Import Types GeminiService Observations ScreenSamples Samples.

(** *** Substrings *)

Lemma occursIn_refl s : occursIn s s.
Proof. exists "", "". cbn. induction s; cbn; congruence. Qed.

Lemma append_assoc (a b c : string) : (a ++ b) ++ c = a ++ (b ++ c).
Proof. induction a; cbn; congruence. Qed.

Lemma occursIn_append word before s after :
  occursIn word s -> occursIn word (before ++ s ++ after).
Proof.
  intros (b & a & ->). exists (before ++ b), (a ++ after).
  now rewrite !append_assoc.
Qed.

Lemma occursIn_left word s after :
  occursIn word s -> occursIn word (s ++ after).
Proof. intros H. apply (occursIn_append word "" s after H). Qed.

Lemma occursIn_right word before s :
  occursIn word s -> occursIn word (before ++ s).
Proof.
  intros (b & a & ->). exists (before ++ b), a. now rewrite !append_assoc.
Qed.

Lemma occursIn_join sep line lines :
  In line lines -> occursIn line (join sep lines).
Proof.
  induction lines as [|l rest IH]; [intros []|].
  intros [->|Hin].
  - destruct rest; cbn [join]; [apply occursIn_refl|].
    apply occursIn_left, occursIn_refl.
  - destruct rest as [|l' rest']; [destruct Hin|].
    cbn [join]. apply occursIn_right, occursIn_right, IH, Hin.
Qed.

(** *** The analyzers *)

(** X13.  [analyzeLessonImage] never rejects and sends at most one request,
    none exactly when the client cannot be built; it returns the model's
    answer when there is one and the fixed fallback briefing otherwise. *)
Theorem analyzeLessonImage_degrades :
  forall (ai : Analyzer) (base64Image : option string) (mimeType : string),
    let result := analyzeLessonImage ai base64Image mimeType in
    let request := imageRequest base64Image mimeType in
    (exists briefing, fst result = Fulfilled briefing) /\
    (snd result = [] \/ snd result = [request]) /\
    (snd result = [] <-> exists e, constructAnalyzer ai = Rejected e) /\
    (forall answer,
        snd result = [request] ->
        generateFromParts ai request = Fulfilled answer ->
        fst result = Fulfilled answer) /\
    ((exists e, constructAnalyzer ai = Rejected e) \/
     (exists e, generateFromParts ai request = Rejected e) ->
     fst result = Fulfilled IMAGE_FALLBACK).
Proof.
  intros ai img mime. cbv zeta. unfold analyzeLessonImage.
  destruct (constructAnalyzer ai) as [[]|e0] eqn:Ec; cbv zeta.
  - destruct (generateFromParts ai (imageRequest img mime)) as [t|e1] eqn:Eg;
      cbn [fst snd].
    + split; [eauto|]. split; [auto|]. split; [|split].
      * split; [discriminate | intros [e He]; discriminate].
      * intros answer _ H. congruence.
      * intros [[e He]|[e He]]; discriminate.
    + split; [eauto|]. split; [auto|]. split; [|split].
      * split; [discriminate | intros [e He]; discriminate].
      * intros answer _ H. discriminate.
      * reflexivity.
  - cbn [fst snd]. split; [eauto|]. split; [auto|]. split; [|split].
    + split; eauto.
    + intros answer H. discriminate.
    + reflexivity.
Qed.

Lemma analyzeLessonImage_degrades_witness :
  fst (analyzeLessonImage unreachableAnalyzer (Some "iVBORw0KGgo=") "image/png")
  = Fulfilled IMAGE_FALLBACK.
Proof.
  apply (analyzeLessonImage_degrades unreachableAnalyzer
           (Some "iVBORw0KGgo=") "image/png").
  right. exists (ErrorObject "503"). reflexivity.
Defined.

(** X14.  [analyzeUrlForLesson] never rejects and sends at most one request,
    whose prompt names the URL; when the analysis fails it returns the
    fallback briefing, which names the URL as well. *)
Theorem analyzeUrlForLesson_degrades :
  forall (ai : Analyzer) (url : string),
    let result := analyzeUrlForLesson ai url in
    (exists briefing, fst result = Fulfilled briefing) /\
    (snd result = [] \/ snd result = [urlRequest url]) /\
    (forall request text,
        In request (snd result) -> In (Text text) (requestParts request) ->
        occursIn url text) /\
    ((exists e, constructAnalyzer ai = Rejected e) \/
     (exists e, generateFromParts ai (urlRequest url) = Rejected e) ->
     fst result = Fulfilled (urlFallback url) /\
     occursIn url (urlFallback url)).
Proof.
  intros ai url. cbv zeta. unfold analyzeUrlForLesson.
  assert (Hprompt : forall request text,
             In request [urlRequest url] ->
             In (Text text) (requestParts request) -> occursIn url text).
  { intros request text [<-|[]] [H|[]]. inversion H; subst.
    unfold urlInstruction. apply occursIn_right, occursIn_left, occursIn_refl. }
  assert (Hfb : occursIn url (urlFallback url))
    by (unfold urlFallback; apply occursIn_right, occursIn_refl).
  destruct (constructAnalyzer ai) as [[]|e0] eqn:Ec; cbv zeta.
  - destruct (generateFromParts ai (urlRequest url)) as [t|e1] eqn:Eg;
      cbn [fst snd].
    + split; [eauto|]. split; [auto|]. split; [exact Hprompt|].
      intros [[e He]|[e He]]; discriminate.
    + split; [eauto|]. split; [auto|]. split; [exact Hprompt|]. auto.
  - cbn [fst snd]. split; [eauto|]. split; [auto|]. split; [|auto].
    intros request text [].
Qed.

Lemma analyzeUrlForLesson_degrades_witness :
  fst (analyzeUrlForLesson unreachableAnalyzer "https://example.com/lesson")
  = Fulfilled (urlFallback "https://example.com/lesson") /\
  occursIn "https://example.com/lesson"
    (urlFallback "https://example.com/lesson").
Proof.
  apply (analyzeUrlForLesson_degrades unreachableAnalyzer
           "https://example.com/lesson").
  right. exists (ErrorObject "503"). reflexivity.
Defined.

(** *** The feedback request *)

(** X15.  [generateFeedback] sends at most one request, none exactly when the
    log is empty or the client cannot be built; every log entry appears in
    the prompt as a labelled line, and the model's answer is returned
    unchanged. *)
Theorem generateFeedback_request :
  forall (ai : GoogleGenAI) (history : list TranscriptionEntry),
    let result := generateFeedback ai history in
    (snd result = [] \/ snd result = [feedbackRequest history]) /\
    (snd result = [] <->
     history = [] \/ exists e, construct ai = Rejected e) /\
    (forall request entry,
        In request (snd result) -> In entry history ->
        occursIn (transcriptLine entry) (contents request)) /\
    (forall answer,
        snd result = [feedbackRequest history] ->
        generateContent ai (feedbackRequest history) = Fulfilled answer ->
        fst result = Fulfilled answer).
Proof.
  intros ai history. cbv zeta. unfold generateFeedback.
  assert (Hlines : forall request entry,
             In request [feedbackRequest history] -> In entry history ->
             occursIn (transcriptLine entry) (contents request)).
  { intros request entry [<-|[]] Hin. cbn [feedbackRequest contents].
    unfold feedbackPrompt.
    apply occursIn_right, occursIn_left, occursIn_join, in_map, Hin. }
  destruct history as [|entry0 rest]; cbn [List.length Nat.eqb].
  - cbn [fst snd]. split; [auto|]. split; [|split].
    + split; auto.
    + intros request entry [].
    + intros answer H; discriminate.
  - destruct (construct ai) as [[]|e0] eqn:Ec; cbv zeta.
    + destruct (generateContent ai (feedbackRequest (entry0 :: rest)))
        as [t|e1] eqn:Eg; cbn [fst snd].
      * split; [auto|]. split; [|split; [exact Hlines|]].
        -- split; [discriminate | intros [H|[e He]]; discriminate].
        -- intros answer _ H. congruence.
      * split; [auto|]. split; [|split; [exact Hlines|]].
        -- split; [discriminate | intros [H|[e He]]; discriminate].
        -- intros answer _ H. discriminate.
    + cbn [fst snd]. split; [auto|]. split; [|split].
      * split; eauto.
      * intros request entry [].
      * intros answer H; discriminate.
Qed.

Lemma generateFeedback_request_witness :
  occursIn "Student: Hello" (contents (feedbackRequest oneTurn)) /\
  fst (generateFeedback answeringService oneTurn) = Fulfilled "Well spoken.".
Proof.
  destruct (generateFeedback_request answeringService oneTurn)
    as (_ & _ & Hlines & Hanswer).
  split.
  - apply (Hlines (feedbackRequest oneTurn)
             {| id := "user-1"; speaker := user; text := "Hello" |}).
    + left. reflexivity.
    + left. reflexivity.
  - apply Hanswer; reflexivity.
Defined.

End GeminiServiceMore.

(* ================================================================== *)
(** ** Properties of the welcome screen *)

Module WelcomeScreenFacts.

Import Types GeminiService WelcomeScreen ScreenObservations ScreenSamples.

Lemma analyzeLessonImage_fulfilled ai img mime :
  exists briefing sent,
    analyzeLessonImage ai img mime = (Fulfilled briefing, sent) /\
    (sent = [] \/ sent = [imageRequest img mime]).
Proof.
  unfold analyzeLessonImage.
  destruct (constructAnalyzer ai); [|eauto].
  cbv zeta. destruct (generateFromParts ai (imageRequest img mime)); eauto.
Qed.

Lemma analyzeUrlForLesson_fulfilled ai url :
  exists briefing sent,
    analyzeUrlForLesson ai url = (Fulfilled briefing, sent) /\
    (sent = [] \/ sent = [urlRequest url]).
Proof.
  unfold analyzeUrlForLesson.
  destruct (constructAnalyzer ai); [|eauto].
  cbv zeta. destruct (generateFromParts ai (urlRequest url)); eauto.
Qed.

(** *** [split] *)

Lemma split_nonempty sep s : split sep s <> [].
Proof.
  destruct s as [|c s]; cbn; [discriminate|].
  destruct (Ascii.eqb c sep); [discriminate|].
  destruct (split sep s); discriminate.
Qed.

Lemma join_split sep s :
  join (String sep EmptyString) (split sep s) = s.
Proof.
  induction s as [|c s IH]; [reflexivity|].
  cbn [split]. pose proof (split_nonempty sep s) as Hne.
  destruct (split sep s) as [|p more]; [congruence|]. clear Hne.
  destruct (Ascii.eqb c sep) eqn:E.
  - apply Ascii.eqb_eq in E. subst c. rewrite <- IH.
    destruct more; reflexivity.
  - rewrite <- IH. destruct more; reflexivity.
Qed.

Lemma split_lacks sep s : lacks sep s = true -> split sep s = [s].
Proof.
  induction s as [|c s IH]; [reflexivity|].
  cbn. destruct (Ascii.eqb c sep); [discriminate|].
  cbn. intros H. now rewrite (IH H).
Qed.

Lemma split_cons sep head rest :
  lacks sep head = true ->
  split sep (head ++ String sep rest) = head :: split sep rest.
Proof.
  induction head as [|c head IH]; cbn.
  - intros _. now rewrite Ascii.eqb_refl.
  - destruct (Ascii.eqb c sep); [discriminate|]. cbn. intros H.
    now rewrite (IH H).
Qed.

(** *** [handleStart] and the Start button *)

Section Trim.

Variable trim : string -> string.

(** X16.  [handleStart] never leaves an error message: the analyzers never
    reject, so its catch branches are not taken.  It starts at most one
    lesson and sends at most one request, and leaves the loading flag
    cleared. *)
Theorem handleStart_never_reports :
  forall (ai : Analyzer) (s : State),
    let done := handleStart trim ai s in
    error (after done) = None /\
    (List.length (lessons done) <= 1)%nat /\
    (List.length (requests done) <= 1)%nat /\
    (isLoading s = false -> isLoading (after done) = false) /\
    (lessons done = [] -> requests done = []).
Proof.
  intros ai s. cbv zeta. unfold handleStart. cbv zeta.
  cbn [inputType imageFile setError textContent urlContent imagePreview].
  destruct (inputType s).
  - destruct (imageFile s) as [file|]; [|cbn; auto].
    destruct (truthyOpt (imagePreview s)); [|cbn; auto].
    match goal with |- context [analyzeLessonImage ai ?img ?mime] =>
      destruct (analyzeLessonImage_fulfilled ai img mime)
        as (briefing & sent & -> & [->| ->]) end;
      cbn; repeat split; auto; discriminate.
  - destruct (truthy (trim (textContent s))); cbn; auto.
  - destruct (truthy (trim (urlContent s))); [|cbn; auto].
    destruct (analyzeUrlForLesson_fulfilled ai (urlContent s))
      as (briefing & sent & -> & [->| ->]);
      cbn; repeat split; auto; discriminate.
Qed.

(** X17.  When the Start button is enabled and, for an image, the preview has
    loaded, [handleStart] starts exactly one lesson of the selected kind
    (with the pasted text as content, or the URL as source). *)
Theorem enabled_start_begins_lesson :
  forall (ai : Analyzer) (s : State),
    isStartDisabled trim s = false ->
    (inputType s = inputImage -> truthyOpt (imagePreview s) = true) ->
    let done := handleStart trim ai s in
    exists material,
      lessons done = [material] /\
      type material
      = match inputType s with
        | inputImage => type_image
        | inputText => type_text
        | inputUrl => type_url
        end /\
      (inputType s = inputText -> content material = textContent s) /\
      (inputType s = inputUrl -> sourceUrl material = Some (urlContent s)) /\
      isLoading (after done) = false.
Proof.
  intros ai s Henabled Hpreview. cbv zeta.
  unfold isStartDisabled in Henabled.
  apply orb_false_iff in Henabled. destruct Henabled as (Henabled & Hurl).
  apply orb_false_iff in Henabled. destruct Henabled as (Henabled & Himage).
  apply orb_false_iff in Henabled. destruct Henabled as (Hloading & Htext).
  unfold handleStart. cbv zeta.
  cbn [inputType imageFile setError textContent urlContent imagePreview].
  destruct (inputType s).
  - cbn in Himage. destruct (imageFile s) as [file|]; [|discriminate].
    rewrite (Hpreview eq_refl).
    match goal with |- context [analyzeLessonImage ai ?img ?mime] =>
      destruct (analyzeLessonImage_fulfilled ai img mime)
        as (briefing & sent & -> & _) end.
    eexists. cbn. repeat split; discriminate.
  - cbn in Htext. apply negb_false_iff in Htext. rewrite Htext.
    eexists. cbn. repeat split; auto; discriminate.
  - cbn in Hurl. apply negb_false_iff in Hurl. rewrite Hurl.
    destruct (analyzeUrlForLesson_fulfilled ai (urlContent s))
      as (briefing & sent & -> & _).
    eexists. cbn. repeat split; auto; discriminate.
Qed.

(** X18.  With an image file chosen whose preview has not loaded yet, the
    Start button is enabled but [handleStart] does nothing: no lesson, no
    request, no message. *)
Theorem enabled_start_without_preview_is_inert :
  forall (ai : Analyzer) (s : State) (file : File),
    inputType s = inputImage ->
    imageFile s = Some file ->
    truthyOpt (imagePreview s) = false ->
    isLoading s = false ->
    isStartDisabled trim s = false /\
    handleStart trim ai s
    = {| after := setError None s; lessons := []; requests := [] |}.
Proof.
  intros ai s file Htype Hfile Hpreview Hloading. split.
  - unfold isStartDisabled. rewrite Htype, Hfile, Hloading. reflexivity.
  - unfold handleStart. cbv zeta.
    cbn [inputType imageFile setError imagePreview].
    rewrite Htype, Hfile, Hpreview. reflexivity.
Qed.

(** X19.  When the Start button is disabled for a reason other than loading,
    [handleStart] starts no lesson and sends no request. *)
Theorem disabled_start_does_nothing :
  forall (ai : Analyzer) (s : State),
    isStartDisabled trim s = true ->
    isLoading s = false ->
    handleStart trim ai s
    = {| after := setError None s; lessons := []; requests := [] |}.
Proof.
  intros ai s Hdisabled Hloading.
  unfold isStartDisabled in Hdisabled. rewrite Hloading in Hdisabled.
  unfold handleStart. cbv zeta.
  cbn [inputType imageFile setError textContent urlContent imagePreview].
  destruct (inputType s); cbn in Hdisabled.
  - destruct (imageFile s); [discriminate | reflexivity].
  - rewrite !orb_false_r in Hdisabled. apply negb_true_iff in Hdisabled.
    now rewrite Hdisabled.
  - rewrite ?orb_false_r in Hdisabled. apply negb_true_iff in Hdisabled.
    now rewrite Hdisabled.
Qed.

(** X20.  When the model cannot be reached the lesson still starts: the image
    lesson with the fixed fallback briefing, the URL lesson with the fallback
    briefing naming the URL. *)
Theorem failed_analysis_still_starts :
  forall (ai : Analyzer) (s : State),
    constructAnalyzer ai = Fulfilled tt ->
    (forall request, exists e, generateFromParts ai request = Rejected e) ->
    (forall file,
        inputType s = inputImage -> imageFile s = Some file ->
        truthyOpt (imagePreview s) = true ->
        lessons (handleStart trim ai s)
        = [{| type := type_image; content := IMAGE_FALLBACK;
              sourceUrl := None |}]) /\
    (inputType s = inputUrl -> truthy (trim (urlContent s)) = true ->
     lessons (handleStart trim ai s)
     = [{| type := type_url; content := urlFallback (urlContent s);
           sourceUrl := Some (urlContent s) |}]).
Proof.
  intros ai s Hc Hg. split.
  - intros file Htype Hfile Hpreview. unfold handleStart. cbv zeta.
    cbn [inputType imageFile setError imagePreview].
    rewrite Htype, Hfile, Hpreview. unfold analyzeLessonImage.
    rewrite Hc. cbv zeta.
    match goal with |- context [generateFromParts ai ?r] =>
      destruct (Hg r) as [e ->] end.
    reflexivity.
  - intros Htype Hurl. unfold handleStart. cbv zeta.
    cbn [inputType imageFile setError urlContent].
    rewrite Htype, Hurl. unfold analyzeUrlForLesson.
    rewrite Hc. cbv zeta.
    destruct (Hg (urlRequest (urlContent s))) as [e ->].
    reflexivity.
Qed.

(** X21.  The image data sent for analysis is the part of the preview data
    URL after its comma, with the chosen file's type. *)
Theorem image_data_is_the_payload :
  forall (ai : Analyzer) (s : State) (file : File) (head payload : string),
    constructAnalyzer ai = Fulfilled tt ->
    inputType s = inputImage ->
    imageFile s = Some file ->
    imagePreview s = Some (head ++ String ","%char payload) ->
    lacks ","%char head = true ->
    lacks ","%char payload = true ->
    requests (handleStart trim ai s)
    = [imageRequest (Some payload) (fileType file)].
Proof.
  intros ai s file head payload Hc Htype Hfile Hpreview Hhead Hpayload.
  unfold handleStart. cbv zeta.
  cbn [inputType imageFile setError imagePreview].
  rewrite Htype, Hfile, Hpreview.
  assert (Ht : truthyOpt (Some (head ++ String ","%char payload)) = true)
    by (destruct head; reflexivity).
  rewrite Ht, (split_cons _ head payload Hhead), (split_lacks _ payload Hpayload).
  cbn [nth_error]. unfold analyzeLessonImage. rewrite Hc. cbv zeta.
  destruct (generateFromParts ai _); reflexivity.
Qed.

End Trim.

Lemma enabled_start_begins_lesson_witness :
  exists material,
    lessons (handleStart trimLeft answeringAnalyzer loadedImage) = [material] /\
    type material = type_image.
Proof.
  destruct (enabled_start_begins_lesson trimLeft answeringAnalyzer loadedImage)
    as (material & H1 & H2 & _); [reflexivity | reflexivity |].
  exists material. split; assumption.
Defined.

Lemma enabled_start_without_preview_is_inert_witness :
  isStartDisabled trimLeft pickedImage = false /\
  handleStart trimLeft answeringAnalyzer pickedImage
  = {| after := setError None pickedImage; lessons := []; requests := [] |}.
Proof.
  apply (enabled_start_without_preview_is_inert trimLeft answeringAnalyzer
           pickedImage {| fileType := "image/png" |}); reflexivity.
Defined.

Lemma disabled_start_does_nothing_witness :
  handleStart trimLeft answeringAnalyzer blankText
  = {| after := setError None blankText; lessons := []; requests := [] |}.
Proof.
  apply (disabled_start_does_nothing trimLeft answeringAnalyzer blankText);
    reflexivity.
Defined.

Lemma failed_analysis_still_starts_witness :
  lessons (handleStart trimLeft unreachableAnalyzer typedUrl)
  = [{| type := type_url;
        content := urlFallback "https://example.com/lesson";
        sourceUrl := Some "https://example.com/lesson" |}].
Proof.
  apply (failed_analysis_still_starts trimLeft unreachableAnalyzer typedUrl).
  - reflexivity.
  - intros request. exists (ErrorObject "503"). reflexivity.
  - reflexivity.
  - reflexivity.
Defined.

Lemma image_data_is_the_payload_witness :
  requests (handleStart trimLeft answeringAnalyzer loadedImage)
  = [imageRequest (Some "iVBORw0KGgo=") "image/png"].
Proof.
  apply (image_data_is_the_payload trimLeft answeringAnalyzer loadedImage
           {| fileType := "image/png" |} "data:image/png;base64"
           "iVBORw0KGgo="); reflexivity.
Defined.

Lemma handleStart_never_reports_witness :
  isLoading (after (handleStart trimLeft unreachableAnalyzer loadedImage))
  = false.
Proof.
  apply (handleStart_never_reports trimLeft unreachableAnalyzer loadedImage).
  reflexivity.
Defined.

End WelcomeScreenFacts.

(* ================================================================== *)
(** ** Properties of the application shell and the feedback view *)

Module AppFacts.

Import Types App.

Lemma call_keeps_material s cb :
  (appState s = conversation -> lessonMaterial s <> None) ->
  appState (call s cb) = conversation -> lessonMaterial (call s cb) <> None.
Proof.
  intros Hs. destruct cb; cbn; intros H; discriminate.
Qed.

(** X22.  Whatever callbacks the children make, the shell never shows a blank
    page: the conversation state always has lesson material. *)
Theorem conversation_has_material :
  forall (cbs : list Callback),
    let s := calls cbs initial in
    (appState s = conversation -> lessonMaterial s <> None) /\
    render s <> ShowNothing.
Proof.
  intros cbs. cbv zeta.
  assert (Hinv : appState (calls cbs initial) = conversation ->
                 lessonMaterial (calls cbs initial) <> None).
  { unfold calls.
    assert (G : forall s,
               (appState s = conversation -> lessonMaterial s <> None) ->
               appState (fold_left call cbs s) = conversation ->
               lessonMaterial (fold_left call cbs s) <> None).
    { induction cbs as [|cb cbs IH]; intros s Hs; [exact Hs|].
      cbn [fold_left]. apply IH, call_keeps_material, Hs. }
    apply G. cbn. discriminate. }
  split; [exact Hinv|].
  unfold render. destruct (appState (calls cbs initial)) eqn:E;
    try discriminate.
  destruct (lessonMaterial (calls cbs initial)); [discriminate|].
  exfalso. now apply Hinv.
Qed.

Lemma conversation_has_material_witness :
  lessonMaterial (calls [OnStartLesson Samples.sampleLesson] initial) <> None.
Proof.
  apply (proj1 (conversation_has_material
                  [OnStartLesson Samples.sampleLesson])).
  reflexivity.
Defined.

End AppFacts.

Module FeedbackViewFacts.

Import Types GeminiService FeedbackView Samples ScreenSamples.

(** X23.  The feedback view never shows its own error message: once the
    effect has run, loading is over and the panel shows what
    [generateFeedback] resolved with, the fixed message for an empty log and
    the fallback when generation fails. *)
Theorem getFeedback_never_shows_error :
  forall (ai : GoogleGenAI) (history : list TranscriptionEntry) (s : State),
    let done := fst (getFeedback ai history s) in
    let sent := snd (getFeedback ai history s) in
    isLoading done = false /\
    error done = None /\
    fst (generateFeedback ai history) = Fulfilled (feedback done) /\
    render done = FeedbackText (feedback done) /\
    sent = snd (generateFeedback ai history) /\
    (history = [] -> feedback done = NO_CONVERSATION /\ sent = []) /\
    (history <> [] -> generationFails ai history ->
     feedback done = FEEDBACK_FALLBACK).
Proof.
  intros ai history s. cbv zeta.
  destruct (GeminiServiceFacts.generateFeedback_never_rejects ai history)
    as [text Htext].
  unfold getFeedback. cbv zeta.
  destruct (generateFeedback ai history) as [settled sent] eqn:E.
  cbn [fst] in Htext. subst settled. cbn.
  repeat split.
  - subst history. unfold generateFeedback in E. cbn in E. congruence.
  - subst history. unfold generateFeedback in E. cbn in E. congruence.
  - intros Hne Hfails.
    unfold generateFeedback in E.
    destruct history as [|entry rest]; [congruence|].
    cbn [List.length Nat.eqb] in E.
    destruct Hfails as [[e He]|[e He]].
    + rewrite He in E. congruence.
    + destruct (construct ai); [|congruence].
      cbv zeta in E. rewrite He in E. congruence.
Qed.

Lemma getFeedback_never_shows_error_witness :
  feedback (fst (getFeedback brokenService [] initial)) = NO_CONVERSATION /\
  feedback (fst (getFeedback brokenService oneTurn initial))
  = FEEDBACK_FALLBACK.
Proof.
  split.
  - apply (getFeedback_never_shows_error brokenService [] initial).
    reflexivity.
  - apply (getFeedback_never_shows_error brokenService oneTurn initial).
    + discriminate.
    + right. exists (ErrorObject "503"). reflexivity.
Defined.

End FeedbackViewFacts.

(* ================================================================== *)
(** ** Further properties of the session manager *)

Module ConversationViewMore.

Import Types ConversationView Observations Invariants Samples ConversationViewFacts.
Import GeminiServiceMore.
Local Open Scope monad_scope.

(** *** The log only grows *)

Lemma started_transcript lm io s :
  transcriptionHistory (started lm io s) = transcriptionHistory s /\
  currentUserTranscriptRef (started lm io s) = currentUserTranscriptRef s.
Proof.
  unfold started. cbv zeta.
  destruct (userMedia io) as [stream|e].
  - destruct (session io) as [u|e]; [cbn; auto|].
    match goal with |- context [failed e ?st] =>
      destruct (failed_transcript e st) as (-> & -> & _) end.
    cbn. auto.
  - match goal with |- context [failed e ?st] =>
      destruct (failed_transcript e st) as (-> & -> & _) end.
    cbn. auto.
Qed.

Lemma transcribed_log pf message s :
  exists more,
    transcriptionHistory (transcribed pf message s)
    = (transcriptionHistory s ++ more)%list.
Proof.
  unfold transcribed.
  destruct (withPartials_cells message s) as (W1 & _).
  destruct (turnComplete message).
  - unfold withTurn. cbn -[turnEntries]. rewrite W1. eexists. reflexivity.
  - exists []. now rewrite app_nil_r.
Qed.

Lemma step_log lm s ev :
  exists more,
    transcriptionHistory (step lm s ev)
    = (transcriptionHistory s ++ more)%list.
Proof.
  rewrite step_next.
  assert (same : forall l : list TranscriptionEntry,
             exists more, l = (l ++ more)%list)
    by (intros l; exists []; now rewrite app_nil_r).
  destruct ev; cbn [next].
  - rewrite (proj1 (started_transcript lm io _)). cbn. apply same.
  - cbn. apply same.
  - unfold opened. cbv zeta. destruct (mediaStream s); cbn; apply same.
  - rewrite (proj1 (received_transcript pf message s)).
    apply transcribed_log.
  - rewrite (proj1 (failed_transcript e s)). apply same.
  - destruct wasClean; [apply same|].
    rewrite (proj1 (failed_transcript NotAnError s)). apply same.
  - cbn. apply same.
  - unfold fired. destruct (nth_error (timers s) k) as [timer|]; [|apply same].
    destruct (callback timer).
    + cbn [startConversationRef set_timers].
      destruct (startConversationRef s) as [[]|]; [|cbn; apply same].
      rewrite (proj1 (started_transcript lm io _)). cbn. apply same.
    + cbn. apply same.
  - cbn. apply same.
Qed.

(** X1.  The transcript log is append-only: whatever events are handled, the
    log afterwards is the log before followed by further entries; no entry is
    edited or removed. *)
Theorem transcript_log_append_only :
  forall (lessonMaterial : LessonMaterial) (evs : list Event) (s : State),
  exists more,
    transcriptionHistory (run lessonMaterial evs s)
    = (transcriptionHistory s ++ more)%list.
Proof.
  intros lm evs. induction evs as [|ev evs IH]; intros s.
  - exists []. cbn. now rewrite app_nil_r.
  - cbn [run fold_left]. fold (run lm evs (step lm s ev)).
    destruct (IH (step lm s ev)) as (more2 & ->).
    destruct (step_log lm s ev) as (more1 & ->).
    exists (more1 ++ more2)%list. now rewrite app_assoc.
Qed.

(** *** [onopen] *)

(** X5.  [onopen] marks the state connected and resets the counter before it
    builds the capture graph: with no capture stream it throws, having
    already done so and having connected no node; with a stream it completes
    and connects two distinct new nodes. *)
Theorem onopen_without_stream_throws :
  forall s : State,
    (mediaStream s = None ->
     exists e s',
       onopen s = Thrown e s' /\
       connectionState s' = connected /\ reconnectAttempts s' = 0%Z /\
       inputAudioContext s' <> None /\
       mediaStreamSource s' = mediaStreamSource s /\
       scriptProcessor s' = scriptProcessor s /\
       effects s' = effects s) /\
    (mediaStream s <> None ->
     exists s',
       onopen s = Normal tt s' /\
       connectionState s' = connected /\ reconnectAttempts s' = 0%Z /\
       inputAudioContext s' <> None /\
       mediaStreamSource s' <> None /\ scriptProcessor s' <> None /\
       (exists source processor,
          effects s'
          = (effects s ++ [NodeConnect source; NodeConnect processor])%list /\
          source <> processor)).
Proof.
  intros s.
  destruct s as [th cu cg cs ce sp ms ic scp mss oc srcs nst ra cur cgr scr
                 tm fx no].
  cbn [mediaStream]. split; intros Hs.
  - subst ms. vm_compute. do 2 eexists. split; [reflexivity|].
    repeat split; discriminate.
  - destruct ms as [stream|]; [|congruence].
    vm_compute. eexists. split; [reflexivity|].
    repeat split; try discriminate.
    exists (S no), (S (S no)). split.
    + clear. induction fx; cbn; congruence.
    + lia.
Qed.

Lemma onopen_without_stream_throws_witness :
  exists e s',
    onopen initial = Thrown e s' /\ connectionState s' = connected /\
    reconnectAttempts s' = 0%Z.
Proof.
  destruct (proj1 (onopen_without_stream_throws initial))
    as (e & s' & H1 & H2 & H3 & _); [reflexivity|].
  exists e, s'. repeat split; assumption.
Defined.

(** *** A connect tears the previous session down first *)






(** *** The instruction sent on a reconnect *)

Lemma length_append (a b : string) :
  String.length (a ++ b) = (String.length a + String.length b)%nat.
Proof. induction a; cbn; congruence. Qed.

Lemma finalSystemInstruction_recap :
  forall (lessonMaterial : LessonMaterial) (attempts : Z)
         (history : list TranscriptionEntry),
    let base := baseSystemInstruction lessonMaterial in
    let sent := finalSystemInstruction lessonMaterial attempts history in
    (exists recap, sent = base ++ recap) /\
    (sent = base <-> (attempts <= 0)%Z \/ history = []) /\
    ((0 < attempts)%Z ->
     forall entry, In entry history -> occursIn (transcriptLine entry) sent).
Proof.
  intros lm attempts history. cbv zeta. unfold finalSystemInstruction.
  destruct (0 <? attempts)%Z eqn:Ea.
  - apply Z.ltb_lt in Ea.
    destruct history as [|entry0 rest]; cbn [List.length Nat.ltb Nat.leb andb].
    + split; [exists ""; induction (baseSystemInstruction lm); cbn; congruence|].
      split; [split; auto|]. intros _ entry [].
    + cbv zeta. split; [eexists; reflexivity|]. split; [split|].
      * intros H. apply (f_equal String.length) in H.
        rewrite !length_append in H. cbn in H. lia.
      * intros [H|H]; [lia | discriminate].
      * intros _ entry Hin.
        do 7 apply occursIn_right. apply occursIn_left.
        apply occursIn_join, in_map, Hin.
  - apply Z.ltb_ge in Ea. cbn [andb].
    split; [exists ""; induction (baseSystemInstruction lm); cbn; congruence|].
    split; [split; auto|]. intros H. lia.
Qed.

(** X7.  The instruction sent on connect always begins with the base
    instruction; it is the base instruction alone exactly when the counter is
    not positive or the log is empty, and on a reconnect every log entry
    appears in it as a labelled line. *)
Theorem recap_exactly_on_reconnect :
  forall (lessonMaterial : LessonMaterial) (attempts : Z)
         (history : list TranscriptionEntry),
    let base := baseSystemInstruction lessonMaterial in
    let sent := finalSystemInstruction lessonMaterial attempts history in
    (exists recap, sent = base ++ recap) /\
    (sent = base <-> (attempts <= 0)%Z \/ history = []) /\
    ((0 < attempts)%Z ->
     forall entry, In entry history -> occursIn (transcriptLine entry) sent).
Proof. exact finalSystemInstruction_recap. Qed.

Lemma recap_exactly_on_reconnect_witness :
  occursIn "Tutor: Well done. Goodbye!"
    (finalSystemInstruction sampleLesson 1 farewellLog).
Proof.
  apply (proj2 (proj2 (recap_exactly_on_reconnect sampleLesson 1 farewellLog))
           eq_refl
           {| id := "gemini-1700000000000"; speaker := gemini;
              text := "Well done. Goodbye!" |}).
  left. reflexivity.
Defined.

(** *** Ending the lesson by hand *)



(** *** What a connect acquires, the next teardown releases *)


(** *** Audio that cannot be played *)

(** X10.  A message whose audio payload is absent or empty, or which arrives
    while there is no playback context, is handled without failure and
    schedules nothing. *)
Theorem audio_without_context_is_dropped :
  forall (pf : Platform) (message : LiveServerMessage) (s : State)
         (data : option string),
    base64AudioOf message = Fulfilled data ->
    outputAudioContext s = None \/ data = None \/ data = Some "" ->
    exists s',
      onmessageBody pf message s = Normal tt s' /\
      playbackStarts s' = playbackStarts s /\
      nextStartTime s' = nextStartTime s /\
      audioSources s' = audioSources s /\
      reconnectAttempts s' = reconnectAttempts s /\
      sessionPromise s' = sessionPromise s.
Proof.
  intros pf message s data Hdata Hcase.
  rewrite onmessageBody_outcome. unfold bodyOutcome. cbv zeta.
  destruct (transcribed_playback pf message s) as (T1 & T2 & T3).
  assert (Ha : audioToPlay pf message (transcribed pf message s)
               = Fulfilled None).
  { unfold audioToPlay. rewrite Hdata, T3.
    destruct Hcase as [H|[H|H]]; rewrite H.
    - destruct data; reflexivity.
    - reflexivity.
    - destruct (outputAudioContext s); reflexivity. }
  rewrite Ha. eexists. split; [reflexivity|].
  unfold playbackStarts. rewrite T1, T2.
  unfold transcribed, withPartials, withTurn.
  destruct (turnComplete message), (inputTranscription message),
    (outputTranscription message); cbn; auto.
Qed.

Lemma audio_without_context_is_dropped_witness :
  exists s',
    onmessageBody (samplePlatform 0) (audioChunk "!!!!") initial
    = Normal tt s' /\
    playbackStarts s' = playbackStarts initial.
Proof.
  destruct (audio_without_context_is_dropped (samplePlatform 0)
              (audioChunk "!!!!") initial (Some "!!!!"))
    as (s' & H1 & H2 & _).
  - reflexivity.
  - left. reflexivity.
  - exists s'. split; assumption.
Defined.

Lemma playbackStarts_quiet :
  (forall fx, teardownEffect fx ->
     match fx with SourceStart _ t d => [(t, d)] | _ => [] end = []) /\
  match ConsoleError with SourceStart _ t d => [(t, d)] | _ => [] end
  = @nil (Q * Q).
Proof. split; [intros [] H; try reflexivity; destruct H | reflexivity]. Qed.

Lemma failed_playbackStarts e s : playbackStarts (failed e s) = playbackStarts s.
Proof.
  unfold playbackStarts. apply failed_quiet; apply playbackStarts_quiet.
Qed.

(** X11.  A message whose model turn has no parts, or whose payload does not
    decode while a playback context exists, takes the failure path: session
    and stream are released, nothing is scheduled, the state is reconnecting
    (or error once attempts are exhausted), and the transcript written by the
    same message is kept. *)
Theorem unplayable_audio_is_a_failure :
  forall (lessonMaterial : LessonMaterial) (pf : Platform)
         (message : LiveServerMessage) (s : State),
    modelTurn message = Some {| parts := None |} \/
    (exists payload rest,
        modelTurn message
        = Some {| parts := Some ({| inlineData := Some payload |} :: rest) |} /\
        outputAudioContext s <> None /\
        truthy payload = true /\
        (AudioCodec.decode payload = None \/
         exists bytes e,
           AudioCodec.decode payload = Some bytes /\
           decodeAudioData pf bytes 24000%Z 1%Z = Rejected e)) ->
    let s' := step lessonMaterial s (EvMessage pf message) in
    let below := (reconnectAttempts s <? MAX_RECONNECT_ATTEMPTS)%Z in
    sessionPromise s' = None /\
    mediaStream s' = None /\
    audioSources s' = [] /\
    playbackStarts s' = playbackStarts s /\
    connectionState s' = (if below then reconnecting else error) /\
    reconnectAttempts s'
    = (if below then reconnectAttempts s + 1 else reconnectAttempts s)%Z /\
    transcriptionHistory s' = transcriptionHistory (transcribed pf message s).
Proof.
  intros lm pf message s Hcase. cbv zeta.
  rewrite step_next. cbn [next].
  destruct (transcribed_playback pf message s) as (T1 & T2 & T3).
  assert (Ta : reconnectAttempts (transcribed pf message s)
               = reconnectAttempts s).
  { unfold transcribed, withPartials, withTurn.
    destruct (turnComplete message), (inputTranscription message),
      (outputTranscription message); reflexivity. }
  assert (Ha : exists e, audioToPlay pf message (transcribed pf message s)
                         = Rejected e).
  { unfold audioToPlay, base64AudioOf. rewrite T3.
    destruct Hcase as [H|(payload & rest & H & Hctx & Ht & Hd)]; rewrite H.
    - eexists. reflexivity.
    - cbn [parts inlineData].
      destruct (outputAudioContext s); [|congruence]. rewrite Ht.
      destruct Hd as [Hd|(bytes & e & Hd & Hr)]; rewrite Hd.
      + eexists. reflexivity.
      + rewrite Hr. eexists. reflexivity. }
  destruct Ha as [e Ha].
  unfold received, bodyOutcome. cbv zeta. rewrite Ha.
  match goal with |- context [failed e ?st] =>
    pose proof (failed_transcript e st) as (F1 & _)
  end.
  rewrite failed_playbackStarts, F1.
  unfold playbackStarts. cbn [effects transcriptionHistory set_effects].
  rewrite flat_map_app, T2. cbn [flat_map app]. rewrite app_nil_r.
  unfold failed. cbv zeta.
  cbn [reconnectAttempts set_effects]. rewrite Ta.
  destruct (reconnectAttempts s <? MAX_RECONNECT_ATTEMPTS)%Z; cbn;
    rewrite ?Ta; repeat split; reflexivity.
Qed.

Lemma unplayable_audio_is_a_failure_witness :
  let s' :=
    step sampleLesson connectedSample
      (EvMessage (samplePlatform 0) (audioChunk "!!!!")) in
  sessionPromise s' = None /\ connectionState s' = reconnecting.
Proof.
  destruct (unplayable_audio_is_a_failure sampleLesson (samplePlatform 0)
              (audioChunk "!!!!") connectedSample)
    as (H1 & _ & _ & _ & H5 & _).
  - right. exists "!!!!", []. repeat split; try reflexivity.
    + discriminate.
    + left. reflexivity.
  - split; [exact H1 | exact H5].
Defined.

(** *** A reconnect resumes with the conversation so far *)





(** *** Backoff delays *)

Lemma backoffInv_ext s s' :
  reconnectAttempts s' = reconnectAttempts s ->
  scheduledReconnects s' = scheduledReconnects s ->
  backoffInv s -> backoffInv s'.
Proof. unfold backoffInv. intros -> ->. auto. Qed.

Lemma failed_backoff e s : backoffInv s -> backoffInv (failed e s).
Proof.
  intros (Hr & Hd). unfold backoffInv.
  destruct (Z.lt_ge_cases (reconnectAttempts s) MAX_RECONNECT_ATTEMPTS) as [H|H].
  - destruct (failed_below e s H) as (-> & _ & Ht).
    unfold scheduledReconnects in *. rewrite Ht, flat_map_app.
    unfold MAX_RECONNECT_ATTEMPTS in *. split; [lia|].
    apply Forall_app. split; [exact Hd|].
    cbn. constructor; [|constructor].
    assert (Ha : (reconnectAttempts s = 0 \/ reconnectAttempts s = 1 \/
                  reconnectAttempts s = 2)%Z) by lia.
    destruct Ha as [-> | [-> | ->]]; cbn; auto.
  - destruct (failed_exhausted e s H) as (-> & _ & Ht).
    unfold scheduledReconnects in *. rewrite Ht. auto.
Qed.

Lemma started_backoff lm io s : backoffInv s -> backoffInv (started lm io s).
Proof.
  intros H. unfold started. cbv zeta.
  destruct (userMedia io) as [stream|e].
  - destruct (session io) as [u|e].
    + revert H. apply backoffInv_ext; reflexivity.
    + apply failed_backoff. revert H. apply backoffInv_ext; reflexivity.
  - apply failed_backoff. revert H. apply backoffInv_ext; reflexivity.
Qed.

Lemma transcribed_backoff pf message s :
  reconnectAttempts (transcribed pf message s) = reconnectAttempts s /\
  scheduledReconnects (transcribed pf message s) = scheduledReconnects s.
Proof.
  unfold transcribed.
  assert (W : reconnectAttempts (withPartials message s) = reconnectAttempts s
              /\ timers (withPartials message s) = timers s).
  { unfold withPartials.
    destruct (inputTranscription message), (outputTranscription message);
      auto. }
  destruct W as (Wa & Wt).
  destruct (turnComplete message).
  - unfold scheduledReconnects, withTurn, endTimers.
    cbn -[partingWords turnEntries]. rewrite Wa, Wt, flat_map_app.
    destruct (partingWords _); cbn; rewrite app_nil_r; auto.
  - unfold scheduledReconnects. rewrite Wa, Wt. auto.
Qed.

Lemma removeNth_Forall {A B} (P : B -> Prop) (f : A -> list B) k : forall l,
  Forall P (flat_map f l) -> Forall P (flat_map f (removeNth k l)).
Proof.
  induction k as [|k IH]; intros [|x l] H; cbn in *; auto.
  - apply Forall_app in H. apply H.
  - apply Forall_app in H. destruct H as (Hx & Hl).
    apply Forall_app. split; auto.
Qed.

Lemma step_backoff lm s ev : backoffInv s -> backoffInv (step lm s ev).
Proof.
  intros H. rewrite step_next. destruct ev; cbn [next].
  - apply started_backoff. revert H. apply backoffInv_ext; reflexivity.
  - revert H. apply backoffInv_ext; reflexivity.
  - destruct H as (Hr & Hd). unfold opened. cbv zeta.
    destruct (mediaStream s); split; cbn; try exact Hd;
      unfold MAX_RECONNECT_ATTEMPTS; lia.
  - destruct (transcribed_backoff pf message s) as (Ta & Tt).
    assert (Ht : backoffInv (transcribed pf message s))
      by (revert H; apply backoffInv_ext; assumption).
    unfold received, bodyOutcome. cbv zeta.
    destruct (audioToPlay pf message (transcribed pf message s)) as [[b|]|e].
    + revert Ht. apply backoffInv_ext; reflexivity.
    + exact Ht.
    + apply failed_backoff. revert Ht. apply backoffInv_ext; reflexivity.
  - apply failed_backoff, H.
  - destruct wasClean; [exact H | apply failed_backoff, H].
  - revert H. apply backoffInv_ext; reflexivity.
  - unfold fired.
    destruct (nth_error (timers s) k) as [timer|]; [|exact H].
    assert (Hk : backoffInv (set_timers (removeNth k (timers s)) s)).
    { destruct H as (Hr & Hd). split; [exact Hr|].
      unfold scheduledReconnects in *. cbn [timers set_timers].
      apply removeNth_Forall, Hd. }
    destruct (callback timer).
    + cbn [startConversationRef set_timers].
      destruct (startConversationRef s) as [[]|]; [|exact Hk].
      apply started_backoff, Hk.
    + revert Hk. apply backoffInv_ext; reflexivity.
  - revert H. apply backoffInv_ext; reflexivity.
Qed.

(** X2.  In every state the component can reach, the reconnect counter is
    between 0 and 3 and every pending reconnect waits 1000, 2000 or 4000
    milliseconds. *)
Theorem backoff_is_one_two_or_four_seconds :
  forall (lessonMaterial : LessonMaterial) (evs : list Event),
    let s := run lessonMaterial evs initial in
    (0 <= reconnectAttempts s <= MAX_RECONNECT_ATTEMPTS)%Z /\
    (forall ms, In ms (scheduledReconnects s) ->
                ms = 1000%Z \/ ms = 2000%Z \/ ms = 4000%Z).
Proof.
  intros lm evs. cbv zeta.
  assert (G : forall s, backoffInv s -> backoffInv (run lm evs s)).
  { induction evs as [|ev evs IH]; intros s Hs; [exact Hs|].
    cbn [run fold_left]. apply IH, step_backoff, Hs. }
  destruct (G initial) as (Hr & Hd).
  - split; [cbn; unfold MAX_RECONNECT_ATTEMPTS; lia | constructor].
  - split; [exact Hr|]. intros ms Hin.
    rewrite Forall_forall in Hd. specialize (Hd ms Hin). cbn in Hd.
    intuition.
Qed.

Lemma backoff_is_one_two_or_four_seconds_witness :
  scheduledReconnects (run sampleLesson [EvMount refused] initial) = [1000%Z]
  /\ (1000 = 1000 \/ 1000 = 2000 \/ 1000 = 4000)%Z.
Proof.
  split; [vm_compute; reflexivity|].
  apply (proj2 (backoff_is_one_two_or_four_seconds sampleLesson
                  [EvMount refused]) 1000%Z).
  vm_compute. left. reflexivity.
Defined.

(** *** The tracked playback sources *)

Lemma trackedInv_cleared s : audioSources s = [] -> trackedInv s.
Proof. unfold trackedInv. intros ->. split; constructor. Qed.

Lemma trackedInv_grow s s' :
  audioSources s' = audioSources s ->
  (nextObject s <= nextObject s')%nat ->
  trackedInv s -> trackedInv s'.
Proof.
  unfold trackedInv. intros -> Hle (Hall & Hnd). split; [|exact Hnd].
  eapply Forall_impl; [|exact Hall]. cbn. intros x (Hx & Hlt). split; [auto|lia].
Qed.

Lemma failed_cleared e s : audioSources (failed e s) = [].
Proof.
  unfold failed. cbv zeta.
  destruct (reconnectAttempts s <? MAX_RECONNECT_ATTEMPTS)%Z; reflexivity.
Qed.

Lemma started_cleared lm io s : audioSources (started lm io s) = [].
Proof.
  unfold started. cbv zeta.
  destruct (userMedia io) as [stream|e]; [|apply failed_cleared].
  destruct (session io) as [u|e]; [reflexivity | apply failed_cleared].
Qed.

Lemma setAdd_fresh source set :
  Forall (fun x => (sourceId x < sourceId source)%nat) set ->
  setAdd source set = (set ++ [source])%list.
Proof.
  intros H. unfold setAdd.
  assert (E : existsb (fun x => (sourceId x =? sourceId source)%nat) set
              = false).
  { induction H as [|x l Hx _ IH]; [reflexivity|]. cbn.
    rewrite IH, orb_false_r. apply Nat.eqb_neq. lia. }
  now rewrite E.
Qed.

Lemma setDelete_fresh i source set :
  sourceId source = i ->
  Forall (fun x => (sourceId x < i)%nat) set ->
  setDelete i (set ++ [source]) = set.
Proof.
  intros Hi H. unfold setDelete. rewrite filter_app. cbn.
  rewrite Hi, Nat.eqb_refl. cbn. rewrite app_nil_r.
  induction H as [|x l Hx _ IH]; [reflexivity|]. cbn.
  assert (E : (sourceId x =? i)%nat = false) by (apply Nat.eqb_neq; lia).
  rewrite E. cbn. now rewrite IH.
Qed.

Lemma NoDup_map_filter {A B} (f : A -> B) (p : A -> bool) l :
  NoDup (map f l) -> NoDup (map f (filter p l)).
Proof.
  induction l as [|x l IH]; cbn; [auto|].
  intros H. inversion H as [|? ? Hnin Hnd]; subst.
  destruct (p x); cbn; [|auto].
  constructor; [|auto]. intros Hin. apply Hnin.
  apply in_map_iff in Hin. destruct Hin as (y & Hy & Hin).
  apply filter_In in Hin. apply in_map_iff. exists y. tauto.
Qed.

Lemma transcribed_tracked pf message s :
  audioSources (transcribed pf message s) = audioSources s /\
  nextObject (transcribed pf message s) = nextObject s.
Proof.
  unfold transcribed, withPartials, withTurn.
  destruct (turnComplete message), (inputTranscription message),
    (outputTranscription message); cbn; auto.
Qed.

Lemma withAudio_tracked pf b s :
  trackedInv s ->
  audioSources (withAudio pf b s)
  = (audioSources s ++ [{| sourceId := nextObject s; stopThrows := false |}])%list
  /\ trackedInv (withAudio pf b s).
Proof.
  intros (Hall & Hnd).
  assert (Hlt : Forall (fun x => (sourceId x < nextObject s)%nat)
                  (audioSources s)).
  { eapply Forall_impl; [|exact Hall]. cbn. tauto. }
  assert (E : audioSources (withAudio pf b s)
              = (audioSources s
                 ++ [{| sourceId := nextObject s; stopThrows := false |}])%list).
  { unfold withAudio. cbv zeta. cbn [audioSources set_audioSources].
    apply setAdd_fresh. exact Hlt. }
  split; [exact E|]. unfold trackedInv. rewrite E. split.
  - apply Forall_app. split.
    + eapply Forall_impl; [|exact Hall]. cbn. intros x (Hx & Hl).
      split; [auto|]. unfold withAudio. cbn. lia.
    + constructor; [|constructor]. cbn. split; [auto|].
      unfold withAudio. cbn. lia.
  - rewrite map_app. cbn. apply NoDup_app; [exact Hnd | repeat constructor; auto | ].
    intros i Hin [<-|[]].
    apply in_map_iff in Hin. destruct Hin as (x & Hx & Hin).
    rewrite Forall_forall in Hlt. specialize (Hlt x Hin). lia.
Qed.

Lemma step_tracked lm s ev : trackedInv s -> trackedInv (step lm s ev).
Proof.
  intros H. rewrite step_next. destruct ev; cbn [next].
  - apply trackedInv_cleared, started_cleared.
  - apply trackedInv_cleared. reflexivity.
  - revert H. unfold opened. cbv zeta.
    destruct (mediaStream s); apply trackedInv_grow; cbn; auto; lia.
  - destruct (transcribed_tracked pf message s) as (Ts & Tn).
    assert (Ht : trackedInv (transcribed pf message s)).
    { revert H. apply trackedInv_grow; [exact Ts | lia]. }
    unfold received, bodyOutcome. cbv zeta.
    destruct (audioToPlay pf message (transcribed pf message s)) as [[b|]|e].
    + apply withAudio_tracked, Ht.
    + exact Ht.
    + apply trackedInv_cleared, failed_cleared.
  - apply trackedInv_cleared, failed_cleared.
  - destruct wasClean; [exact H | apply trackedInv_cleared, failed_cleared].
  - destruct H as (Hall & Hnd). split; cbn [audioSources set_audioSources nextObject].
    + unfold setDelete. apply Forall_forall. intros x Hin.
      apply filter_In in Hin. rewrite Forall_forall in Hall.
      apply Hall, Hin.
    + unfold setDelete. apply NoDup_map_filter, Hnd.
  - unfold fired.
    destruct (nth_error (timers s) k) as [timer|]; [|exact H].
    destruct (callback timer).
    + cbn [startConversationRef set_timers].
      destruct (startConversationRef s) as [[]|].
      * apply trackedInv_cleared, started_cleared.
      * revert H. apply trackedInv_grow; cbn; auto.
    + revert H. apply trackedInv_grow; cbn; auto.
  - revert H. apply trackedInv_grow; cbn; auto.
Qed.

Lemma run_tracked lm evs : trackedInv (run lm evs initial).
Proof.
  assert (G : forall s, trackedInv s -> trackedInv (run lm evs s)).
  { induction evs as [|ev evs IH]; intros s Hs; [exact Hs|].
    cbn [run fold_left]. apply IH, step_tracked, Hs. }
  apply G, trackedInv_cleared. reflexivity.
Qed.



(** X4.  In a reachable state, a message handled without failure either
    schedules nothing or starts exactly one new source, which is added to the
    tracking set; when that source ends, the set is what it was before. *)
Theorem scheduled_source_tracked_until_ended :
  forall (lessonMaterial : LessonMaterial) (evs : list Event)
         (pf : Platform) (message : LiveServerMessage) (s' : State),
    let s := run lessonMaterial evs initial in
    onmessageBody pf message s = Normal tt s' ->
    (playbackStarts s' = playbackStarts s /\
     audioSources s' = audioSources s) \/
    (exists source startTime length,
       playbackStarts s' = (playbackStarts s ++ [(startTime, length)])%list /\
       In (SourceStart (sourceId source) startTime length) (effects s') /\
       audioSources s' = (audioSources s ++ [source])%list /\
       ~ In (sourceId source) (map sourceId (audioSources s)) /\
       audioSources
         (step lessonMaterial s' (EvSourceEnded (sourceId source)))
       = audioSources s).
Proof.
  intros lm evs pf message s'. cbv zeta.
  pose proof (run_tracked lm evs) as Hinv.
  set (s := run lm evs initial) in *.
  rewrite onmessageBody_outcome. unfold bodyOutcome. cbv zeta.
  destruct (transcribed_tracked pf message s) as (Ts & Tn).
  destruct (transcribed_playback pf message s) as (T1 & T2 & _).
  assert (Ht : trackedInv (transcribed pf message s)).
  { revert Hinv. apply trackedInv_grow; [exact Ts | lia]. }
  destruct (audioToPlay pf message (transcribed pf message s)) as [[b|]|e];
    intros H; inversion H; subst s'; clear H.
  - right. destruct (withAudio_tracked pf b _ Ht) as (Ea & _).
    rewrite Ts, Tn in Ea.
    assert (Hlt : Forall (fun x => (sourceId x < nextObject s)%nat)
                    (audioSources s)).
    { destruct Hinv as (Hall & _).
      eapply Forall_impl; [|exact Hall]. cbn. tauto. }
    exists {| sourceId := nextObject s; stopThrows := false |}.
    do 2 eexists. split; [|split; [|split; [|split]]].
    + unfold playbackStarts, withAudio. cbn. rewrite T2, flat_map_app.
      cbn. reflexivity.
    + unfold withAudio. cbn. rewrite Tn. apply in_or_app. right. right. left.
      rewrite T1. reflexivity.
    + exact Ea.
    + cbn. intros Hin. apply in_map_iff in Hin.
      destruct Hin as (x & Hx & Hin).
      rewrite Forall_forall in Hlt. specialize (Hlt x Hin). lia.
    + rewrite step_next. cbn [next audioSources set_audioSources sourceId].
      rewrite Ea. apply setDelete_fresh; [reflexivity | exact Hlt].
  - left. unfold playbackStarts. rewrite T2, Ts. auto.
Qed.

Lemma scheduled_source_tracked_until_ended_witness :
  exists s',
    onmessageBody (samplePlatform 0) (audioChunk "AAAA")
      (run sampleLesson [EvMount granted; EvOpen] initial)
    = Normal tt s' /\
    List.length (audioSources s') = 1%nat.
Proof.
  eexists. split; [vm_compute; reflexivity|].
  match goal with |- List.length (audioSources ?st) = _ =>
    destruct (scheduled_source_tracked_until_ended sampleLesson
                [EvMount granted; EvOpen] (samplePlatform 0)
                (audioChunk "AAAA") st)
      as [(_ & H)|(source & t & d & _ & _ & H & _)]
  end.
  - vm_compute. reflexivity.
  - rewrite H. discriminate.
  - rewrite H. reflexivity.
Defined.

End ConversationViewMore.
